(** * femty-backend: order placement, stock reservation and payment reconciliation

    A shallow embedding of the order controller
    (src/controllers/orderController.js), of the order router, of the two
    revisions of the payment router, of the upload router and of the body
    parsers src/server.js mounts ahead of the routers, over an explicit model
    of the document store.  Handlers are state-passing functions on [Db]; an
    early [return res.status(..).json(..)] and a rejected promise are the two
    ways a handler body stops before its last statement.

    Numbers are JavaScript Numbers in the source.  The model takes them as
    integers ([Z]): stock counts, quantities and timestamps are integral,
    and integer arithmetic on doubles is exact below 2^53. *)

From stdpp Require Import gmap strings list fin_maps pretty sorting.

Local Open Scope string_scope.
Local Open Scope list_scope.
Local Open Scope Z_scope.

(** Mongoose ObjectIds, the keys of every collection. *)
Abbreviation ObjectId := N (only parsing).

(** ** Documents *)

(** src/models/Product.js: the paths the order controller reads or writes
    and the paths the schema puts a validator on, each with a value of its
    declared type; [rating_average] is [rating.average].  The paths without
    a validator that no handler reads (images, unit, weight, brand, origin,
    featured, rating.count) are left out.  The validators are in
    [Product_validate]. *)
Module Product.
Record t := mk {
  name : string;
  description : string;
  price : Z;
  category : string;
  stock : Z;
  inStock : bool;
  rating_average : Z
}.

Definition set_stock (v : Z) (p : t) : t :=
  {| name := name p; description := description p; price := price p;
     category := category p; stock := v; inStock := inStock p;
     rating_average := rating_average p |}.
Definition set_inStock (v : bool) (p : t) : t :=
  {| name := name p; description := description p; price := price p;
     category := category p; stock := stock p; inStock := v;
     rating_average := rating_average p |}.
End Product.

(** src/models/User.js: [role] is the enum ['user', 'admin']. *)
Inductive Role := RoleUser | RoleAdmin.

Global Instance Role_eq_dec : EqDecision Role.
Proof. solve_decision. Defined.

Module User.
Record t := mk {
  name : string;
  email : string;
  role : Role
}.
End User.

(** A line item as the client sends it and as the order stores it.  The
    product reference is optional (the second payment router creates items
    without one). *)
Module OrderItem.
Record t := mk {
  product : option ObjectId;
  name : string;
  quantity : Z;
  price : Z;
  image : string
}.
End OrderItem.

Record ShippingAddress := {
  street : string;
  city : string;
  state : string;
  zipCode : string;
  country : string
}.

(** The [paymentResult] sub-document.  [update_time] and [email_address] are
    written by [updateOrderToPaid] and by the second payment router, [email]
    by the first payment router. *)
Record PaymentResult := {
  pr_id : option string;
  pr_status : option string;
  pr_update_time : option string;
  pr_email_address : option string;
  pr_email : option string
}.

(** Modelled from the spec: models/Order.js is not among the sources.  The
    status enum is the data model's closed set (pending, processing, shipped,
    delivered, cancelled). *)
Inductive OrderStatus := pending | processing | shipped | delivered | cancelled.

Global Instance OrderStatus_eq_dec : EqDecision OrderStatus.
Proof. solve_decision. Defined.

(** Modelled from the spec: models/Order.js is not among the sources.  The
    fields are those of the data model that the handlers read or write;
    timestamps are milliseconds, [None] is an unset path. *)
Module Order.
Record t := mk {
  user : ObjectId;
  orderItems : list OrderItem.t;
  shippingAddress : option ShippingAddress;
  paymentMethod : string;
  itemsPrice : Z;
  shippingPrice : Z;
  taxPrice : Z;
  totalPrice : Z;
  status : OrderStatus;
  isPaid : bool;
  paidAt : option Z;
  paymentResult : option PaymentResult;
  isDelivered : bool;
  deliveredAt : option Z;
  stripeSessionId : option string
}.

Definition set_status (v : OrderStatus) (o : t) : t :=
  mk (user o) (orderItems o) (shippingAddress o) (paymentMethod o)
     (itemsPrice o) (shippingPrice o) (taxPrice o) (totalPrice o)
     v (isPaid o) (paidAt o) (paymentResult o)
     (isDelivered o) (deliveredAt o) (stripeSessionId o).
Definition set_isPaid (v : bool) (o : t) : t :=
  mk (user o) (orderItems o) (shippingAddress o) (paymentMethod o)
     (itemsPrice o) (shippingPrice o) (taxPrice o) (totalPrice o)
     (status o) v (paidAt o) (paymentResult o)
     (isDelivered o) (deliveredAt o) (stripeSessionId o).
Definition set_paidAt (v : option Z) (o : t) : t :=
  mk (user o) (orderItems o) (shippingAddress o) (paymentMethod o)
     (itemsPrice o) (shippingPrice o) (taxPrice o) (totalPrice o)
     (status o) (isPaid o) v (paymentResult o)
     (isDelivered o) (deliveredAt o) (stripeSessionId o).
Definition set_paymentResult (v : option PaymentResult) (o : t) : t :=
  mk (user o) (orderItems o) (shippingAddress o) (paymentMethod o)
     (itemsPrice o) (shippingPrice o) (taxPrice o) (totalPrice o)
     (status o) (isPaid o) (paidAt o) v
     (isDelivered o) (deliveredAt o) (stripeSessionId o).
Definition set_isDelivered (v : bool) (o : t) : t :=
  mk (user o) (orderItems o) (shippingAddress o) (paymentMethod o)
     (itemsPrice o) (shippingPrice o) (taxPrice o) (totalPrice o)
     (status o) (isPaid o) (paidAt o) (paymentResult o)
     v (deliveredAt o) (stripeSessionId o).
Definition set_deliveredAt (v : option Z) (o : t) : t :=
  mk (user o) (orderItems o) (shippingAddress o) (paymentMethod o)
     (itemsPrice o) (shippingPrice o) (taxPrice o) (totalPrice o)
     (status o) (isPaid o) (paidAt o) (paymentResult o)
     (isDelivered o) v (stripeSessionId o).
Definition set_stripeSessionId (v : option string) (o : t) : t :=
  mk (user o) (orderItems o) (shippingAddress o) (paymentMethod o)
     (itemsPrice o) (shippingPrice o) (taxPrice o) (totalPrice o)
     (status o) (isPaid o) (paidAt o) (paymentResult o)
     (isDelivered o) (deliveredAt o) v.
End Order.

(** A confirmation mail handed to the mail service. *)
Record Email := {
  mail_to : string;
  mail_order : ObjectId
}.

(** ** The store *)

Record Db := mkDb {
  products : gmap N Product.t;
  orders : gmap N Order.t;
  users : gmap N User.t;
  outbox : list Email
}.

Definition set_products (f : gmap N Product.t → gmap N Product.t) (db : Db) : Db :=
  mkDb (f (products db)) (orders db) (users db) (outbox db).
Definition set_orders (f : gmap N Order.t → gmap N Order.t) (db : Db) : Db :=
  mkDb (products db) (f (orders db)) (users db) (outbox db).
Definition set_outbox (f : list Email → list Email) (db : Db) : Db :=
  mkDb (products db) (orders db) (users db) (f (outbox db)).

(** ** Requests and responses *)

(** [req.user], as the [protect] middleware leaves it. *)
Record ReqUser := {
  id : ObjectId;
  role : Role;
  email : string
}.

Record Req (B : Type) := mkReq {
  user : ReqUser;
  params_id : option ObjectId;
  body : B
}.
Arguments mkReq {B} _ _ _.
Arguments user {B} _.
Arguments params_id {B} _.
Arguments body {B} _.

(** What a rejected promise or a failed property access carries.  A
    mongoose ValidationError is kept by the model whose document was
    rejected; a SyntaxError is what a body parser raises on a body it cannot
    read. *)
Inductive Exn :=
  | ValidationError (model : string)
  | TypeError
  | ProviderError (message : string)
  | SyntaxError (message : string).

(** An order with [user] and [orderItems.product] populated: a reference whose
    document is gone populates to null. *)
Record Populated := {
  pop_id : ObjectId;
  pop_order : Order.t;
  pop_user : option (ObjectId * string * string);
  pop_products : list (option (ObjectId * string * Z))
}.

(** The response bodies the handlers send: [{success, message}];
    [{success: false, message, error}]; [{success: true, message, data}] with
    an order; [{success: true, data}] with a populated order; the payment
    router's bodies; [{received: true}]; and a plain text body. *)
Inductive Json :=
  | JMessage (success : bool) (message : string)
  | JError (message : string) (error : Exn)
  | JOrder (message : string) (_id : ObjectId) (data : Order.t)
  | JPopulated (data : Populated)
  | JSession (sessionId : string) (url : string) (orderId : ObjectId)
  | JNotCompleted (message : string) (paymentStatus : string)
  | JVerified (message : string) (session_id : string) (paymentStatus : string)
              (customerEmail : option string) (amountTotal_cents : Z)
  | JReceived
  | JText (text : string).

Record Response := mkRes {
  res_status : Z;
  res_body : Json
}.

(** ** Handler bodies *)

(** A handler body either goes on with a value, has sent its response and
    returned, or has thrown.  The store is threaded through all three: what
    was written before a throw stays written. *)
Inductive Outcome (A : Type) :=
  | Next (a : A)
  | Replied (r : Response)
  | Thrown (e : Exn).
Arguments Next {A} _.
Arguments Replied {A} _.
Arguments Thrown {A} _.

Definition Handler (A : Type) : Type := Db → Outcome A * Db.

Definition ret {A} (a : A) : Handler A := λ db, (Next a, db).

Definition bind {A B} (m : Handler A) (k : A → Handler B) : Handler B :=
  λ db,
    match m db with
    | (Next a, db') => k a db'
    | (Replied r, db') => (Replied r, db')
    | (Thrown e, db') => (Thrown e, db')
    end.

Global Instance Handler_ret : MRet Handler := @ret.
Global Instance Handler_bind : MBind Handler := λ A B k m, bind m k.

Definition reply {A} (code : Z) (j : Json) : Handler A :=
  λ db, (Replied (mkRes code j), db).
Definition throw {A} (e : Exn) : Handler A := λ db, (Thrown e, db).
Definition gets {A} (f : Db → A) : Handler A := λ db, (Next (f db), db).
Definition modify (f : Db → Db) : Handler unit := λ db, (Next tt, f db).

(** [for (let x of xs) { body }] *)
Fixpoint for_of {A} (xs : list A) (body : A → Handler unit) : Handler unit :=
  match xs with
  | [] => ret tt
  | x :: xs' => body x;; for_of xs' body
  end.

(** [try { body } catch (error) { res.status(500).json(..) }]: a body of type
    [Handler Empty_set] cannot fall off its end without replying. *)
Definition try_catch (body : Handler Empty_set) (catch : Exn → Response)
    (db : Db) : Response * Db :=
  match body db with
  | (Next a, _) => match a with end
  | (Replied r, db') => (r, db')
  | (Thrown e, db') => (catch e, db')
  end.

(** ** Mongoose operations *)

Definition Product_findById (i : option ObjectId) : Handler (option (ObjectId * Product.t)) :=
  gets (λ db, i' ← i; p ← products db !! i'; Some (i', p)).

(** The enum of [category] (src/models/Product.js, line 22). *)
Definition Product_categories : list string :=
  ["grains"; "spices"; "vegetables"; "meats"; "snacks"; "beverages"; "oils";
   "flours"; "specialities"; "others"].

(** The validators of the Product schema: [required] on [name],
    [description] and [category] (on a String it refuses the empty string),
    the enum of [category], [min: 0] on [price] and on [stock], [min: 0] and
    [max: 5] on [rating.average].  [required] on [price] and [stock] holds
    of every number. *)
Definition Product_validate (p : Product.t) : bool :=
  negb (String.eqb (Product.name p) "")
  && negb (String.eqb (Product.description p) "")
  && (0 <=? Product.price p)
  && bool_decide (Product.category p ∈ Product_categories)
  && (0 <=? Product.stock p)
  && (0 <=? Product.rating_average p) && (Product.rating_average p <=? 5).

(** [product.save()] on a loaded product: the validators run on the whole
    document before the write, so a document that breaks one of them (a
    stock the handler has made negative, or a stored path that was already
    invalid) rejects and nothing is written. *)
Definition Product_save (i : ObjectId) (p : Product.t) : Handler unit :=
  if Product_validate p then modify (set_products <[i := p]>)
  else throw (ValidationError "Product").

Definition Order_findById (i : option ObjectId) : Handler (option (ObjectId * Order.t)) :=
  gets (λ db, i' ← i; o ← orders db !! i'; Some (i', o)).

(** [order.save()] on a loaded order.  The paths the handlers modify hold
    values of their declared types (a status of the enum, booleans,
    timestamps, strings), so the write goes through. *)
Definition Order_save (i : ObjectId) (o : Order.t) : Handler unit :=
  modify (set_orders <[i := o]>).

(** [Order.findByIdAndUpdate(id, update, { new: true })]: applies the update
    to the stored document when there is one and yields the updated document,
    null otherwise (no upsert). *)
Definition Order_findByIdAndUpdate (i : ObjectId) (update : Order.t → Order.t)
    : Handler (option (ObjectId * Order.t)) :=
  o ← gets (λ db, orders db !! i);
  match o with
  | None => ret None
  | Some o => modify (set_orders <[i := update o]>);; ret (Some (i, update o))
  end.

Definition User_findById (i : option ObjectId) : Handler (option (ObjectId * User.t)) :=
  gets (λ db, i' ← i; u ← users db !! i'; Some (i', u)).

(** ** The order controller (src/controllers/orderController.js) *)

Record CreateOrderBody := {
  orderItems : option (list OrderItem.t);
  shippingAddress : option ShippingAddress;
  paymentMethod : string;
  itemsPrice : Z;
  shippingPrice : Z;
  taxPrice : Z;
  totalPrice : Z
}.

(** The body of [PUT /:id/pay]; an absent key reads as undefined. *)
Record PayBody := {
  pay_id : option string;
  pay_status : option string;
  pay_update_time : option string;
  pay_email_address : option string
}.

Record StatusBody := {
  new_status : OrderStatus
}.

(** Modelled from the spec: models/Order.js is not among the sources.  A new
    order starts in status pending, unpaid and undelivered. *)
Definition Order_defaults (u : ObjectId) (b : CreateOrderBody)
    (items : list OrderItem.t) : Order.t :=
  Order.mk u items (shippingAddress b) (paymentMethod b)
    (itemsPrice b) (shippingPrice b) (taxPrice b) (totalPrice b)
    pending false None None false None None.

Section Controller.

(** The validators of the Order schema, run by [Order.create].
    models/Order.js is not among the sources, so they stay a parameter:
    every statement below holds whatever they accept. *)
Variable Order_validate : Order.t → bool.

(** [Order.create(doc)]: validates, then inserts under a new ObjectId. *)
Definition Order_create (doc : Order.t) : Handler (ObjectId * Order.t) :=
  if Order_validate doc then
    i ← gets (λ db, fresh (dom (orders db)));
    modify (set_orders <[i := doc]>);;
    mret (i, doc)
  else throw (ValidationError "Order").

(** First loop of [createOrder]: check stock availability for one item. *)
Definition check_stock (item : OrderItem.t) : Handler unit :=
  product ← Product_findById (OrderItem.product item);
  match product with
  | None =>
      reply 404 (JMessage false ("Product " +:+ OrderItem.name item +:+ " not found"))
  | Some (_, product) =>
      if Product.stock product <? OrderItem.quantity item then
        reply 400 (JMessage false
          ("Not enough stock for " +:+ Product.name product +:+
           ". Only " +:+ pretty (Product.stock product) +:+ " available"))
      else mret tt
  end.

(** Second loop of [createOrder]: update the stock of one item's product. *)
Definition update_stock (item : OrderItem.t) : Handler unit :=
  product ← Product_findById (OrderItem.product item);
  match product with
  | None => throw TypeError
  | Some (i, product) =>
      let product :=
        Product.set_stock (Product.stock product - OrderItem.quantity item) product in
      let product :=
        if Product.stock product =? 0 then Product.set_inStock false product
        else product in
      Product_save i product
  end.

Definition createOrder (req : Req CreateOrderBody) : Db → Response * Db :=
  try_catch
    (match orderItems (body req) with
     | None | Some [] => reply 400 (JMessage false "No order items provided")
     | Some items =>
         for_of items check_stock;;
         order ← Order_create (Order_defaults (id (user req)) (body req) items);
         for_of items update_stock;;
         reply 201 (JOrder "Order created successfully" order.1 order.2)
     end)
    (λ error, mkRes 500 (JError "Error creating order" error)).

End Controller.

(** [.populate('user', 'name email').populate('orderItems.product', 'name price')] *)
Definition populate (db : Db) (order : ObjectId * Order.t) : Populated :=
  {| pop_id := order.1;
     pop_order := order.2;
     pop_user :=
       (u ← users db !! Order.user order.2;
        Some (Order.user order.2, User.name u, User.email u));
     pop_products :=
       (λ item : OrderItem.t,
          p ← OrderItem.product item;
          d ← products db !! p;
          Some (p, Product.name d, Product.price d)) <$> Order.orderItems order.2 |}.

Definition getOrderById (req : Req unit) : Db → Response * Db :=
  try_catch
    (order ← Order_findById (params_id req);
     order ← gets (λ db, populate db <$> order);
     match order with
     | None => reply 404 (JMessage false "Order not found")
     | Some order =>
         match pop_user order with
         | None => throw TypeError
         | Some (owner, _, _) =>
             if bool_decide (owner ≠ id (user req))
                && bool_decide (role (user req) ≠ RoleAdmin)
             then reply 403 (JMessage false "Not authorized to view this order")
             else reply 200 (JPopulated order)
         end
     end)
    (λ error, mkRes 500 (JError "Error fetching order" error)).

Definition updateOrderStatus (now : Z) (req : Req StatusBody) : Db → Response * Db :=
  try_catch
    (let status := new_status (body req) in
     order ← Order_findById (params_id req);
     match order with
     | None => reply 404 (JMessage false "Order not found")
     | Some (i, order) =>
         let order := Order.set_status status order in
         let order :=
           if bool_decide (status = delivered)
           then Order.set_deliveredAt (Some now) (Order.set_isDelivered true order)
           else order in
         Order_save i order;;
         reply 200 (JOrder "Order status updated successfully" i order)
     end)
    (λ error, mkRes 500 (JError "Error updating order status" error)).

Definition updateOrderToPaid (now : Z) (req : Req PayBody) : Db → Response * Db :=
  try_catch
    (order ← Order_findById (params_id req);
     match order with
     | None => reply 404 (JMessage false "Order not found")
     | Some (i, order) =>
         let order := Order.set_isPaid true order in
         let order := Order.set_paidAt (Some now) order in
         let order :=
           Order.set_paymentResult
             (Some {| pr_id := pay_id (body req);
                      pr_status := pay_status (body req);
                      pr_update_time := pay_update_time (body req);
                      pr_email_address := pay_email_address (body req);
                      pr_email := None |}) order in
         let order := Order.set_status processing order in
         Order_save i order;;
         reply 200 (JOrder "Order marked as paid" i order)
     end)
    (λ error, mkRes 500 (JError "Error updating order" error)).

(** ** The order router: which middleware guards which handler *)

Inductive Middleware := protect | admin.

Inductive OrderRoute :=
  | POST_root | GET_myorders | GET_id | GET_root | PUT_id_status | PUT_id_pay.

Definition orderRoutes (r : OrderRoute) : list Middleware :=
  match r with
  | POST_root => [protect]
  | GET_myorders => [protect]
  | GET_id => [protect]
  | GET_root => [protect; admin]
  | PUT_id_status => [protect; admin]
  | PUT_id_pay => [protect]
  end.

(** ** The payment router (the two revisions of routes/paymentRoutes.js) *)

(** A Stripe checkout session (or payment intent) as the handlers read it.
    [metadata_orderId] is [None] when the metadata holds the empty string.
    [amount_total] is in cents. *)
Record StripeObject := {
  so_id : string;
  payment_status : string;
  payment_intent : option string;
  metadata_orderId : option ObjectId;
  metadata_userId : option ObjectId;
  customer_details_email : option string;
  amount_total : Z
}.

Record Event := {
  ev_type : string;
  ev_object : StripeObject
}.

(** [req.body] as a route's handler finds it.  A body parser of Express
    leaves it alone ([Unread]) unless the request carries a body of the
    parser's content type; a parser that reads the body sets [req._body], and
    every later parser then passes the request on.  [express.json] and
    [express.urlencoded] leave the object they parsed, kept here by the text
    it was parsed from; [express.raw] leaves the bytes themselves. *)
Inductive Payload :=
  | Unread
  | Parsed (text : string)
  | Raw (bytes : string).

(** The webhook request as its handler reads it: [req.body] and the
    Stripe-Signature header. *)
Record WebhookReq := {
  hook_body : Payload;
  stripe_signature : option string
}.

Record VerifyBody := {
  sessionId : option string
}.

(** An item of the checkout request; [ci_image] is [None] when absent or
    empty. *)
Record CheckoutItem := {
  ci_name : string;
  ci_price : Z;
  ci_quantity : Z;
  ci_image : option string
}.

(** The shipping address of the checkout request; a field is [None] when
    absent or empty. *)
Record ShippingInput := {
  in_address : option string;
  in_street : option string;
  in_city : option string;
  in_state : option string;
  in_zipCode : option string;
  in_country : option string
}.

Record CheckoutBody := {
  items : option (list CheckoutItem);
  checkout_shippingAddress : option ShippingInput;
  deliveryFee : option Z
}.

(** A line of the provider's checkout session. *)
Record LineItem := {
  li_name : string;
  li_images : list string;
  unit_amount : Z;
  li_quantity : Z
}.

Record SessionParams := {
  line_items : list LineItem;
  customer_email : string;
  param_orderId : ObjectId;
  param_userId : ObjectId
}.

(** [Math.round] of a Number that holds an integer.  The model's numbers
    are integers (see the head of the file), so the product of a price and
    100 is one, and rounding it returns it. *)
Definition Math_round (x : Z) : Z := x.

(** [if (s) ..] on a string of the request: absent and empty are both
    falsy. *)
Definition truthy (q : option string) : option string :=
  match q with
  | Some s => if String.eqb s "" then None else Some s
  | None => None
  end.

(** [a || b] on values that are falsy when absent. *)
Definition or_else {A} (a b : option A) : option A :=
  match a with Some _ => a | None => b end.

(** A handler without an enclosing try/catch: a throw leaves the request
    unanswered. *)
Definition no_catch (body : Handler Empty_set) (db : Db) : option Response * Db :=
  match body db with
  | (Next a, _) => match a with end
  | (Replied r, db') => (Some r, db')
  | (Thrown _, db') => (None, db')
  end.

(** [try { body } catch (e) { console.error(..) }] *)
Definition try_log (body : Handler unit) : Handler unit :=
  λ db,
    match body db with
    | (Thrown _, db') => (Next tt, db')
    | r => r
    end.

Section Payments.

(** The payment provider's client and the mail service are external: the
    handlers only see what these calls give back. *)
Variable constructEvent : Payload → option string → string + Event.
Variable sessions_retrieve : string → Exn + StripeObject.
Variable sessions_create : SessionParams → Exn + string * string.
Variable RESEND_API_KEY : option string.
Variable emails_send : Email → bool.
Variable Order_validate : Order.t → bool.

(** [POST /create-checkout-session] of the second revision: the order is
    created first, with totals computed from the request's items, then the
    provider session, whose id is written back to the order. *)
Definition create_checkout_session_v2 (req : Req CheckoutBody) : Db → Response * Db :=
  try_catch
    (let shippingAddress := checkout_shippingAddress (body req) in
     let deliveryFee := default 5 (deliveryFee (body req)) in
     match items (body req) with
     | None | Some [] => reply 400 (JMessage false "No items provided")
     | Some items =>
         let lineItems :=
           (λ item,
              {| li_name := ci_name item;
                 li_images :=
                   match ci_image item with
                   | Some image => if String.prefix "http" image then [image] else []
                   | None => []
                   end;
                 unit_amount := Math_round (ci_price item * 100);
                 li_quantity := ci_quantity item |}) <$> items in
         let lineItems :=
           if 0 <? deliveryFee then
             lineItems ++ [{| li_name := "Delivery Fee"; li_images := [];
                              unit_amount := Math_round (deliveryFee * 100);
                              li_quantity := 1 |}]
           else lineItems in
         let itemsTotal :=
           foldl (λ sum item, sum + ci_price item * ci_quantity item) 0 items in
         let totalAmount := itemsTotal + deliveryFee in
         order ← Order_create Order_validate
           {| Order.user := id (user req);
              Order.orderItems :=
                (λ item,
                   {| OrderItem.product := None;
                      OrderItem.name := ci_name item;
                      OrderItem.quantity := ci_quantity item;
                      OrderItem.price := ci_price item;
                      OrderItem.image := default "" (ci_image item) |}) <$> items;
              Order.shippingAddress :=
                Some {| street :=
                          default "Not provided"
                            (or_else (shippingAddress ≫= in_address)
                                     (shippingAddress ≫= in_street));
                        city :=
                          default "Not provided"
                            (or_else (shippingAddress ≫= in_city)
                                     (shippingAddress ≫= in_state));
                        state := default "Not provided" (shippingAddress ≫= in_state);
                        zipCode := default "00000" (shippingAddress ≫= in_zipCode);
                        country := default "USA" (shippingAddress ≫= in_country) |};
              Order.paymentMethod := "stripe";
              Order.itemsPrice := itemsTotal;
              Order.shippingPrice := deliveryFee;
              Order.taxPrice := 0;
              Order.totalPrice := totalAmount;
              Order.status := pending;
              Order.isPaid := false;
              Order.paidAt := None;
              Order.paymentResult := None;
              Order.isDelivered := false;
              Order.deliveredAt := None;
              Order.stripeSessionId := None |};
         match sessions_create
                 {| line_items := lineItems;
                    customer_email := email (user req);
                    param_orderId := order.1;
                    param_userId := id (user req) |} with
         | inl error => throw error
         | inr session =>
             let order := (order.1, Order.set_stripeSessionId (Some session.1) order.2) in
             Order_save order.1 order.2;;
             reply 200 (JSession session.1 session.2 order.1)
         end
     end)
    (λ error, mkRes 500 (JError "Error creating payment session" error)).

Definition sendOrderConfirmationEmail (user : ObjectId * User.t)
    (order : ObjectId * Order.t) : Handler unit :=
  let mail := {| mail_to := User.email user.2; mail_order := order.1 |} in
  if emails_send mail then modify (set_outbox (λ sent, sent ++ [mail]))
  else throw (ProviderError "resend").

(** The update document of the first revision: no status change, the payer
    address under [email]. *)
Definition paid_update_v1 (now : Z) (status : string) (session : StripeObject)
    (order : Order.t) : Order.t :=
  Order.set_paymentResult
    (Some {| pr_id := payment_intent session;
             pr_status := Some status;
             pr_update_time := None;
             pr_email_address := None;
             pr_email := customer_details_email session |})
    (Order.set_paidAt (Some now) (Order.set_isPaid true order)).

(** The update document of the second revision. *)
Definition paid_update_v2 (now : Z) (status : string) (session : StripeObject)
    (order : Order.t) : Order.t :=
  Order.set_paymentResult
    (Some {| pr_id := payment_intent session;
             pr_status := Some status;
             pr_update_time := None;
             pr_email_address := customer_details_email session;
             pr_email := None |})
    (Order.set_status processing
       (Order.set_paidAt (Some now) (Order.set_isPaid true order))).

Definition webhook_v1 (now : Z) (req : WebhookReq) : Db → option Response * Db :=
  no_catch
    (match constructEvent (hook_body req) (stripe_signature req) with
     | inl message => reply 400 (JText ("Webhook Error: " +:+ message))
     | inr event =>
         (if String.eqb (ev_type event) "checkout.session.completed" then
            let session := ev_object event in
            match metadata_orderId session with
            | Some orderId =>
                Order_findByIdAndUpdate orderId (paid_update_v1 now "completed" session);;
                mret tt
            | None => mret tt
            end
          else if String.eqb (ev_type event) "payment_intent.payment_failed" then
            mret tt
          else mret tt);;
         reply 200 JReceived
     end).

Definition webhook_v2 (now : Z) (req : WebhookReq) : Db → option Response * Db :=
  no_catch
    (match constructEvent (hook_body req) (stripe_signature req) with
     | inl message => reply 400 (JText ("Webhook Error: " +:+ message))
     | inr event =>
         (if String.eqb (ev_type event) "checkout.session.completed" then
            let session := ev_object event in
            match metadata_orderId session with
            | Some orderId =>
                order ← Order_findByIdAndUpdate orderId
                          (paid_update_v2 now "completed" session);
                match order, RESEND_API_KEY with
                | Some order, Some _ =>
                    user ← User_findById (metadata_userId session);
                    match user with
                    | Some user => try_log (sendOrderConfirmationEmail user order)
                    | None => mret tt
                    end
                | _, _ => mret tt
                end
            | None => mret tt
            end
          else if String.eqb (ev_type event) "payment_intent.payment_failed" then
            mret tt
          else mret tt);;
         reply 200 JReceived
     end).

Definition verify_session_v1 (now : Z) (req : Req VerifyBody) : Db → Response * Db :=
  try_catch
    (match truthy (sessionId (body req)) with
     | None => reply 400 (JMessage false "Session ID required")
     | Some sid =>
         match sessions_retrieve sid with
         | inl error => throw error
         | inr session =>
             if String.eqb (payment_status session) "paid" then
               match metadata_orderId session with
               | Some orderId =>
                   Order_findByIdAndUpdate orderId
                     (paid_update_v1 now (payment_status session) session);;
                   mret tt
               | None => mret tt
               end;;
               reply 200 (JVerified "Payment verified" (so_id session)
                            (payment_status session) (customer_details_email session)
                            (amount_total session))
             else
               reply 400 (JNotCompleted "Payment not completed" (payment_status session))
         end
     end)
    (λ error, mkRes 500 (JError "Error verifying payment" error)).

Definition verify_session_v2 (now : Z) (req : Req VerifyBody) : Db → Response * Db :=
  try_catch
    (match truthy (sessionId (body req)) with
     | None => reply 400 (JMessage false "Session ID required")
     | Some sid =>
         match sessions_retrieve sid with
         | inl error => throw error
         | inr session =>
             if String.eqb (payment_status session) "paid" then
               order ← match metadata_orderId session with
                       | Some orderId =>
                           Order_findByIdAndUpdate orderId
                             (paid_update_v2 now (payment_status session) session)
                       | None => mret None
                       end;
               user ← User_findById (metadata_userId session);
               match user, order, RESEND_API_KEY with
               | Some user, Some order, Some _ =>
                   try_log (sendOrderConfirmationEmail user order)
               | _, _, _ => mret tt
               end;;
               reply 200 (JVerified "Payment verified" (so_id session)
                            (payment_status session) (customer_details_email session)
                            (amount_total session))
             else
               reply 400 (JNotCompleted "Payment not completed" (payment_status session))
         end
     end)
    (λ error, mkRes 500 (JError "Error verifying payment" error)).

End Payments.

(** ** The application (src/server.js) *)

(** What the body parsers make of a request's Content-Type header. *)
Inductive ContentType :=
  | application_json
  | application_x_www_form_urlencoded
  | other_content_type.

Global Instance ContentType_eq_dec : EqDecision ContentType.
Proof. solve_decision. Defined.

(** A request to POST /api/payments/webhook as it reaches the application:
    its content type, its body when it has one, and its Stripe-Signature
    header. *)
Record Delivery := {
  content_type : ContentType;
  entity : option string;
  signature : option string
}.

Section Application.

(** The three body parsers are Express's.  What reading and parsing a body
    raises in each of them, if anything (a syntax error in [express.json], a
    body over the parser's limit), stays a parameter. *)
Variable json_error : string → option Exn.
Variable urlencoded_error : string → option Exn.
Variable raw_error : string → option Exn.
Variable NODE_ENV : option string.

(** The skeleton the three parsers share: a request whose body was read
    already, that has no body, or whose content type is not the parser's is
    passed on as it is; otherwise the body is read, and either the error goes
    to the error handler or the result is left in [req.body]. *)
Definition body_parser (type : ContentType) (error : string → option Exn)
    (result : string → Payload) (d : Delivery) (b : Payload) : Exn + Payload :=
  match b, entity d with
  | Unread, Some text =>
      if decide (content_type d = type) then
        match error text with
        | Some e => inl e
        | None => inr (result text)
        end
      else inr Unread
  | _, _ => inr b
  end.

(** [express.json({ limit: '50mb' })] and
    [express.urlencoded({ extended: true, limit: '50mb' })], lines 16-17. *)
Definition express_json : Delivery → Payload → Exn + Payload :=
  body_parser application_json json_error Parsed.
Definition express_urlencoded : Delivery → Payload → Exn + Payload :=
  body_parser application_x_www_form_urlencoded urlencoded_error Parsed.

(** [express.raw({ type: 'application/json' })], on the webhook route of the
    payment router. *)
Definition express_raw : Delivery → Payload → Exn + Payload :=
  body_parser application_json raw_error Raw.

(** The error handler, lines 54-61: [error] is the message in development
    and undefined otherwise. *)
Definition error_handler (err : Exn) : Response :=
  mkRes 500 (if bool_decide (NODE_ENV = Some "development")
             then JError "Something went wrong!" err
             else JMessage false "Something went wrong!").

(** POST /api/payments/webhook through the application.  The two global
    parsers of lines 16-17 run first; [cors] lets the request through and
    the routers mounted on lines 29-32 have no route for it; then comes the
    payment router of line 33 with the route's own [express.raw] and its
    handler. *)
Definition app_webhook (handler : WebhookReq → Db → option Response * Db)
    (d : Delivery) (db : Db) : option Response * Db :=
  match express_json d Unread with
  | inl err => (Some (error_handler err), db)
  | inr b =>
      match express_urlencoded d b with
      | inl err => (Some (error_handler err), db)
      | inr b =>
          match express_raw d b with
          | inl err => (Some (error_handler err), db)
          | inr b => handler {| hook_body := b; stripe_signature := signature d |} db
          end
      end
  end.

End Application.

(** ** Vocabulary of the statements *)

(** The product a line item refers to, if the catalog has it. *)
Definition find_product (db : Db) (item : OrderItem.t) : option Product.t :=
  i ← OrderItem.product item; products db !! i.

Definition not_found (item : OrderItem.t) : Response :=
  mkRes 404 (JMessage false ("Product " +:+ OrderItem.name item +:+ " not found")).

Definition insufficient_stock (p : Product.t) : Response :=
  mkRes 400 (JMessage false
    ("Not enough stock for " +:+ Product.name p +:+
     ". Only " +:+ pretty (Product.stock p) +:+ " available")).

(** A line item passes the stock check. *)
Definition in_stock (db : Db) (item : OrderItem.t) : Prop :=
  ∃ p, find_product db item = Some p ∧ OrderItem.quantity item ≤ Product.stock p.

(** A line item fails the stock check: its product is missing, or it asks
    for more than the product's current stock. *)
Definition fails_validation (db : Db) (item : OrderItem.t) : Prop :=
  find_product db item = None ∨
  ∃ p, find_product db item = Some p ∧ Product.stock p < OrderItem.quantity item.

(** What the second loop does to the product of one line: the three
    statements between [findById] and [save]. *)
Definition reserve (q : Z) (p : Product.t) : Product.t :=
  let p := Product.set_stock (Product.stock p - q) p in
  if Product.stock p =? 0 then Product.set_inStock false p else p.

Definition reserve_line (i : ObjectId) (p : Product.t) (item : OrderItem.t) : Product.t :=
  if decide (OrderItem.product item = Some i)
  then reserve (OrderItem.quantity item) p else p.

(** The total quantity a cart asks of product [i], over all its lines. *)
Definition demand (i : ObjectId) (items : list OrderItem.t) : Z :=
  foldr (λ item acc,
           (if decide (OrderItem.product item = Some i)
            then OrderItem.quantity item else 0) + acc) 0 items.

Definition stock_nonneg (db : Db) : Prop :=
  ∀ i p, products db !! i = Some p → 0 ≤ Product.stock p.

(** The order [updateOrderToPaid] writes: paid now, in status processing,
    with the payment result taken from the request body. *)
Definition paid_order (now : Z) (b : PayBody) (o : Order.t) : Order.t :=
  Order.mk (Order.user o) (Order.orderItems o) (Order.shippingAddress o)
    (Order.paymentMethod o) (Order.itemsPrice o) (Order.shippingPrice o)
    (Order.taxPrice o) (Order.totalPrice o)
    processing true (Some now)
    (Some {| pr_id := pay_id b; pr_status := pay_status b;
             pr_update_time := pay_update_time b;
             pr_email_address := pay_email_address b; pr_email := None |})
    (Order.isDelivered o) (Order.deliveredAt o) (Order.stripeSessionId o).

(** The order [updateOrderStatus] writes. *)
Definition restatused_order (now : Z) (s : OrderStatus) (o : Order.t) : Order.t :=
  Order.mk (Order.user o) (Order.orderItems o) (Order.shippingAddress o)
    (Order.paymentMethod o) (Order.itemsPrice o) (Order.shippingPrice o)
    (Order.taxPrice o) (Order.totalPrice o)
    s (Order.isPaid o) (Order.paidAt o) (Order.paymentResult o)
    (if decide (s = delivered) then true else Order.isDelivered o)
    (if decide (s = delivered) then Some now else Order.deliveredAt o)
    (Order.stripeSessionId o).

(** The provider's verifier checks the signature against the bytes of the
    body and parses them: it refuses a [req.body] that is not the raw
    body. *)
Definition needs_raw_body (constructEvent : Payload → option string → string + Event)
    : Prop :=
  ∀ b sig, (∀ bytes, b ≠ Raw bytes) → ∃ message, constructEvent b sig = inl message.

(** ** Sample data *)

(** Modelled from the spec: models/Order.js is not among the sources.  The
    field constraints of the data model, a line-item quantity of at least 1
    and non-negative price fields, as the validator the concrete runs below
    use. *)
Definition Order_schema (o : Order.t) : bool :=
  forallb (λ item, 1 <=? OrderItem.quantity item) (Order.orderItems o)
  && (0 <=? Order.itemsPrice o) && (0 <=? Order.shippingPrice o)
  && (0 <=? Order.taxPrice o) && (0 <=? Order.totalPrice o).

Definition ada : ReqUser := {| id := 7%N; role := RoleUser; email := "ada@example.com" |}.
Definition mallory : ReqUser := {| id := 8%N; role := RoleUser; email := "mal@example.com" |}.

Definition line (p : ObjectId) (q : Z) : OrderItem.t :=
  OrderItem.mk (Some p) "Garri" q 12 "garri.png".

Definition cart (items : list OrderItem.t) : Req CreateOrderBody :=
  mkReq ada None
    {| orderItems := Some items; shippingAddress := None; paymentMethod := "stripe";
       itemsPrice := 36; shippingPrice := 5; taxPrice := 0; totalPrice := 41 |}.

(** A cart whose total is not the sum of its parts and whose line price is
    not the catalog's. *)
Definition mispriced : Req CreateOrderBody :=
  mkReq ada None
    {| orderItems := Some [OrderItem.mk (Some 1%N) "Garri" 1 1 "garri.png"];
       shippingAddress := None; paymentMethod := "stripe";
       itemsPrice := 36; shippingPrice := 5; taxPrice := 0; totalPrice := 1 |}.

(** A catalog entry that satisfies the Product schema when its price and
    stock are not negative. *)
Definition grocery (name : string) (price stock : Z) (inStock : bool) : Product.t :=
  Product.mk name "West African staple" price "grains" stock inStock 0.

(** Two products, one of them sold out; three accounts; no orders. *)
Definition db0 : Db :=
  mkDb {[ 1%N := grocery "Garri" 12 5 true; 2%N := grocery "Egusi" 8 0 false ]}
       ∅
       {[ 7%N := User.mk "Ada" "ada@example.com" RoleUser;
          8%N := User.mk "Mallory" "mal@example.com" RoleUser;
          9%N := User.mk "Root" "root@example.com" RoleAdmin ]}
       [].

(** Ada's pending order, under id 0. *)
Definition order0 : Order.t :=
  Order_defaults 7%N (body (cart [line 1%N 2])) [line 1%N 2].

Definition db1 : Db := set_orders <[0%N := order0]> db0.

Definition payment : PayBody :=
  {| pay_id := Some "PAY-1"; pay_status := Some "COMPLETED";
     pay_update_time := Some "2024-01-01T00:00:00Z";
     pay_email_address := Some "ada@example.com" |}.

Definition session0 : StripeObject :=
  {| so_id := "cs_1"; payment_status := "paid"; payment_intent := Some "pi_1";
     metadata_orderId := Some 0%N; metadata_userId := Some 7%N;
     customer_details_email := Some "ada@example.com"; amount_total := 4100 |}.

(** A provider client that verifies raw bodies only: on the bytes of a
    body it accepts the signature "good" and tells two payloads apart; a
    body that is not raw bytes it refuses. *)
Definition constructEvent0 (payload : Payload) (sig : option string) : string + Event :=
  match payload with
  | Raw bytes =>
      if bool_decide (sig = Some "good") then
        if bool_decide (bytes = "completed")
        then inr {| ev_type := "checkout.session.completed"; ev_object := session0 |}
        else inr {| ev_type := "payment_intent.payment_failed"; ev_object := session0 |}
      else inl "No signatures found matching the expected signature for payload"
  | _ => inl "Webhook payload must be provided as a string or a Buffer"
  end.

Definition sessions_retrieve0 (sid : string) : Exn + StripeObject :=
  if bool_decide (sid = "cs_1") then inr session0
  else inl (ProviderError "No such checkout.session").

(** Two signed deliveries as the handler finds them when the route's
    [express.raw] has read the body. *)
Definition completed_hook : WebhookReq :=
  {| hook_body := Raw "completed"; stripe_signature := Some "good" |}.
Definition failed_hook : WebhookReq :=
  {| hook_body := Raw "failed"; stripe_signature := Some "good" |}.

(** The first of them as the application hands it to the handler, parsed
    by [express.json]. *)
Definition parsed_hook : WebhookReq :=
  {| hook_body := Parsed "completed"; stripe_signature := Some "good" |}.

(** The same two deliveries as they reach the application. *)
Definition completed_delivery : Delivery :=
  {| content_type := application_json; entity := Some "completed";
     signature := Some "good" |}.
Definition failed_delivery : Delivery :=
  {| content_type := application_json; entity := Some "failed";
     signature := Some "good" |}.

(** Body parsers that read every body. *)
Definition reads_all (text : string) : option Exn := None.

(** The webhook route through the application, with the sample provider. *)
Definition app_webhook0 (handler : WebhookReq → Db → option Response * Db)
    : Delivery → Db → option Response * Db :=
  app_webhook reads_all reads_all reads_all (Some "production") handler.

(** The store after Ada's order was verified as paid at time 1000. *)
Definition db_paid : Db :=
  (verify_session_v2 sessions_retrieve0 (Some "re_key") (λ _, true) 1000
     (mkReq ada None {| sessionId := Some "cs_1" |}) db1).2.

(** ** The listing handlers of the order controller *)

(** An order with [orderItems.product] populated, as [getMyOrders] sends
    it. *)
Record MyOrder := {
  my_id : ObjectId;
  my_order : Order.t;
  my_products : list (option (ObjectId * string * Z))
}.

(** An order with [user] populated, as [getAllOrders] sends it. *)
Record AdminOrder := {
  adm_id : ObjectId;
  adm_order : Order.t;
  adm_user : option (ObjectId * string * string)
}.

(** The bodies of the listing handlers: [{success, count, data}],
    [{success, count, total, page, pages, data}] and the 500 envelope. *)
Inductive ListJson :=
  | JMyOrders (count : nat) (data : list MyOrder)
  | JAllOrders (count : nat) (total : nat) (page : Z) (pages : Z) (data : list AdminOrder)
  | JListError (message : string) (error : Exn).

Record ListResponse := mkList {
  list_status : Z;
  list_body : ListJson
}.

(** The query string of [GET /api/orders].  [q_status] and [q_isPaid] are the
    raw strings; [q_page] and [q_limit] are what [parseInt(.., 10)] makes of
    theirs, [None] standing for NaN. *)
Record AllOrdersQuery := {
  q_status : option string;
  q_isPaid : option string;
  q_page : option Z;
  q_limit : option Z
}.

(** The strings of the status enum, as the handlers write them. *)
Definition status_name (s : OrderStatus) : string :=
  match s with
  | pending => "pending"
  | processing => "processing"
  | shipped => "shipped"
  | delivered => "delivered"
  | cancelled => "cancelled"
  end.

(** [n || d] on a number: NaN and 0 give the default. *)
Definition number_or (d : Z) (n : option Z) : Z :=
  match n with
  | Some n => if n =? 0 then d else n
  | None => d
  end.

(** The filter [getAllOrders] builds from the query string. *)
Definition query_matches (q : AllOrdersQuery) (o : Order.t) : bool :=
  match truthy (q_status q) with
  | Some s => String.eqb (status_name (Order.status o)) s
  | None => true
  end
  &&
  match truthy (q_isPaid q) with
  | Some s => Bool.eqb (Order.isPaid o) (String.eqb s "true")
  | None => true
  end.

(** [Math.ceil(total / limit)], for a limit that is not 0. *)
Definition ceil_div (total limit : Z) : Z := - ((- total) / limit).

Section Listings.

(** Modelled from the spec: models/Order.js is not among the sources.  The
    schema's [createdAt] timestamp, which only the listings read, is kept
    beside the store. *)
Variable createdAt : ObjectId → Z.

Definition newest_first (a b : ObjectId * Order.t) : Prop :=
  createdAt b.1 ≤ createdAt a.1.

Global Instance newest_first_dec : RelDecision newest_first :=
  λ a b, decide (createdAt b.1 ≤ createdAt a.1).

(** [Order.find(query).sort('-createdAt')]: the matching orders, newest
    first.  Orders created at the same instant come in an order the database
    does not promise; the model fixes one. *)
Definition Order_find (matches : Order.t → bool) (db : Db) : list (ObjectId * Order.t) :=
  merge_sort newest_first
    (filter (λ io, matches io.2 = true) (map_to_list (orders db))).

(** [Order.countDocuments(query)] *)
Definition Order_countDocuments (matches : Order.t → bool) (db : Db) : nat :=
  length (filter (λ io : ObjectId * Order.t, matches io.2 = true) (map_to_list (orders db))).

Definition populate_products (db : Db) (order : ObjectId * Order.t) : MyOrder :=
  {| my_id := order.1;
     my_order := order.2;
     my_products :=
       (λ item : OrderItem.t,
          p ← OrderItem.product item;
          d ← products db !! p;
          Some (p, Product.name d, Product.price d)) <$> Order.orderItems order.2 |}.

Definition populate_user (db : Db) (order : ObjectId * Order.t) : AdminOrder :=
  {| adm_id := order.1;
     adm_order := order.2;
     adm_user :=
       (u ← users db !! Order.user order.2;
        Some (Order.user order.2, User.name u, User.email u)) |}.

(** Neither listing writes to the store, so each is a function of the store
    alone. *)
Definition getMyOrders (req : Req unit) (db : Db) : ListResponse :=
  let orders :=
    populate_products db <$>
      Order_find (λ o, bool_decide (Order.user o = id (user req))) db in
  mkList 200 (JMyOrders (length orders) orders).

(** [Order.find(query).skip(skip).limit(limit).sort('-createdAt')]: the
    database sorts, then skips, then limits.  What the driver makes of a
    negative skip or of a limit that is not positive is not in the sources
    and stays a parameter; a rejection there is an exception for the
    handler's catch. *)
Variable out_of_range :
  Z → Z → list (ObjectId * Order.t) → Exn + list (ObjectId * Order.t).

Definition Order_find_page (matches : Order.t → bool) (skip limit : Z) (db : Db)
    : Exn + list (ObjectId * Order.t) :=
  if (0 <=? skip) && (0 <? limit) then
    inr (take (Z.to_nat limit) (drop (Z.to_nat skip) (Order_find matches db)))
  else out_of_range skip limit (Order_find matches db).

Definition getAllOrders (req : Req AllOrdersQuery) (db : Db) : ListResponse :=
  let query := query_matches (body req) in
  let page := number_or 1 (q_page (body req)) in
  let limit := number_or 10 (q_limit (body req)) in
  let skip := (page - 1) * limit in
  match Order_find_page query skip limit db with
  | inl error => mkList 500 (JListError "Error fetching orders" error)
  | inr orders =>
      let orders := populate_user db <$> orders in
      let total := Order_countDocuments query db in
      mkList 200
        (JAllOrders (length orders) total page (ceil_div (Z.of_nat total) limit) orders)
  end.

End Listings.

(** ** The upload router (src/routes/uploadRoutes.js) *)

(** Strings are taken with one-byte characters: the model covers bodies
    whose characters are below 256, where the line terminators that [.]
    refuses are line feed and carriage return. *)

(** [\w]: a letter, a digit or the underscore. *)
Definition is_word (c : Ascii.ascii) : bool :=
  let n := Ascii.N_of_ascii c in
  ((48 <=? n) && (n <=? 57) || (65 <=? n) && (n <=? 90)
   || (97 <=? n) && (n <=? 122) || (n =? 95))%N.

Definition is_line_terminator (c : Ascii.ascii) : bool :=
  ((Ascii.N_of_ascii c =? 10) || (Ascii.N_of_ascii c =? 13))%N.

Fixpoint all_chars (p : Ascii.ascii → bool) (s : string) : bool :=
  match s with
  | EmptyString => true
  | String c s' => p c && all_chars p s'
  end.

(** The longest run of word characters at the head of a string, and what
    follows it. *)
Fixpoint span_word (s : string) : string * string :=
  match s with
  | EmptyString => (EmptyString, EmptyString)
  | String c s' =>
      if is_word c then let (w, r) := span_word s' in (String c w, r)
      else (EmptyString, s)
  end.

Fixpoint strip_prefix (p s : string) : option string :=
  match p, s with
  | EmptyString, _ => Some s
  | String a p', String b s' => if Ascii.eqb a b then strip_prefix p' s' else None
  | String _ _, EmptyString => None
  end.

(** [image.match(/^data:image\/(\w+);base64,(.+)$/)]: the two captures, or
    null.  The greedy [\w+] cannot give a character back to the ";" that has
    to follow it, so the match is decided by the longest word run. *)
Definition match_data_url (image : string) : option (string * string) :=
  rest ← strip_prefix "data:image/" image;
  let (fileType, rest) := span_word rest in
  if String.eqb fileType "" then None else
  base64Data ← strip_prefix ";base64," rest;
  if String.eqb base64Data "" then None
  else if all_chars (λ c, negb (is_line_terminator c)) base64Data
       then Some (fileType, base64Data)
       else None.

Record UploadBody := {
  image : option string
}.

Record DeleteBody := {
  publicId : option string
}.

Inductive UploadJson :=
  | UMessage (success : bool) (message : string)
  | UError (message : string) (error : string)
  | UUploaded (message : string) (url : string) (publicId : string).

Record UploadResponse := mkUpload {
  upload_status : Z;
  upload_body : UploadJson
}.

(** What a call to the storage service comes back with: its result, the
    error it reports, or an exception. *)
Inductive StorageResult :=
  | Stored
  | Refused (message : string)
  | Failed (message : string).

Section Upload.

(** The storage service and [Buffer.from(.., 'base64')] are external. *)
Variable Buffer_from_base64 : string → string.
Variable storage_upload : string → string → string → StorageResult.
Variable storage_remove : list string → StorageResult.
Variable getPublicUrl : string → string.

(** [POST /api/upload].  [now] is [Date.now()] and [random] is
    [Math.random().toString(36).substring(7)]. *)
Definition upload_post (now : Z) (random : string) (req : Req UploadBody)
    : UploadResponse :=
  match truthy (image (body req)) with
  | None => mkUpload 400 (UMessage false "No image provided")
  | Some image =>
      match match_data_url image with
      | None =>
          mkUpload 400
            (UMessage false "Invalid image format. Please upload a valid image.")
      | Some (fileType, base64Data) =>
          let buffer := Buffer_from_base64 base64Data in
          let fileName :=
            "product-" +:+ pretty now +:+ "-" +:+ random +:+ "." +:+ fileType in
          match storage_upload fileName buffer ("image/" +:+ fileType) with
          | Refused message => mkUpload 500 (UError "Failed to upload image" message)
          | Failed message => mkUpload 500 (UError "Error uploading image" message)
          | Stored =>
              mkUpload 200
                (UUploaded "Image uploaded successfully" (getPublicUrl fileName) fileName)
          end
      end
  end.

(** [DELETE /api/upload] *)
Definition upload_delete (req : Req DeleteBody) : UploadResponse :=
  match truthy (publicId (body req)) with
  | None => mkUpload 400 (UMessage false "No publicId provided")
  | Some publicId =>
      match storage_remove [publicId] with
      | Refused message => mkUpload 500 (UError "Failed to delete image" message)
      | Failed message => mkUpload 500 (UError "Error deleting image" message)
      | Stored => mkUpload 200 (UMessage true "Image deleted successfully")
      end
  end.

End Upload.

(** What the pattern of [match_data_url] asks of a string, read off the
    pattern: the fixed header, a type made of word characters, the fixed
    separator, and data without line terminators, neither of the two
    empty. *)
Definition is_data_url (s fileType base64Data : string) : Prop :=
  s = "data:image/" +:+ fileType +:+ ";base64," +:+ base64Data ∧
  fileType ≠ "" ∧ all_chars is_word fileType = true ∧
  base64Data ≠ "" ∧
  all_chars (λ c, negb (is_line_terminator c)) base64Data = true.

(** What follows a longest word run does not start with a word character. *)
Definition no_word_head (r : string) : Prop :=
  match r with
  | EmptyString => True
  | String c _ => is_word c = false
  end.

(** ** Vocabulary of the further statements *)

(** The confirmation mails one payment confirmation hands to the mail
    service: none without an API key, without a user id in the session
    metadata, without that account on file or when the service refuses;
    otherwise the one mail to the account's address about the order. *)
Definition mails_sent (key : option string) (send : Email → bool) (db : Db)
    (session : StripeObject) (i : ObjectId) : list Email :=
  match key, metadata_userId session ≫= (users db !!.) with
  | Some _, Some u =>
      let mail := {| mail_to := User.email u; mail_order := i |} in
      if send mail then [mail] else []
  | _, _ => []
  end.

(** The payment and delivery stamps of an order agree with its flags. *)
Definition stamps_agree (o : Order.t) : Prop :=
  (Order.isPaid o = true ↔ is_Some (Order.paidAt o)) ∧
  (Order.isDelivered o = true ↔ is_Some (Order.deliveredAt o)).

(** What an order is a record of: who bought what, where to, how, at which
    prices. *)
Definition same_purchase (o o' : Order.t) : Prop :=
  Order.user o' = Order.user o ∧
  Order.orderItems o' = Order.orderItems o ∧
  Order.shippingAddress o' = Order.shippingAddress o ∧
  Order.paymentMethod o' = Order.paymentMethod o ∧
  Order.itemsPrice o' = Order.itemsPrice o ∧
  Order.shippingPrice o' = Order.shippingPrice o ∧
  Order.taxPrice o' = Order.taxPrice o ∧
  Order.totalPrice o' = Order.totalPrice o.

(** The store a payment confirmation of the first revision leaves: the
    order the session names, if there is one, is rewritten. *)
Definition confirmed_v1 (now : Z) (status : string) (session : StripeObject)
    (db : Db) : Db :=
  match metadata_orderId session with
  | Some i =>
      match orders db !! i with
      | Some o => set_orders <[i := paid_update_v1 now status session o]> db
      | None => db
      end
  | None => db
  end.

(** The store a payment confirmation of the second revision leaves. *)
Definition confirmed_v2 (key : option string) (send : Email → bool) (now : Z)
    (status : string) (session : StripeObject) (db : Db) : Db :=
  match metadata_orderId session with
  | Some i =>
      match orders db !! i with
      | Some o =>
          mkDb (products db) (<[i := paid_update_v2 now status session o]> (orders db))
               (users db) (outbox db ++ mails_sent key send db session i)
      | None => db
      end
  | None => db
  end.

(** The order document the second revision's checkout route creates. *)
Definition checkout_order (u : ObjectId) (b : CheckoutBody)
    (items : list CheckoutItem) : Order.t :=
  let shippingAddress := checkout_shippingAddress b in
  let deliveryFee := default 5 (deliveryFee b) in
  let itemsTotal := foldl (λ sum item, sum + ci_price item * ci_quantity item) 0 items in
  {| Order.user := u;
     Order.orderItems :=
       (λ item,
          {| OrderItem.product := None;
             OrderItem.name := ci_name item;
             OrderItem.quantity := ci_quantity item;
             OrderItem.price := ci_price item;
             OrderItem.image := default "" (ci_image item) |}) <$> items;
     Order.shippingAddress :=
       Some {| street :=
                 default "Not provided"
                   (or_else (shippingAddress ≫= in_address)
                            (shippingAddress ≫= in_street));
               city :=
                 default "Not provided"
                   (or_else (shippingAddress ≫= in_city)
                            (shippingAddress ≫= in_state));
               state := default "Not provided" (shippingAddress ≫= in_state);
               zipCode := default "00000" (shippingAddress ≫= in_zipCode);
               country := default "USA" (shippingAddress ≫= in_country) |};
     Order.paymentMethod := "stripe";
     Order.itemsPrice := itemsTotal;
     Order.shippingPrice := deliveryFee;
     Order.taxPrice := 0;
     Order.totalPrice := itemsTotal + deliveryFee;
     Order.status := pending;
     Order.isPaid := false;
     Order.paidAt := None;
     Order.paymentResult := None;
     Order.isDelivered := false;
     Order.deliveredAt := None;
     Order.stripeSessionId := None |}.

(** The lines of the provider session the checkout route asks for. *)
Definition checkout_lines (b : CheckoutBody) (items : list CheckoutItem)
    : list LineItem :=
  let deliveryFee := default 5 (deliveryFee b) in
  let lineItems :=
    (λ item,
       {| li_name := ci_name item;
          li_images :=
            match ci_image item with
            | Some image => if String.prefix "http" image then [image] else []
            | None => []
            end;
          unit_amount := Math_round (ci_price item * 100);
          li_quantity := ci_quantity item |}) <$> items in
  if 0 <? deliveryFee then
    lineItems ++ [{| li_name := "Delivery Fee"; li_images := [];
                     unit_amount := Math_round (deliveryFee * 100);
                              li_quantity := 1 |}]
  else lineItems.

(** One order as it may change under a request: the purchase it records
    stays, it is not un-paid nor un-delivered, and its stamps keep agreeing
    with its flags. *)
Definition order_moves (o o' : Order.t) : Prop :=
  same_purchase o o' ∧
  (Order.isPaid o = true → Order.isPaid o' = true) ∧
  (Order.isDelivered o = true → Order.isDelivered o' = true) ∧
  (stamps_agree o → stamps_agree o').

(** An order as it is first stored. *)
Definition new_order (o : Order.t) : Prop :=
  Order.status o = pending ∧
  Order.isPaid o = false ∧ Order.paidAt o = None ∧ Order.paymentResult o = None ∧
  Order.isDelivered o = false ∧ Order.deliveredAt o = None.

Definition orders_move (m m' : gmap N Order.t) : Prop :=
  (∀ i o, m !! i = Some o → ∃ o', m' !! i = Some o' ∧ order_moves o o') ∧
  (∀ i o', m' !! i = Some o' → m !! i = None → new_order o').

(** The requests the modelled handlers serve, each with the clock reading
    its handler takes. *)
Inductive Call :=
  | CreateOrder (req : Req CreateOrderBody)
  | GetOrderById (req : Req unit)
  | UpdateOrderStatus (now : Z) (req : Req StatusBody)
  | UpdateOrderToPaid (now : Z) (req : Req PayBody)
  | CreateCheckoutSession (req : Req CheckoutBody)
  | VerifySession_v1 (now : Z) (req : Req VerifyBody)
  | VerifySession_v2 (now : Z) (req : Req VerifyBody)
  | Webhook_v1 (now : Z) (req : WebhookReq)
  | Webhook_v2 (now : Z) (req : WebhookReq).

Section Server.

Variable constructEvent : Payload → option string → string + Event.
Variable sessions_retrieve : string → Exn + StripeObject.
Variable sessions_create : SessionParams → Exn + string * string.
Variable RESEND_API_KEY : option string.
Variable emails_send : Email → bool.
Variable Order_validate : Order.t → bool.

(** The store after one request is served. *)
Definition serve (c : Call) (db : Db) : Db :=
  match c with
  | CreateOrder req => (createOrder Order_validate req db).2
  | GetOrderById req => (getOrderById req db).2
  | UpdateOrderStatus now req => (updateOrderStatus now req db).2
  | UpdateOrderToPaid now req => (updateOrderToPaid now req db).2
  | CreateCheckoutSession req =>
      (create_checkout_session_v2 sessions_create Order_validate req db).2
  | VerifySession_v1 now req => (verify_session_v1 sessions_retrieve now req db).2
  | VerifySession_v2 now req =>
      (verify_session_v2 sessions_retrieve RESEND_API_KEY emails_send now req db).2
  | Webhook_v1 now req => (webhook_v1 constructEvent now req db).2
  | Webhook_v2 now req =>
      (webhook_v2 constructEvent RESEND_API_KEY emails_send now req db).2
  end.

(** The store after a sequence of requests, served one after the other. *)
Definition serve_all (calls : list Call) (db : Db) : Db :=
  foldl (λ db c, serve c db) db calls.

End Server.

(** ** More sample data *)

(** Orders stamped in the order of their ids. *)
Definition createdAt0 (i : ObjectId) : Z := Z.of_N i * 1000.

Definition out_of_range0 (skip limit : Z) (listing : list (ObjectId * Order.t))
    : Exn + list (ObjectId * Order.t) :=
  inl (ProviderError "out of range").

(** Mallory's pending order and a second, paid order of Ada's. *)
Definition order1 : Order.t :=
  Order_defaults 8%N (body (cart [line 1%N 1])) [line 1%N 1].
Definition order2 : Order.t := paid_order 500 payment order0.

Definition db3 : Db :=
  set_orders (λ m, <[2%N := order2]> (<[1%N := order1]> m)) db1.

(** A store whose only order belongs to an account that is gone. *)
Definition db_orphan : Db :=
  set_orders <[0%N := Order_defaults 42%N (body (cart [line 1%N 1])) [line 1%N 1]]> db0.

Definition admin_page (page limit : Z) : Req AllOrdersQuery :=
  mkReq ada None
    {| q_status := None; q_isPaid := None; q_page := Some page; q_limit := Some limit |}.

Definition unpaid_page : Req AllOrdersQuery :=
  mkReq ada None
    {| q_status := None; q_isPaid := Some "no"; q_page := None; q_limit := None |}.

Definition checkout0 : Req CheckoutBody :=
  mkReq ada None
    {| items := Some [{| ci_name := "Garri"; ci_price := 12; ci_quantity := 2;
                         ci_image := None |}];
       checkout_shippingAddress := None;
       deliveryFee := None |}.

Definition sessions_create0 (params : SessionParams) : Exn + string * string :=
  inr ("cs_9", "https://pay.example/cs_9").

Definition sessions_create_down (params : SessionParams) : Exn + string * string :=
  inl (ProviderError "provider down").

Definition bad_hook : WebhookReq :=
  {| hook_body := Raw "completed"; stripe_signature := Some "forged" |}.

Definition verify0 : Req VerifyBody := mkReq ada None {| sessionId := Some "cs_1" |}.

(** A morning at the shop: Ada pays her order, an administrator ships and
    delivers it, Mallory places an order, and the provider's confirmation of
    Ada's payment reaches the webhook handler. *)
Definition morning : list Call :=
  [ UpdateOrderToPaid 1000 (mkReq ada (Some 0%N) payment);
    UpdateOrderStatus 2000 (mkReq ada (Some 0%N) {| new_status := shipped |});
    UpdateOrderStatus 3000 (mkReq ada (Some 0%N) {| new_status := delivered |});
    CreateOrder (mkReq mallory None (body (cart [line 1%N 1])));
    Webhook_v2 4000 parsed_hook ].

Definition storage_upload0 (name buffer contentType : string) : StorageResult := Stored.
Definition storage_remove0 (names : list string) : StorageResult := Stored.
Definition getPublicUrl0 (name : string) : string := "https://cdn.example/" +:+ name.

Definition png_upload : Req UploadBody :=
  mkReq ada None {| image := Some "data:image/png;base64,iVBORw0KGgo=" |}.

(** A session the customer has not paid yet. *)
Definition session_open : StripeObject :=
  {| so_id := "cs_2"; payment_status := "unpaid"; payment_intent := None;
     metadata_orderId := Some 0%N; metadata_userId := Some 7%N;
     customer_details_email := None; amount_total := 4100 |}.

(** Requests that create no order. *)
Definition afternoon : list Call :=
  [ UpdateOrderToPaid 1000 (mkReq ada (Some 0%N) payment);
    Webhook_v2 4000 parsed_hook;
    VerifySession_v2 5000 verify0 ].

(** The server with the sample provider, mail service and validator. *)
Definition serve0 : Call → Db → Db :=
  serve constructEvent0 sessions_retrieve0 sessions_create0 (Some "re_key")
    (λ _, true) Order_schema.
Definition serve_all0 : list Call → Db → Db :=
  serve_all constructEvent0 sessions_retrieve0 sessions_create0 (Some "re_key")
    (λ _, true) Order_schema.

(** ** Reasoning about handler bodies *)

Ltac unfold_handler :=
  unfold try_catch, no_catch, try_log, mbind, mret, Handler_bind, Handler_ret,
    bind, ret, reply, throw, gets, modify in *.

Lemma Product_findById_eq db i :
  Product_findById i db = (Next (i' ← i; p ← products db !! i'; Some (i', p)), db).
Proof. reflexivity. Qed.

Lemma check_stock_eq item db :
  check_stock item db =
    match find_product db item with
    | None => (Replied (not_found item), db)
    | Some p =>
        if Product.stock p <? OrderItem.quantity item
        then (Replied (insufficient_stock p), db)
        else (Next tt, db)
    end.
Proof.
  unfold check_stock, find_product, Product_findById. unfold_handler.
  destruct (OrderItem.product item) as [i|]; simpl; [|done].
  destruct (products db !! i) as [p|]; simpl; [|done].
  by destruct (Product.stock p <? OrderItem.quantity item).
Qed.

Lemma check_stock_pass item db :
  in_stock db item → check_stock item db = (Next tt, db).
Proof.
  intros (p & Hp & Hq). rewrite check_stock_eq, Hp.
  destruct (Z.ltb_spec (Product.stock p) (OrderItem.quantity item)); [lia|done].
Qed.

Lemma for_of_cons {A} (x : A) xs body db :
  for_of (x :: xs) body db =
    match body x db with
    | (Next _, db') => for_of xs body db'
    | (Replied r, db') => (Replied r, db')
    | (Thrown e, db') => (Thrown e, db')
    end.
Proof. reflexivity. Qed.

Lemma for_of_check_stock_pass items db :
  Forall (in_stock db) items → for_of items check_stock db = (Next tt, db).
Proof.
  induction 1 as [|item items Hitem _ IH]; [done|].
  by rewrite for_of_cons, check_stock_pass.
Qed.

Lemma for_of_check_stock_fail pre item post db r :
  Forall (in_stock db) pre →
  check_stock item db = (Replied r, db) →
  for_of (pre ++ item :: post) check_stock db = (Replied r, db).
Proof.
  intros Hpre Hitem. induction Hpre as [|x pre Hx _ IH]; simpl app.
  - by rewrite for_of_cons, Hitem.
  - by rewrite for_of_cons, check_stock_pass.
Qed.

Global Instance in_stock_dec db item : Decision (in_stock db item).
Proof.
  unfold in_stock. destruct (find_product db item) as [p|].
  - destruct (decide (OrderItem.quantity item ≤ Product.stock p)).
    + left. eauto.
    + right. intros (p' & [= <-] & ?). done.
  - right. intros (p' & [=] & ?).
Defined.

(** The first line item that fails the stock check splits the cart. *)
Lemma first_failing_line db items :
  ¬ Forall (in_stock db) items →
  ∃ pre item post,
    items = pre ++ item :: post ∧ Forall (in_stock db) pre ∧ ¬ in_stock db item.
Proof.
  induction items as [|x items IH]; intros Hne.
  - destruct Hne. constructor.
  - destruct (decide (in_stock db x)) as [Hx|Hx].
    + destruct IH as (pre & item & post & -> & Hpre & Hitem).
      { intros Hall. apply Hne. by constructor. }
      exists (x :: pre), item, post. repeat split; [by constructor|done].
    + exists [], x, items. repeat split; [constructor|done].
Qed.

Lemma check_stock_fail item db :
  ¬ in_stock db item →
  (find_product db item = None ∧
   check_stock item db = (Replied (not_found item), db)) ∨
  (∃ p, find_product db item = Some p ∧
        Product.stock p < OrderItem.quantity item ∧
        check_stock item db = (Replied (insufficient_stock p), db)).
Proof.
  intros Hfail. rewrite check_stock_eq.
  destruct (find_product db item) as [p|] eqn:Hp; [right|left; done].
  exists p. destruct (Z.ltb_spec (Product.stock p) (OrderItem.quantity item)).
  - done.
  - destruct Hfail. exists p. done.
Qed.

Lemma stock_reserve q p : Product.stock (reserve q p) = Product.stock p - q.
Proof. unfold reserve. simpl. by destruct (_ =? _). Qed.

Lemma inStock_reserve q p :
  Product.inStock (reserve q p) =
    if Product.stock p - q =? 0 then false else Product.inStock p.
Proof. unfold reserve. simpl. by destruct (_ =? _). Qed.

Lemma reserve_line_here i p item :
  OrderItem.product item = Some i →
  reserve_line i p item = reserve (OrderItem.quantity item) p.
Proof. intros H. unfold reserve_line. by rewrite decide_True. Qed.

Lemma reserve_line_elsewhere j i p item :
  OrderItem.product item = Some j → j ≠ i → reserve_line i p item = p.
Proof. intros H Hne. unfold reserve_line. rewrite decide_False; [done|congruence]. Qed.

Lemma stock_reserve_lines i items p :
  Product.stock (foldl (reserve_line i) p items) = Product.stock p - demand i items.
Proof.
  revert p. induction items as [|item items IH]; intros p; simpl.
  - lia.
  - rewrite IH. unfold reserve_line. case_decide.
    + rewrite stock_reserve. lia.
    + lia.
Qed.

Lemma update_stock_eq item db :
  update_stock item db =
    match OrderItem.product item with
    | None => (Thrown TypeError, db)
    | Some i =>
        match products db !! i with
        | None => (Thrown TypeError, db)
        | Some p =>
            if Product_validate (reserve (OrderItem.quantity item) p)
            then (Next tt, set_products <[i := reserve (OrderItem.quantity item) p]> db)
            else (Thrown (ValidationError "Product"), db)
        end
    end.
Proof.
  unfold update_stock, Product_findById, Product_save. unfold_handler.
  destruct (OrderItem.product item) as [i|]; simpl; [|done].
  destruct (products db !! i) as [p|]; simpl; [|done].
  fold (reserve (OrderItem.quantity item) p).
  by destruct (Product_validate _).
Qed.

(** The validators do not look at [inStock], and look at [stock] only for
    its sign. *)
Lemma Product_validate_stock p : Product_validate p = true → 0 ≤ Product.stock p.
Proof.
  unfold Product_validate. rewrite !andb_true_iff, !Z.leb_le. tauto.
Qed.

Lemma Product_validate_reserve q p :
  Product_validate p = true → q ≤ Product.stock p →
  Product_validate (reserve q p) = true.
Proof.
  unfold Product_validate, reserve. intros Hp Hq.
  rewrite !andb_true_iff, !Z.leb_le in Hp.
  destruct Hp as ((((((? & ?) & ?) & ?) & ?) & ?) & ?).
  assert (∀ p', Product.name p' = Product.name p →
                Product.description p' = Product.description p →
                Product.price p' = Product.price p →
                Product.category p' = Product.category p →
                Product.rating_average p' = Product.rating_average p →
                0 ≤ Product.stock p' →
                negb (String.eqb (Product.name p') "")
                && negb (String.eqb (Product.description p') "")
                && (0 <=? Product.price p')
                && bool_decide (Product.category p' ∈ Product_categories)
                && (0 <=? Product.stock p')
                && (0 <=? Product.rating_average p')
                && (Product.rating_average p' <=? 5) = true) as Hsame.
  { intros p' -> -> -> -> -> Hs. rewrite !andb_true_iff, !Z.leb_le. tauto. }
  cbn zeta. destruct (_ =? 0); apply Hsame; simpl; try done; lia.
Qed.

Lemma update_stock_never_replies item db r db' :
  update_stock item db ≠ (Replied r, db').
Proof.
  rewrite update_stock_eq. repeat case_match; congruence.
Qed.

Lemma for_of_update_stock_never_replies items db r db' :
  for_of items update_stock db ≠ (Replied r, db').
Proof.
  revert db. induction items as [|item items IH]; intros db; [done|].
  rewrite for_of_cons.
  destruct (update_stock item db) as [[[]|r1|e] db1] eqn:E; [apply IH| |done].
  by apply update_stock_never_replies in E.
Qed.

(** A completed second loop leaves every product as the fold of [reserve]
    over the lines that name it, and touches nothing else. *)
Lemma for_of_update_stock_next items db db' :
  for_of items update_stock db = (Next tt, db') →
  orders db' = orders db ∧ users db' = users db ∧ outbox db' = outbox db ∧
  ∀ i, products db' !! i = (λ p, foldl (reserve_line i) p items) <$> products db !! i.
Proof.
  revert db. induction items as [|item items IH]; intros db.
  - intros [= <-]. repeat split. intros i. by destruct (products db !! i).
  - rewrite for_of_cons, update_stock_eq.
    destruct (OrderItem.product item) as [j|] eqn:Hj; [|done].
    destruct (products db !! j) as [p|] eqn:Hp; [|done].
    destruct (Product_validate _); [|done]. intros Hrest.
    apply IH in Hrest as (-> & -> & -> & Hprod). repeat split.
    intros i. rewrite Hprod. simpl.
    destruct (decide (j = i)) as [->|Hne].
    + rewrite lookup_insert_eq, Hp. simpl.
      by rewrite (reserve_line_here i p item Hj).
    + rewrite lookup_insert_ne by done.
      destruct (products db !! i) as [p'|]; simpl; [|done].
      by rewrite (reserve_line_elsewhere j i p' item Hj Hne).
Qed.

Lemma update_stock_nonneg item db :
  stock_nonneg db → stock_nonneg (update_stock item db).2.
Proof.
  intros Hdb. rewrite update_stock_eq.
  destruct (OrderItem.product item) as [j|]; [|done].
  destruct (products db !! j) as [p|]; [|done].
  destruct (Product_validate _) eqn:Hvalid; [|done].
  intros i p'. simpl. destruct (decide (j = i)) as [->|Hne].
  - rewrite lookup_insert_eq. intros [= <-]. by apply Product_validate_stock.
  - rewrite lookup_insert_ne by done. apply Hdb.
Qed.

Lemma for_of_update_stock_nonneg items db :
  stock_nonneg db → stock_nonneg (for_of items update_stock db).2.
Proof.
  revert db. induction items as [|item items IH]; intros db Hdb; [done|].
  rewrite for_of_cons. pose proof (update_stock_nonneg item db Hdb) as H1.
  destruct (update_stock item db) as [[[]|r1|e] db1]; [by apply IH|done|done].
Qed.

Lemma fails_validation_not_in_stock db item :
  fails_validation db item → ¬ in_stock db item.
Proof.
  intros [Hnone|(p & Hp & Hlt)] (p' & Hp' & Hle); [congruence|].
  assert (p' = p) as -> by congruence. lia.
Qed.

Lemma foldl_reserve_line_filter i items p :
  foldl (reserve_line i) p items =
    foldl (λ p item, reserve (OrderItem.quantity item) p) p
      (filter (λ item, OrderItem.product item = Some i) items).
Proof.
  revert p. induction items as [|item items IH]; intros p; [done|].
  simpl. rewrite IH. unfold reserve_line. rewrite filter_cons.
  by case_decide.
Qed.

Section ControllerFacts.

Variable V : Order.t → bool.

Lemma createOrder_rejects req db pre item post r :
  orderItems (body req) = Some (pre ++ item :: post) →
  Forall (in_stock db) pre →
  check_stock item db = (Replied r, db) →
  createOrder V req db = (r, db).
Proof.
  intros Hitems Hpre Hitem. unfold createOrder. rewrite Hitems.
  pose proof (for_of_check_stock_fail pre item post db r Hpre Hitem) as Hloop.
  destruct (pre ++ item :: post) as [|x l] eqn:E.
  { by destruct pre. }
  unfold_handler. by rewrite Hloop.
Qed.

Lemma createOrder_checked req db items :
  orderItems (body req) = Some items → items ≠ [] →
  Forall (in_stock db) items →
  let doc := Order_defaults (id (user req)) (body req) items in
  let i := fresh (dom (orders db)) in
  createOrder V req db =
    if V doc then
      match for_of items update_stock (set_orders <[i := doc]> db) with
      | (Next _, db') => (mkRes 201 (JOrder "Order created successfully" i doc), db')
      | (Replied r, db') => (r, db')
      | (Thrown e, db') => (mkRes 500 (JError "Error creating order" e), db')
      end
    else (mkRes 500 (JError "Error creating order" (ValidationError "Order")), db).
Proof.
  intros Hitems Hne Hall doc i. unfold createOrder. rewrite Hitems.
  destruct items as [|x l]; [done|].
  unfold try_catch, mbind, Handler_bind. unfold bind at 1.
  rewrite (for_of_check_stock_pass _ _ Hall).
  unfold bind at 1. unfold Order_create. fold doc.
  destruct (V doc); [|done].
  unfold_handler. cbn beta iota. fold i.
  by destruct (for_of (x :: l) update_stock _) as [[[]|r|e] db'].
Qed.

(** The runs of [createOrder]: either it stops before any write, or the
    order is stored and the outcome is that of the second loop. *)
Lemma createOrder_run req db :
  ((createOrder V req db).2 = db ∧ res_status (createOrder V req db).1 ≠ 201) ∨
  (∃ items,
     orderItems (body req) = Some items ∧ Forall (in_stock db) items ∧
     let doc := Order_defaults (id (user req)) (body req) items in
     let i := fresh (dom (orders db)) in
     V doc = true ∧
     match for_of items update_stock (set_orders <[i := doc]> db) with
     | (Next _, db') =>
         createOrder V req db =
           (mkRes 201 (JOrder "Order created successfully" i doc), db')
     | (Thrown e, db') =>
         createOrder V req db = (mkRes 500 (JError "Error creating order" e), db')
     | (Replied _, _) => False
     end).
Proof.
  destruct (orderItems (body req)) as [items|] eqn:Hitems.
  2: { left. unfold createOrder. rewrite Hitems. done. }
  destruct (decide (Forall (in_stock db) items)) as [Hall|Hnot].
  - destruct (decide (items = [])) as [->|Hne].
    { left. unfold createOrder. rewrite Hitems. done. }
    rewrite (createOrder_checked req db items Hitems Hne Hall). cbn zeta.
    destruct (V (Order_defaults _ _ _)) eqn:HV; [|left; done].
    right. exists items. split_and!; [done..|].
    destruct (for_of items update_stock _) as [[[]|r|e] db'] eqn:Hloop; [done| |done].
    by apply for_of_update_stock_never_replies in Hloop.
  - left. destruct (first_failing_line db items Hnot)
      as (pre & item & post & -> & Hpre & Hitem).
    destruct (check_stock_fail item db Hitem) as [[_ Hr]|(p & _ & _ & Hr)];
      rewrite (createOrder_rejects req db pre item post _ Hitems Hpre Hr); done.
Qed.

Lemma createOrder_created req db :
  res_status (createOrder V req db).1 = 201 →
  ∃ items,
    orderItems (body req) = Some items ∧ Forall (in_stock db) items ∧
    let doc := Order_defaults (id (user req)) (body req) items in
    let i := fresh (dom (orders db)) in
    V doc = true ∧
    (createOrder V req db).1 = mkRes 201 (JOrder "Order created successfully" i doc) ∧
    for_of items update_stock (set_orders <[i := doc]> db)
      = (Next tt, (createOrder V req db).2).
Proof.
  intros H201. destruct (createOrder_run req db) as [[_ Hne]|(items & Hitems & Hall & Hrun)];
    [done|].
  exists items. split_and!; [done..|]. cbn zeta in Hrun.
  destruct Hrun as [HV Hrun]. split; [done|].
  destruct (for_of items update_stock _) as [[[]|r|e] db'];
    [by rewrite Hrun|done|by rewrite Hrun in H201].
Qed.

(** C2. [createOrder] is all-or-nothing with respect to stock validation:
    when some line item names a missing product or asks for more than the
    product's current stock, the call answers 404 "Product .. not found"
    for a missing product or 400 "Not enough stock for <name>. Only <stock>
    available" for a short one (the first such line decides which), and
    the store is left as it was: no stock is decremented and no order is
    persisted. *)
Theorem createOrder_all_or_nothing req db items :
  orderItems (body req) = Some items →
  Exists (fails_validation db) items →
  ∃ item, item ∈ items ∧
    ((find_product db item = None ∧
      createOrder V req db =
        (mkRes 404 (JMessage false ("Product " +:+ OrderItem.name item +:+ " not found")),
         db)) ∨
     (∃ p, find_product db item = Some p ∧
           Product.stock p < OrderItem.quantity item ∧
           createOrder V req db =
             (mkRes 400 (JMessage false
                ("Not enough stock for " +:+ Product.name p +:+
                 ". Only " +:+ pretty (Product.stock p) +:+ " available")),
              db))).
Proof.
  intros Hitems Hex.
  assert (¬ Forall (in_stock db) items) as Hnot.
  { intros Hall. apply Exists_exists in Hex as (x & Hx & Hfail).
    rewrite Forall_forall in Hall.
    by apply (fails_validation_not_in_stock db x Hfail), Hall. }
  destruct (first_failing_line db items Hnot)
    as (pre & item & post & -> & Hpre & Hitem).
  exists item. split; [set_solver|].
  destruct (check_stock_fail item db Hitem) as [[Hnone Hr]|(p & Hp & Hlt & Hr)].
  - left. split; [done|]. by apply (createOrder_rejects req db pre item post).
  - right. exists p. split_and!; [done..|].
    by apply (createOrder_rejects req db pre item post).
Qed.

(** C3. Stock non-negativity is preserved by every [createOrder] call: if
    no product has negative stock before, none has after, whatever the
    request and the answer (so the quantity taken from a product never
    exceeds its starting stock); and when the call succeeds (201) each
    product's stock has gone down by exactly the total quantity the cart
    asks of it over all its lines, and that total is at most the starting
    stock. *)
Theorem createOrder_stock_nonneg req db :
  stock_nonneg db →
  stock_nonneg (createOrder V req db).2 ∧
  (∀ items, orderItems (body req) = Some items →
     res_status (createOrder V req db).1 = 201 →
     ∀ i p, products db !! i = Some p →
       demand i items ≤ Product.stock p ∧
       ∃ p', products (createOrder V req db).2 !! i = Some p' ∧
             Product.stock p' = Product.stock p - demand i items).
Proof.
  intros Hdb. split.
  - destruct (createOrder_run req db) as [[-> _]|(items & _ & _ & Hrun)]; [done|].
    cbn zeta in Hrun. destruct Hrun as [_ Hrun].
    pose proof (for_of_update_stock_nonneg items
      (set_orders <[fresh (dom (orders db)) :=
         Order_defaults (id (user req)) (body req) items]> db) Hdb) as Hloop.
    destruct (for_of items update_stock _) as [[[]|r|e] db'];
      [by rewrite Hrun|done|by rewrite Hrun].
  - intros items Hitems H201 i p Hp.
    destruct (createOrder_created req db H201) as (items' & Hitems' & _ & Hrun).
    assert (items' = items) as -> by congruence. cbn zeta in Hrun.
    destruct Hrun as (_ & _ & Hloop).
    pose proof (for_of_update_stock_nonneg items
      (set_orders <[fresh (dom (orders db)) :=
         Order_defaults (id (user req)) (body req) items]> db) Hdb) as Hnn.
    rewrite Hloop in Hnn. simpl in Hnn.
    apply for_of_update_stock_next in Hloop as (_ & _ & _ & Hprod).
    specialize (Hprod i). simpl in Hprod. rewrite Hp in Hprod. simpl in Hprod.
    specialize (Hnn i _ Hprod). rewrite stock_reserve_lines in Hnn.
    split; [lia|]. eexists. split; [exact Hprod|]. apply stock_reserve_lines.
Qed.

(** C8. After a successful [createOrder] (201) whose cart has exactly one
    line for product [i], of quantity [q >= 1] as the data model has it,
    against stock [s] with [inStock = (s > 0)] beforehand: [q <= s], the
    product's stock is [s - q], and its [inStock] flag is false if and only
    if that stock is 0. *)
Theorem createOrder_decrements_stock req db items i item p :
  orderItems (body req) = Some items →
  res_status (createOrder V req db).1 = 201 →
  filter (λ item, OrderItem.product item = Some i) items = [item] →
  1 ≤ OrderItem.quantity item →
  products db !! i = Some p →
  Product.inStock p = bool_decide (0 < Product.stock p) →
  OrderItem.quantity item ≤ Product.stock p ∧
  ∃ p', products (createOrder V req db).2 !! i = Some p' ∧
        Product.stock p' = Product.stock p - OrderItem.quantity item ∧
        (Product.inStock p' = false ↔ Product.stock p' = 0).
Proof.
  intros Hitems H201 Hline Hq Hp Hflag.
  destruct (createOrder_created req db H201) as (items' & Hitems' & Hall & Hrun).
  assert (items' = items) as -> by congruence. cbn zeta in Hrun.
  destruct Hrun as (_ & _ & Hloop).
  apply for_of_update_stock_next in Hloop as (_ & _ & _ & Hprod).
  specialize (Hprod i). simpl in Hprod. rewrite Hp in Hprod. simpl in Hprod.
  rewrite foldl_reserve_line_filter, Hline in Hprod. simpl in Hprod.
  assert (OrderItem.quantity item ≤ Product.stock p) as Hle.
  { assert (item ∈ filter (λ item, OrderItem.product item = Some i) items) as Hin
      by (rewrite Hline; set_solver).
    apply list_elem_of_filter in Hin as [Hi Hin].
    rewrite Forall_forall in Hall. destruct (Hall item Hin) as (p0 & Hp0 & Hle).
    unfold find_product in Hp0. rewrite Hi in Hp0. simpl in Hp0.
    by assert (p0 = p) as -> by congruence. }
  split; [done|].
  eexists. split; [exact Hprod|]. rewrite stock_reserve, inStock_reserve.
  split; [done|]. rewrite Hflag.
  destruct (Z.eqb_spec (Product.stock p - OrderItem.quantity item) 0) as [E|E].
  - done.
  - rewrite bool_decide_eq_false. split; [lia|done].
Qed.

(** C4, as the code has it.  An order persisted by [createOrder] carries
    the four price fields and the line items, each with its price, exactly
    as the request body supplied them: the handler neither recomputes the
    total nor reads the catalog price.  The order is stored under a fresh
    id, and later writes to the catalog leave it untouched. *)
Theorem createOrder_stores_request_prices req db :
  res_status (createOrder V req db).1 = 201 →
  ∃ i o items,
    orderItems (body req) = Some items ∧
    orders db !! i = None ∧
    orders (createOrder V req db).2 !! i = Some o ∧
    (createOrder V req db).1 = mkRes 201 (JOrder "Order created successfully" i o) ∧
    Order.itemsPrice o = itemsPrice (body req) ∧
    Order.shippingPrice o = shippingPrice (body req) ∧
    Order.taxPrice o = taxPrice (body req) ∧
    Order.totalPrice o = totalPrice (body req) ∧
    Order.orderItems o = items ∧
    ∀ edit, orders (set_products edit (createOrder V req db).2) !! i = Some o.
Proof.
  intros H201.
  destruct (createOrder_created req db H201) as (items & Hitems & _ & Hrun).
  cbn zeta in Hrun. destruct Hrun as (_ & Hres & Hloop).
  apply for_of_update_stock_next in Hloop as (Horders & _).
  exists (fresh (dom (orders db))),
    (Order_defaults (id (user req)) (body req) items), items.
  assert (orders (createOrder V req db).2 !! fresh (dom (orders db)) =
          Some (Order_defaults (id (user req)) (body req) items)) as Hstored.
  { rewrite Horders. simpl. apply lookup_insert_eq. }
  split_and!; try done.
  apply not_elem_of_dom, is_fresh.
Qed.

End ControllerFacts.

(** ** Payment and status updates *)

Lemma updateOrderToPaid_eq now req db :
  updateOrderToPaid now req db =
    match params_id req with
    | None => (mkRes 404 (JMessage false "Order not found"), db)
    | Some i =>
        match orders db !! i with
        | None => (mkRes 404 (JMessage false "Order not found"), db)
        | Some o =>
            (mkRes 200 (JOrder "Order marked as paid" i (paid_order now (body req) o)),
             set_orders <[i := paid_order now (body req) o]> db)
        end
    end.
Proof.
  unfold updateOrderToPaid, Order_findById, Order_save. unfold_handler.
  destruct (params_id req) as [i|]; simpl; [|done].
  by destruct (orders db !! i) as [o|].
Qed.

Lemma updateOrderStatus_eq now req db :
  updateOrderStatus now req db =
    match params_id req with
    | None => (mkRes 404 (JMessage false "Order not found"), db)
    | Some i =>
        match orders db !! i with
        | None => (mkRes 404 (JMessage false "Order not found"), db)
        | Some o =>
            let o' := restatused_order now (new_status (body req)) o in
            (mkRes 200 (JOrder "Order status updated successfully" i o'),
             set_orders <[i := o']> db)
        end
    end.
Proof.
  unfold updateOrderStatus, Order_findById, Order_save. unfold_handler.
  destruct (params_id req) as [i|]; simpl; [|done].
  destruct (orders db !! i) as [o|]; simpl; [|done].
  unfold restatused_order. by destruct (new_status (body req)).
Qed.

Lemma getOrderById_eq req db :
  getOrderById req db =
    match params_id req with
    | None => (mkRes 404 (JMessage false "Order not found"), db)
    | Some i =>
        match orders db !! i with
        | None => (mkRes 404 (JMessage false "Order not found"), db)
        | Some o =>
            match users db !! Order.user o with
            | None => (mkRes 500 (JError "Error fetching order" TypeError), db)
            | Some _ =>
                if bool_decide (Order.user o ≠ id (user req))
                   && bool_decide (role (user req) ≠ RoleAdmin)
                then (mkRes 403 (JMessage false "Not authorized to view this order"), db)
                else (mkRes 200 (JPopulated (populate db (i, o))), db)
            end
        end
    end.
Proof.
  unfold getOrderById, Order_findById. unfold_handler.
  destruct (params_id req) as [i|]; simpl; [|done].
  destruct (orders db !! i) as [o|]; simpl; [|done].
  destruct (users db !! Order.user o) as [u|]; simpl; [|done].
  by destruct (_ && _).
Qed.

(** C1, as the code has it.  Two calls of [updateOrderToPaid] with the same
    payment result, at times [t1] then [t2], answer and leave the store
    exactly as a single call made at [t2] does: [isPaid], [paymentResult] and
    [status] are those of one call, and [paidAt] is the time of the latest
    call (each call overwrites it with the current time). *)
Theorem updateOrderToPaid_twice t1 t2 req db :
  updateOrderToPaid t2 req (updateOrderToPaid t1 req db).2 =
  updateOrderToPaid t2 req db.
Proof.
  rewrite !updateOrderToPaid_eq.
  destruct (params_id req) as [i|]; [|done].
  destruct (orders db !! i) as [o|] eqn:Ho; simpl; [|by rewrite Ho].
  rewrite lookup_insert_eq. unfold set_orders. simpl.
  by rewrite insert_insert_eq.
Qed.

(** C6, as the code has it.  When the order does not exist [getOrderById]
    answers 404 "Order not found" to every requester, owner, stranger or
    administrator; when it exists, its owner's account is on file and the
    requester is neither that owner nor an administrator, it answers 403.
    The store is untouched in both cases. *)
Theorem getOrderById_not_owner (u : ReqUser) (i : ObjectId) db :
  (orders db !! i = None →
   getOrderById (mkReq u (Some i) tt) db =
     (mkRes 404 (JMessage false "Order not found"), db)) ∧
  (∀ o, orders db !! i = Some o →
        is_Some (users db !! Order.user o) →
        Order.user o ≠ id u →
        role u ≠ RoleAdmin →
        getOrderById (mkReq u (Some i) tt) db =
          (mkRes 403 (JMessage false "Not authorized to view this order"), db)).
Proof.
  split.
  - intros Hnone. by rewrite getOrderById_eq; simpl; rewrite Hnone.
  - intros o Ho [owner Howner] Hne Hrole. rewrite getOrderById_eq. simpl.
    rewrite Ho, Howner. by rewrite !bool_decide_eq_true_2.
Qed.

(** C7. The pay route is guarded by [protect] alone, and the handler never
    looks at the caller: for every requesting user, owner or not,
    administrator or not, and every existing order, [updateOrderToPaid]
    answers 200, marks the order paid at the current time, puts it in status
    processing and stores the payment result of the request body verbatim,
    leaving every other field and every other order as they were; the only
    failure is 404 when the order is absent, with the store untouched. *)
Theorem updateOrderToPaid_any_caller now (u : ReqUser) (i : ObjectId) (b : PayBody) db :
  orderRoutes PUT_id_pay = [protect] ∧
  (∀ o, orders db !! i = Some o →
     let o' :=
       Order.mk (Order.user o) (Order.orderItems o) (Order.shippingAddress o)
         (Order.paymentMethod o) (Order.itemsPrice o) (Order.shippingPrice o)
         (Order.taxPrice o) (Order.totalPrice o)
         processing true (Some now)
         (Some {| pr_id := pay_id b; pr_status := pay_status b;
                  pr_update_time := pay_update_time b;
                  pr_email_address := pay_email_address b; pr_email := None |})
         (Order.isDelivered o) (Order.deliveredAt o) (Order.stripeSessionId o) in
     updateOrderToPaid now (mkReq u (Some i) b) db =
       (mkRes 200 (JOrder "Order marked as paid" i o'),
        mkDb (products db) (<[i := o']> (orders db)) (users db) (outbox db))) ∧
  (orders db !! i = None →
   updateOrderToPaid now (mkReq u (Some i) b) db =
     (mkRes 404 (JMessage false "Order not found"), db)).
Proof.
  split; [done|]. split.
  - intros o Ho. by rewrite updateOrderToPaid_eq; simpl; rewrite Ho.
  - intros Hnone. by rewrite updateOrderToPaid_eq; simpl; rewrite Hnone.
Qed.

(** C9. For every existing order and every status of the enum,
    [updateOrderStatus] answers 200 and sets the status to the one supplied,
    whatever the order's current status; exactly when the new status is
    delivered it also sets [isDelivered] and stamps [deliveredAt] with the
    current time, and otherwise leaves both as they were.  When the order is
    absent it answers 404 and the store is untouched. *)
Theorem updateOrderStatus_unconditional now (u : ReqUser) (i : ObjectId)
    (s : OrderStatus) db :
  (∀ o, orders db !! i = Some o →
     let o' :=
       Order.mk (Order.user o) (Order.orderItems o) (Order.shippingAddress o)
         (Order.paymentMethod o) (Order.itemsPrice o) (Order.shippingPrice o)
         (Order.taxPrice o) (Order.totalPrice o)
         s (Order.isPaid o) (Order.paidAt o) (Order.paymentResult o)
         (if decide (s = delivered) then true else Order.isDelivered o)
         (if decide (s = delivered) then Some now else Order.deliveredAt o)
         (Order.stripeSessionId o) in
     updateOrderStatus now (mkReq u (Some i) {| new_status := s |}) db =
       (mkRes 200 (JOrder "Order status updated successfully" i o'),
        mkDb (products db) (<[i := o']> (orders db)) (users db) (outbox db))) ∧
  (orders db !! i = None →
   updateOrderStatus now (mkReq u (Some i) {| new_status := s |}) db =
     (mkRes 404 (JMessage false "Order not found"), db)).
Proof.
  split.
  - intros o Ho. by rewrite updateOrderStatus_eq; simpl; rewrite Ho.
  - intros Hnone. by rewrite updateOrderStatus_eq; simpl; rewrite Hnone.
Qed.

(** ** The payment router's writes *)

Lemma Order_findByIdAndUpdate_found i update o db :
  orders db !! i = Some o →
  Order_findByIdAndUpdate i update db =
    (Next (Some (i, update o)), set_orders <[i := update o]> db).
Proof.
  intros Ho. unfold Order_findByIdAndUpdate. unfold_handler. by rewrite Ho.
Qed.

(** ** Orders created by the checkout route *)

(** X29. An order the second revision's checkout route persists has its total
    computed by the handler: [itemsPrice] is the sum of price times quantity
    over the request's items, [taxPrice] is 0, and [totalPrice] is the sum of
    the three parts.  Its line prices are the request's, and its lines carry
    no product reference. *)
Lemma create_checkout_session_v2_totals sessions_create V req db :
  let r := create_checkout_session_v2 sessions_create V req db in
  res_status r.1 = 200 →
  ∃ i o cart,
    items (body req) = Some cart ∧
    orders r.2 !! i = Some o ∧
    Order.itemsPrice o = foldl (λ sum item, sum + ci_price item * ci_quantity item) 0 cart ∧
    Order.taxPrice o = 0 ∧
    Order.totalPrice o = Order.itemsPrice o + Order.shippingPrice o + Order.taxPrice o ∧
    OrderItem.price <$> Order.orderItems o = ci_price <$> cart ∧
    Forall (λ item, OrderItem.product item = None) (Order.orderItems o).
Proof.
  intros r. subst r. unfold create_checkout_session_v2.
  destruct (items (body req)) as [[|x cart]|] eqn:Hitems; [done| |done].
  unfold Order_create. unfold_handler.
  destruct (V _); [|done]. cbn beta iota.
  destruct (sessions_create _) as [e|[sid url]]; [done|].
  unfold Order_save. unfold_handler. cbn [fst snd res_status].
  intros _. eexists _, _, (x :: cart). split; [done|].
  split; [cbn [snd orders set_orders]; apply lookup_insert_eq|].
  cbn [Order.itemsPrice Order.taxPrice Order.totalPrice Order.shippingPrice
       Order.orderItems Order.set_stripeSessionId snd].
  split_and!; [done|done|lia| |].
  - rewrite <- list_fmap_compose. done.
  - apply Forall_fmap, Forall_true. done.
Qed.

(** ** Runs on the sample data *)

(** C1, the claim as written fails: paid at 1000 and again at 2000 with the
    same payment result, the order's [paidAt] is 2000, not the 1000 a single
    call leaves. *)
Lemma updateOrderToPaid_not_idempotent :
  let req := mkReq ada (Some 0%N) payment in
  let once := (updateOrderToPaid 1000 req db1).2 in
  let twice := (updateOrderToPaid 2000 req once).2 in
  Order.paidAt <$> orders once !! 0%N = Some (Some 1000) ∧
  Order.paidAt <$> orders twice !! 0%N = Some (Some 2000) ∧
  orders twice !! 0%N ≠ orders once !! 0%N.
Proof. vm_compute. split_and!; [done|done|]. intros [=]. Qed.

(** C4, the claim as written fails: the mispriced cart is accepted and
    persisted with a total of 1 against parts that sum to 41, and with a line
    price of 1 for a product the catalog sells at 12. *)
Lemma createOrder_total_unchecked :
  let r := createOrder Order_schema mispriced db0 in
  res_status r.1 = 201 ∧
  ∃ o item p,
    orders r.2 !! 0%N = Some o ∧
    Order.totalPrice o ≠ Order.itemsPrice o + Order.shippingPrice o + Order.taxPrice o ∧
    Order.orderItems o = [item] ∧
    find_product db0 item = Some p ∧
    OrderItem.price item ≠ Product.price p.
Proof.
  split; [by vm_compute|].
  eexists _, _, _. split_and!; [by vm_compute|by vm_compute|by vm_compute|by vm_compute|].
  by vm_compute.
Qed.

(** C6, the claim as written fails: Mallory, neither owner nor
    administrator, asks for an order that does not exist and gets 404, not
    403. *)
Lemma getOrderById_absent_is_404 :
  role mallory ≠ RoleAdmin ∧
  orders db1 !! 5%N = None ∧
  getOrderById (mkReq mallory (Some 5%N) tt) db1
    = (mkRes 404 (JMessage false "Order not found"), db1) ∧
  res_status (getOrderById (mkReq mallory (Some 5%N) tt) db1).1 ≠ 403.
Proof. split_and!; [done|by vm_compute|by vm_compute|by vm_compute]. Qed.

Lemma stock_nonneg_db0 : stock_nonneg db0.
Proof.
  intros i p. unfold db0. simpl. intros Hp.
  apply lookup_insert_Some in Hp as [[_ <-]|[_ Hp]]; [simpl; lia|].
  apply lookup_singleton_Some in Hp as [_ <-]. simpl; lia.
Qed.

(** C2 on a cart whose second line asks for a sold-out product. *)
Lemma createOrder_all_or_nothing_witness :
  let items := [line 1%N 5; line 2%N 1] in
  ∃ item, item ∈ items ∧
    ((find_product db0 item = None ∧
      createOrder Order_schema (cart items) db0 =
        (mkRes 404 (JMessage false ("Product " +:+ OrderItem.name item +:+ " not found")),
         db0)) ∨
     (∃ p, find_product db0 item = Some p ∧
           Product.stock p < OrderItem.quantity item ∧
           createOrder Order_schema (cart items) db0 =
             (mkRes 400 (JMessage false
                ("Not enough stock for " +:+ Product.name p +:+
                 ". Only " +:+ pretty (Product.stock p) +:+ " available")),
              db0))).
Proof.
  apply (createOrder_all_or_nothing Order_schema
           (cart [line 1%N 5; line 2%N 1]) db0 [line 1%N 5; line 2%N 1]).
  - reflexivity.
  - apply Exists_cons_tl, Exists_cons_hd. right.
    exists (grocery "Egusi" 8 0 false). split; [by vm_compute|simpl; lia].
Defined.

(** C3 on a cart that names the same product in two lines. *)
Lemma createOrder_stock_nonneg_witness :
  let req := cart [line 1%N 3; line 1%N 2] in
  stock_nonneg db0 ∧
  stock_nonneg (createOrder Order_schema req db0).2 ∧
  (∀ items, orderItems (body req) = Some items →
     res_status (createOrder Order_schema req db0).1 = 201 →
     ∀ i p, products db0 !! i = Some p →
       demand i items ≤ Product.stock p ∧
       ∃ p', products (createOrder Order_schema req db0).2 !! i = Some p' ∧
             Product.stock p' = Product.stock p - demand i items).
Proof.
  split; [exact stock_nonneg_db0|].
  exact (createOrder_stock_nonneg Order_schema (cart [line 1%N 3; line 1%N 2]) db0
           stock_nonneg_db0).
Defined.

(** C8 on the order that takes the last five units. *)
Lemma createOrder_decrements_stock_witness :
  let req := cart [line 1%N 5] in
  let p := grocery "Garri" 12 5 true in
  res_status (createOrder Order_schema req db0).1 = 201 ∧
  OrderItem.quantity (line 1%N 5) ≤ Product.stock p ∧
  ∃ p', products (createOrder Order_schema req db0).2 !! 1%N = Some p' ∧
        Product.stock p' = Product.stock p - OrderItem.quantity (line 1%N 5) ∧
        (Product.inStock p' = false ↔ Product.stock p' = 0).
Proof.
  split; [by vm_compute|].
  apply (createOrder_decrements_stock Order_schema (cart [line 1%N 5]) db0
           [line 1%N 5] 1%N (line 1%N 5) (grocery "Garri" 12 5 true)).
  - reflexivity.
  - by vm_compute.
  - by vm_compute.
  - simpl; lia.
  - by vm_compute.
  - reflexivity.
Defined.

(** C4 as amended, on the mispriced cart. *)
Lemma createOrder_stores_request_prices_witness :
  res_status (createOrder Order_schema mispriced db0).1 = 201 ∧
  ∃ i o items,
    orderItems (body mispriced) = Some items ∧
    orders db0 !! i = None ∧
    orders (createOrder Order_schema mispriced db0).2 !! i = Some o ∧
    (createOrder Order_schema mispriced db0).1
      = mkRes 201 (JOrder "Order created successfully" i o) ∧
    Order.itemsPrice o = itemsPrice (body mispriced) ∧
    Order.shippingPrice o = shippingPrice (body mispriced) ∧
    Order.taxPrice o = taxPrice (body mispriced) ∧
    Order.totalPrice o = totalPrice (body mispriced) ∧
    Order.orderItems o = items ∧
    ∀ edit, orders (set_products edit (createOrder Order_schema mispriced db0).2) !! i
            = Some o.
Proof.
  split; [by vm_compute|].
  apply (createOrder_stores_request_prices Order_schema mispriced db0).
  by vm_compute.
Defined.

(** C6 as amended: an administrator asks for an order that does not exist,
    and Mallory asks for Ada's order. *)
Lemma getOrderById_not_owner_witness :
  (orders db1 !! 5%N = None ∧
   getOrderById (mkReq {| id := 9%N; role := RoleAdmin; email := "root@example.com" |}
                       (Some 5%N) tt) db1 =
     (mkRes 404 (JMessage false "Order not found"), db1)) ∧
  (role mallory ≠ RoleAdmin ∧ Order.user order0 ≠ id mallory ∧
   getOrderById (mkReq mallory (Some 0%N) tt) db1 =
     (mkRes 403 (JMessage false "Not authorized to view this order"), db1)).
Proof.
  assert (orders db1 !! 5%N = None) as Hnone by (by vm_compute).
  assert (role mallory ≠ RoleAdmin) as Hrole by done.
  assert (Order.user order0 ≠ id mallory) as Hother by (by vm_compute).
  split; split_and!; [exact Hnone| |exact Hrole|exact Hother|].
  - exact (proj1 (getOrderById_not_owner
                    {| id := 9%N; role := RoleAdmin; email := "root@example.com" |}
                    5%N db1) Hnone).
  - apply (proj2 (getOrderById_not_owner mallory 0%N db1) order0).
    + by vm_compute.
    + exists (User.mk "Ada" "ada@example.com" RoleUser). by vm_compute.
    + exact Hother.
    + exact Hrole.
Defined.

(** C7: Mallory marks Ada's order paid. *)
Lemma updateOrderToPaid_any_caller_witness :
  orders db1 !! 0%N = Some order0 ∧
  Order.user order0 ≠ id mallory ∧
  updateOrderToPaid 1000 (mkReq mallory (Some 0%N) payment) db1 =
    (mkRes 200 (JOrder "Order marked as paid" 0%N (paid_order 1000 payment order0)),
     mkDb (products db1) (<[0%N := paid_order 1000 payment order0]> (orders db1))
          (users db1) (outbox db1)).
Proof.
  assert (orders db1 !! 0%N = Some order0) as Ho by (by vm_compute).
  split_and!; [exact Ho|by vm_compute|].
  exact (proj1 (proj2 (updateOrderToPaid_any_caller 1000 mallory 0%N payment db1))
           order0 Ho).
Defined.

(** C9: a pending order is set straight to delivered. *)
Lemma updateOrderStatus_unconditional_witness :
  orders db1 !! 0%N = Some order0 ∧
  Order.status order0 = pending ∧
  updateOrderStatus 1000 (mkReq ada (Some 0%N) {| new_status := delivered |}) db1 =
    (mkRes 200 (JOrder "Order status updated successfully" 0%N
                  (restatused_order 1000 delivered order0)),
     mkDb (products db1) (<[0%N := restatused_order 1000 delivered order0]> (orders db1))
          (users db1) (outbox db1)).
Proof.
  assert (orders db1 !! 0%N = Some order0) as Ho by (by vm_compute).
  split_and!; [exact Ho|done|].
  exact (proj1 (updateOrderStatus_unconditional 1000 ada 0%N delivered db1) order0 Ho).
Defined.

(** The scenario of the last units: an order for all five units succeeds and
    leaves the product sold out and flagged so; the next order for one unit
    is refused with the remaining quantity in the message. *)
Example scenario_last_units :
  let a := createOrder Order_schema (cart [line 1%N 5]) db0 in
  let b := createOrder Order_schema (cart [line 1%N 1]) a.2 in
  res_status a.1 = 201 ∧
  products a.2 !! 1%N = Some (grocery "Garri" 12 0 false) ∧
  b = (mkRes 400 (JMessage false "Not enough stock for Garri. Only 0 available"), a.2).
Proof. by vm_compute. Qed.

(** A cart that names one product in two lines, each within stock but not
    both together: the first loop lets it through, the second decrement would
    make the stock negative, the product's [min: 0] validator rejects the
    save, and the call answers 500 with the order and the first decrement
    already written. *)
Example scenario_same_product_twice :
  let r := createOrder Order_schema (cart [line 1%N 3; line 1%N 3]) db0 in
  r.1 = mkRes 500 (JError "Error creating order" (ValidationError "Product")) ∧
  Product.stock <$> products r.2 !! 1%N = Some 2 ∧
  is_Some (orders r.2 !! 0%N).
Proof. vm_compute. split_and!; [done|done|by eexists]. Qed.

(** ** More on [createOrder]: outcomes, success and frame *)

Lemma demand_nonneg i items :
  Forall (λ item, 0 ≤ OrderItem.quantity item) items → 0 ≤ demand i items.
Proof.
  induction 1 as [|item items Hq _ IH]; simpl; [done|].
  destruct (decide (OrderItem.product item = Some i)); lia.
Qed.

Lemma update_stock_frame item db :
  orders (update_stock item db).2 = orders db ∧
  users (update_stock item db).2 = users db ∧
  outbox (update_stock item db).2 = outbox db ∧
  dom (products (update_stock item db).2) = dom (products db) ∧
  ∀ i, OrderItem.product item ≠ Some i →
       products (update_stock item db).2 !! i = products db !! i.
Proof.
  rewrite update_stock_eq.
  destruct (OrderItem.product item) as [j|] eqn:Hj; [|done].
  destruct (products db !! j) as [p|] eqn:Hp; [|done].
  destruct (Product_validate _); [|done]. simpl. split_and!; [done..| |].
  - rewrite dom_insert_L. apply subseteq_union_1_L, singleton_subseteq_l.
    by apply elem_of_dom_2 in Hp.
  - intros i Hi. apply lookup_insert_ne. congruence.
Qed.

Lemma for_of_update_stock_frame items db :
  orders (for_of items update_stock db).2 = orders db ∧
  users (for_of items update_stock db).2 = users db ∧
  outbox (for_of items update_stock db).2 = outbox db ∧
  dom (products (for_of items update_stock db).2) = dom (products db) ∧
  ∀ i, Forall (λ item, OrderItem.product item ≠ Some i) items →
       products (for_of items update_stock db).2 !! i = products db !! i.
Proof.
  revert db. induction items as [|item items IH]; intros db; [done|].
  rewrite for_of_cons.
  destruct (update_stock_frame item db) as (Ho & Hu & Hm & Hd & Hp).
  destruct (update_stock item db) as [[[]|r|e] db1] eqn:E; simpl in *.
  - destruct (IH db1) as (Ho' & Hu' & Hm' & Hd' & Hp').
    split_and!; [congruence..|].
    intros i Hi. apply Forall_cons in Hi as [Hi Hrest].
    rewrite Hp' by done. by apply Hp.
  - split_and!; [done..|]. intros i Hi. apply Forall_cons in Hi as [Hi _]. by apply Hp.
  - split_and!; [done..|]. intros i Hi. apply Forall_cons in Hi as [Hi _]. by apply Hp.
Qed.

(** The second loop can only throw the product validators' error when every
    line names a product of the catalog. *)
Lemma for_of_update_stock_thrown items db e db' :
  Forall (λ item, is_Some (find_product db item)) items →
  for_of items update_stock db = (Thrown e, db') →
  e = ValidationError "Product".
Proof.
  revert db. induction items as [|item items IH]; intros db Hall; [done|].
  apply Forall_cons in Hall as [[p Hitem] Hall].
  rewrite for_of_cons.
  destruct (update_stock_frame item db) as (_ & _ & _ & Hd & _).
  pose proof (update_stock_eq item db) as Heq.
  unfold find_product in Hitem.
  destruct (OrderItem.product item) as [j|]; [|done]. simpl in Hitem.
  rewrite Hitem in Heq.
  destruct (update_stock item db) as [[[]|r|e1] db1] eqn:E.
  - apply IH. eapply Forall_impl; [exact Hall|]. intros item' [p' Hp'].
    unfold find_product in *. destruct (OrderItem.product item') as [k|]; [|done].
    simpl in *. apply elem_of_dom. simpl in Hd. rewrite Hd. by apply elem_of_dom.
  - done.
  - intros [= <- <-]. destruct (Product_validate _); congruence.
Qed.

Lemma for_of_update_stock_succeeds items db :
  Forall (λ item, 0 ≤ OrderItem.quantity item ∧
                  ∃ p, find_product db item = Some p ∧ Product_validate p = true) items →
  (∀ i p, products db !! i = Some p → demand i items ≤ Product.stock p) →
  ∃ db', for_of items update_stock db = (Next tt, db').
Proof.
  revert db. induction items as [|item items IH]; intros db Hall Hdemand.
  { by eexists. }
  apply Forall_cons in Hall as [[Hq (p & Hitem & Hvalid)] Hall].
  assert (Forall (λ item, 0 ≤ OrderItem.quantity item) items) as Hqs.
  { eapply Forall_impl; [exact Hall|]. by intros ? [? _]. }
  rewrite for_of_cons, update_stock_eq. unfold find_product in Hitem.
  destruct (OrderItem.product item) as [j|] eqn:Hj; [|done]. simpl in Hitem.
  rewrite Hitem.
  pose proof (Hdemand j p Hitem) as Hj_demand. simpl in Hj_demand.
  rewrite Hj, decide_True in Hj_demand by done.
  pose proof (demand_nonneg j items Hqs).
  assert (Product_validate (reserve (OrderItem.quantity item) p) = true) as Hsaved.
  { apply Product_validate_reserve; [done|lia]. }
  rewrite Hsaved. apply IH.
  - eapply Forall_impl; [exact Hall|]. intros item' [Hq' (p' & Hp' & Hvalid')].
    split; [done|].
    unfold find_product in *. destruct (OrderItem.product item') as [k|]; [|done].
    simpl in *. destruct (decide (j = k)) as [->|Hne].
    + rewrite lookup_insert_eq. by eexists.
    + rewrite lookup_insert_ne by done. by eexists.
  - intros i p1. simpl. destruct (decide (j = i)) as [->|Hne].
    + rewrite lookup_insert_eq. intros [= <-]. rewrite stock_reserve. lia.
    + rewrite lookup_insert_ne by done. intros Hp1.
      specialize (Hdemand i p1 Hp1). simpl in Hdemand.
      rewrite Hj, decide_False in Hdemand by congruence. lia.
Qed.

Lemma quantity_le_demand i item items :
  Forall (λ item, 0 ≤ OrderItem.quantity item) items →
  item ∈ items → OrderItem.product item = Some i →
  OrderItem.quantity item ≤ demand i items.
Proof.
  intros Hqs Hin Hi. induction Hqs as [|x items Hx Hqs IH]; [by apply elem_of_nil in Hin|].
  simpl. apply elem_of_cons in Hin as [<-|Hin].
  - rewrite decide_True by done. pose proof (demand_nonneg i items Hqs). lia.
  - specialize (IH Hin). destruct (decide (OrderItem.product x = Some i)); lia.
Qed.

Section ControllerMore.

Variable V : Order.t → bool.

(** X1. For a request whose product references are ObjectIds, every run of
    [createOrder] is of one of five kinds.  Four leave the store untouched:
    400 for an absent or empty cart; 404 or 400 from the stock check; 500
    because the order document was rejected.  Otherwise the order is stored
    under a fresh id and the answer is 201, or it is 500 because a product
    save was rejected by the Product schema after the order was written (a
    stock the second decrement of a product named twice makes negative, or a
    stored product that already broke one of its validators).  No other
    answer, and in particular no failed lookup in the second loop, can
    occur. *)
Theorem createOrder_outcomes req db :
  let r := createOrder V req db in
  (r = (mkRes 400 (JMessage false "No order items provided"), db) ∧
   (orderItems (body req) = None ∨ orderItems (body req) = Some [])) ∨
  (∃ item, r = (mkRes 404 (JMessage false
                  ("Product " +:+ OrderItem.name item +:+ " not found")), db)) ∨
  (∃ p, r = (mkRes 400 (JMessage false
               ("Not enough stock for " +:+ Product.name p +:+
                ". Only " +:+ pretty (Product.stock p) +:+ " available")), db)) ∨
  r = (mkRes 500 (JError "Error creating order" (ValidationError "Order")), db) ∨
  (∃ items,
     orderItems (body req) = Some items ∧
     let doc := Order_defaults (id (user req)) (body req) items in
     let i := fresh (dom (orders db)) in
     orders r.2 = <[i := doc]> (orders db) ∧
     (r.1 = mkRes 201 (JOrder "Order created successfully" i doc) ∨
      r.1 = mkRes 500 (JError "Error creating order" (ValidationError "Product")))).
Proof.
  intros r. subst r.
  destruct (orderItems (body req)) as [items|] eqn:Hitems.
  2: { left. unfold createOrder. rewrite Hitems. split; [done|by left]. }
  destruct (decide (items = [])) as [->|Hne].
  { left. unfold createOrder. rewrite Hitems. split; [done|by right]. }
  destruct (decide (Forall (in_stock db) items)) as [Hall|Hnot].
  - rewrite (createOrder_checked V req db items Hitems Hne Hall). cbn zeta.
    destruct (V _); [|by do 3 right; left].
    do 4 right. exists items. split; [done|]. cbn zeta.
    set (db1 := set_orders _ db).
    destruct (for_of_update_stock_frame items db1) as (Ho & _).
    destruct (for_of items update_stock db1) as [[[]|r|e] db'] eqn:Hloop.
    + split; [done|by left].
    + by apply for_of_update_stock_never_replies in Hloop.
    + split; [done|]. right.
      apply for_of_update_stock_thrown in Hloop as ->; [done|].
      eapply Forall_impl; [exact Hall|]. intros item (p & Hp & _). by exists p.
  - destruct (first_failing_line db items Hnot)
      as (pre & item & post & -> & Hpre & Hitem).
    destruct (check_stock_fail item db Hitem) as [[_ Hr]|(p & _ & _ & Hr)];
      rewrite (createOrder_rejects V req db pre item post _ Hitems Hpre Hr).
    + right; left. by exists item.
    + do 2 right; left. by exists p.
Qed.

(** X2. When the cart is not empty, every line names a product of the
    catalog that satisfies the Product schema, with a quantity that is not
    negative, the total asked of each product over all lines is within its
    stock, and the order document is accepted, [createOrder] answers 201 and
    the order is in the store under an id that was free before; every
    product's stock has gone down by the total the cart asks of it, and the
    accounts and the outbox are as they were. *)
Theorem createOrder_succeeds req db items :
  orderItems (body req) = Some items →
  items ≠ [] →
  Forall (λ item, 0 ≤ OrderItem.quantity item ∧
                  ∃ p, find_product db item = Some p ∧ Product_validate p = true) items →
  (∀ i p, products db !! i = Some p → demand i items ≤ Product.stock p) →
  V (Order_defaults (id (user req)) (body req) items) = true →
  let doc := Order_defaults (id (user req)) (body req) items in
  let i := fresh (dom (orders db)) in
  let r := createOrder V req db in
  r.1 = mkRes 201 (JOrder "Order created successfully" i doc) ∧
  orders db !! i = None ∧
  orders r.2 = <[i := doc]> (orders db) ∧
  (∀ j p, products db !! j = Some p →
     ∃ p', products r.2 !! j = Some p' ∧
           p' = foldl (reserve_line j) p items ∧
           Product.stock p' = Product.stock p - demand j items) ∧
  dom (products r.2) = dom (products db) ∧
  users r.2 = users db ∧ outbox r.2 = outbox db.
Proof.
  intros Hitems Hne Hall Hdemand HV doc i r. subst doc i r.
  assert (Forall (λ item, 0 ≤ OrderItem.quantity item) items) as Hqs.
  { eapply Forall_impl; [exact Hall|]. by intros ? [? _]. }
  assert (Forall (in_stock db) items) as Hstock.
  { apply Forall_forall. intros item Hin.
    rewrite Forall_forall in Hall. destruct (Hall item Hin) as [_ (p & Hp & _)].
    exists p. split; [done|]. unfold find_product in Hp.
    destruct (OrderItem.product item) as [j|] eqn:Hj; [|done]. simpl in Hp.
    pose proof (quantity_le_demand j item items Hqs Hin Hj).
    specialize (Hdemand j p Hp). lia. }
  rewrite (createOrder_checked V req db items Hitems Hne Hstock). cbn zeta.
  rewrite HV.
  set (db1 := set_orders _ db).
  destruct (for_of_update_stock_succeeds items db1 Hall Hdemand) as [db' Hloop].
  destruct (for_of_update_stock_frame items db1) as (_ & _ & _ & Hdom & _).
  rewrite Hloop in Hdom |- *. cbn [fst snd] in *.
  apply for_of_update_stock_next in Hloop as (Ho & Hu & Hm & Hp).
  split_and!; [done|apply not_elem_of_dom, is_fresh|by rewrite Ho| |done|done|done].
  intros j p Hj. rewrite Hp. cbn [products db1 set_orders]. rewrite Hj.
  eexists. split; [reflexivity|]. split; [done|apply stock_reserve_lines].
Qed.

(** X3. Whatever the request and the answer, [createOrder] leaves the
    accounts and the mail outbox as they were, keeps every existing order
    unchanged, adds or removes no product, and leaves untouched every product
    that no line of the cart names. *)
Theorem createOrder_frame req db :
  let db' := (createOrder V req db).2 in
  users db' = users db ∧ outbox db' = outbox db ∧
  dom (products db') = dom (products db) ∧
  (∀ i o, orders db !! i = Some o → orders db' !! i = Some o) ∧
  (∀ i, (∀ items, orderItems (body req) = Some items →
                  Forall (λ item, OrderItem.product item ≠ Some i) items) →
        products db' !! i = products db !! i).
Proof.
  intros db'. subst db'.
  destruct (createOrder_run V req db) as [[-> _]|(items & Hitems & _ & Hrun)]; [done|].
  cbn zeta in Hrun. destruct Hrun as [_ Hrun].
  set (db1 := set_orders _ db) in Hrun.
  destruct (for_of_update_stock_frame items db1) as (Ho & Hu & Hm & Hd & Hp).
  assert ((createOrder V req db).2 = (for_of items update_stock db1).2) as ->.
  { destruct (for_of items update_stock db1) as [[[]|r|e] db']; [by rewrite Hrun|done|by rewrite Hrun]. }
  split_and!; [done..| |].
  - intros i o Hio. rewrite Ho. simpl. rewrite lookup_insert_ne; [done|].
    intros <-. by apply (is_fresh (dom (orders db))), elem_of_dom.
  - intros i Hi. rewrite Hp; [done|]. by apply Hi.
Qed.

End ControllerMore.

(** ** More on the single-order handlers *)

(** X4. The owner of an order, and any administrator, gets the order back
    from [getOrderById] with status 200, its user and products populated,
    provided the owner's account is still on file; the store is not
    written. *)
Theorem getOrderById_owner_or_admin (u : ReqUser) (i : ObjectId) db o :
  orders db !! i = Some o →
  is_Some (users db !! Order.user o) →
  Order.user o = id u ∨ role u = RoleAdmin →
  getOrderById (mkReq u (Some i) tt) db =
    (mkRes 200 (JPopulated (populate db (i, o))), db).
Proof.
  intros Ho [owner Howner] Hwho. rewrite getOrderById_eq. simpl.
  rewrite Ho, Howner.
  destruct Hwho as [Heq|Hadmin].
  - by rewrite (bool_decide_eq_false_2 (Order.user o ≠ id u)) by (intros H; by apply H).
  - rewrite (bool_decide_eq_false_2 (role u ≠ RoleAdmin)) by (intros H; by apply H).
    by rewrite andb_false_r.
Qed.

(** X5. When the account that owns an order is no longer on file, the
    populated [user] is null and the ownership test fails on it:
    [getOrderById] answers 500 to every caller, administrators and the former
    owner's id included. *)
Theorem getOrderById_owner_gone (u : ReqUser) (i : ObjectId) db o :
  orders db !! i = Some o →
  users db !! Order.user o = None →
  getOrderById (mkReq u (Some i) tt) db =
    (mkRes 500 (JError "Error fetching order" TypeError), db).
Proof.
  intros Ho Hgone. rewrite getOrderById_eq. simpl. by rewrite Ho, Hgone.
Qed.

(** X6. Delivery is never undone.  Once an order was set to delivered at
    time [t1], setting it to any other status at [t2] changes the status but
    keeps [isDelivered] true and [deliveredAt] at [t1]: an order can be, say,
    pending and delivered at once. *)
Theorem updateOrderStatus_delivered_sticks t1 t2 (u1 u2 : ReqUser) (i : ObjectId)
    (s : OrderStatus) db o :
  orders db !! i = Some o →
  s ≠ delivered →
  let db1 := (updateOrderStatus t1 (mkReq u1 (Some i) {| new_status := delivered |}) db).2 in
  let db2 := (updateOrderStatus t2 (mkReq u2 (Some i) {| new_status := s |}) db1).2 in
  ∃ o2, orders db2 !! i = Some o2 ∧
        Order.status o2 = s ∧
        Order.isDelivered o2 = true ∧
        Order.deliveredAt o2 = Some t1.
Proof.
  intros Ho Hs db1 db2. subst db1 db2.
  rewrite !updateOrderStatus_eq. simpl. rewrite Ho. simpl.
  rewrite lookup_insert_eq. simpl. rewrite lookup_insert_eq.
  eexists. split; [reflexivity|]. simpl. by rewrite !decide_False.
Qed.

(** X7. A status update and a payment update on the same order do not
    commute on the status: whichever runs last decides it.  Paying after the
    status update leaves the order in status processing; updating the status
    after paying leaves the status supplied, with the order still paid. *)
Theorem pay_and_status_last_wins t1 t2 (u1 u2 : ReqUser) (i : ObjectId)
    (s : OrderStatus) (b : PayBody) db o :
  orders db !! i = Some o →
  let pay t db := (updateOrderToPaid t (mkReq u1 (Some i) b) db).2 in
  let set t db := (updateOrderStatus t (mkReq u2 (Some i) {| new_status := s |}) db).2 in
  (∃ o', orders (pay t2 (set t1 db)) !! i = Some o' ∧
         Order.status o' = processing ∧ Order.isPaid o' = true ∧
         Order.paidAt o' = Some t2) ∧
  (∃ o', orders (set t2 (pay t1 db)) !! i = Some o' ∧
         Order.status o' = s ∧ Order.isPaid o' = true ∧
         Order.paidAt o' = Some t1).
Proof.
  intros Ho pay set. subst pay set. cbn beta.
  rewrite !updateOrderToPaid_eq, !updateOrderStatus_eq. simpl. rewrite Ho. simpl.
  rewrite !lookup_insert_eq. simpl. rewrite !lookup_insert_eq.
  split; (eexists; split; [reflexivity|done]).
Qed.

(** ** More on the payment router *)

Lemma paid_update_v2_twice t1 t2 s1 s2 x1 x2 o :
  paid_update_v2 t2 s2 x2 (paid_update_v2 t1 s1 x1 o) = paid_update_v2 t2 s2 x2 o.
Proof. reflexivity. Qed.

Lemma paid_update_v1_twice t1 t2 s1 s2 x1 x2 o :
  paid_update_v1 t2 s2 x2 (paid_update_v1 t1 s1 x1 o) = paid_update_v1 t2 s2 x2 o.
Proof. reflexivity. Qed.

Section PaymentMore.

Variable constructEvent : Payload → option string → string + Event.
Variable sessions_retrieve : string → Exn + StripeObject.
Variable sessions_create : SessionParams → Exn + string * string.
Variable RESEND_API_KEY : option string.
Variable emails_send : Email → bool.
Variable V : Order.t → bool.

Lemma send_mail_eq now (status : string) session i o db :
  orders db !! i = Some o →
  (order ← Order_findByIdAndUpdate i (paid_update_v2 now status session);
   match order, RESEND_API_KEY with
   | Some order, Some _ =>
       user ← User_findById (metadata_userId session);
       match user with
       | Some user => try_log (sendOrderConfirmationEmail emails_send user order)
       | None => mret tt
       end
   | _, _ => mret tt
   end) db =
  (Next tt,
   mkDb (products db) (<[i := paid_update_v2 now status session o]> (orders db))
        (users db)
        (outbox db ++ mails_sent RESEND_API_KEY emails_send db session i)).
Proof.
  intros Ho. unfold mbind, Handler_bind. unfold bind at 1.
  rewrite (Order_findByIdAndUpdate_found _ _ o) by done.
  unfold mails_sent.
  destruct RESEND_API_KEY as [key|]; [|by rewrite app_nil_r].
  unfold User_findById, sendOrderConfirmationEmail. unfold_handler. simpl.
  destruct (metadata_userId session) as [uid|]; simpl; [|by rewrite app_nil_r].
  destruct (users db !! uid) as [usr|]; simpl; [|by rewrite app_nil_r].
  destruct (emails_send _); simpl; [done|by rewrite app_nil_r].
Qed.

Lemma Order_findByIdAndUpdate_missing i update db :
  orders db !! i = None →
  Order_findByIdAndUpdate i update db = (Next None, db).
Proof.
  intros Ho. unfold Order_findByIdAndUpdate. unfold_handler. by rewrite Ho.
Qed.

Lemma webhook_v1_eq now req db :
  webhook_v1 constructEvent now req db =
    match constructEvent (hook_body req) (stripe_signature req) with
    | inl message => (Some (mkRes 400 (JText ("Webhook Error: " +:+ message))), db)
    | inr event =>
        (Some (mkRes 200 JReceived),
         if String.eqb (ev_type event) "checkout.session.completed"
         then confirmed_v1 now "completed" (ev_object event) db
         else db)
    end.
Proof.
  unfold webhook_v1, confirmed_v1.
  destruct (constructEvent _ _) as [msg|event]; [done|].
  destruct (String.eqb (ev_type event) "checkout.session.completed").
  - destruct (metadata_orderId (ev_object event)) as [i|]; [|done].
    unfold no_catch, mbind, Handler_bind. unfold bind at 1. unfold bind at 1.
    destruct (orders db !! i) as [o|] eqn:Ho.
    + by rewrite (Order_findByIdAndUpdate_found _ _ o).
    + by rewrite Order_findByIdAndUpdate_missing.
  - by destruct (String.eqb (ev_type event) "payment_intent.payment_failed").
Qed.

Lemma webhook_v2_eq now req db :
  webhook_v2 constructEvent RESEND_API_KEY emails_send now req db =
    match constructEvent (hook_body req) (stripe_signature req) with
    | inl message => (Some (mkRes 400 (JText ("Webhook Error: " +:+ message))), db)
    | inr event =>
        (Some (mkRes 200 JReceived),
         if String.eqb (ev_type event) "checkout.session.completed"
         then confirmed_v2 RESEND_API_KEY emails_send now "completed" (ev_object event) db
         else db)
    end.
Proof.
  unfold webhook_v2, confirmed_v2.
  destruct (constructEvent _ _) as [msg|event]; [done|].
  destruct (String.eqb (ev_type event) "checkout.session.completed").
  - destruct (metadata_orderId (ev_object event)) as [i|]; [|done].
    unfold no_catch. unfold mbind at 1, Handler_bind at 1. unfold bind at 1.
    destruct (orders db !! i) as [o|] eqn:Ho.
    + by rewrite (send_mail_eq _ _ _ _ o).
    + unfold mbind, Handler_bind. unfold bind at 1.
      by rewrite Order_findByIdAndUpdate_missing.
  - by destruct (String.eqb (ev_type event) "payment_intent.payment_failed").
Qed.

Lemma verify_session_v1_eq now req db :
  verify_session_v1 sessions_retrieve now req db =
    match truthy (sessionId (body req)) with
    | None => (mkRes 400 (JMessage false "Session ID required"), db)
    | Some sid =>
        match sessions_retrieve sid with
        | inl error => (mkRes 500 (JError "Error verifying payment" error), db)
        | inr session =>
            if String.eqb (payment_status session) "paid" then
              (mkRes 200 (JVerified "Payment verified" (so_id session)
                            (payment_status session) (customer_details_email session)
                            (amount_total session)),
               confirmed_v1 now (payment_status session) session db)
            else
              (mkRes 400 (JNotCompleted "Payment not completed" (payment_status session)),
               db)
        end
    end.
Proof.
  unfold verify_session_v1, confirmed_v1.
  destruct (truthy (sessionId (body req))) as [sid|]; [|done].
  destruct (sessions_retrieve sid) as [e|session]; [done|].
  destruct (String.eqb (payment_status session) "paid"); [|done].
  destruct (metadata_orderId session) as [i|]; [|done].
  unfold try_catch, mbind, Handler_bind. unfold bind at 1. unfold bind at 1.
  destruct (orders db !! i) as [o|] eqn:Ho.
  - by rewrite (Order_findByIdAndUpdate_found _ _ o).
  - by rewrite Order_findByIdAndUpdate_missing.
Qed.

Lemma verify_session_v2_eq now req db :
  verify_session_v2 sessions_retrieve RESEND_API_KEY emails_send now req db =
    match truthy (sessionId (body req)) with
    | None => (mkRes 400 (JMessage false "Session ID required"), db)
    | Some sid =>
        match sessions_retrieve sid with
        | inl error => (mkRes 500 (JError "Error verifying payment" error), db)
        | inr session =>
            if String.eqb (payment_status session) "paid" then
              (mkRes 200 (JVerified "Payment verified" (so_id session)
                            (payment_status session) (customer_details_email session)
                            (amount_total session)),
               confirmed_v2 RESEND_API_KEY emails_send now (payment_status session) session db)
            else
              (mkRes 400 (JNotCompleted "Payment not completed" (payment_status session)),
               db)
        end
    end.
Proof.
  unfold verify_session_v2, confirmed_v2.
  destruct (truthy (sessionId (body req))) as [sid|]; [|done].
  destruct (sessions_retrieve sid) as [e|session]; [done|].
  destruct (String.eqb (payment_status session) "paid"); [|done].
  destruct (metadata_orderId session) as [i|].
  - destruct (orders db !! i) as [o|] eqn:Ho.
    + unfold try_catch, mbind, Handler_bind. unfold bind at 1. unfold bind at 1.
      rewrite (Order_findByIdAndUpdate_found _ _ o) by done.
      unfold mails_sent, User_findById, sendOrderConfirmationEmail. unfold_handler. simpl.
      destruct (metadata_userId session) as [uid|]; simpl.
      2: { destruct RESEND_API_KEY; by rewrite app_nil_r. }
      destruct (users db !! uid) as [usr|]; simpl.
      2: { destruct RESEND_API_KEY; by rewrite app_nil_r. }
      destruct RESEND_API_KEY; [|by rewrite app_nil_r].
      destruct (emails_send _); simpl; [done|by rewrite app_nil_r].
    + unfold try_catch, mbind, Handler_bind. unfold bind at 1. unfold bind at 1.
      rewrite Order_findByIdAndUpdate_missing by done.
      unfold User_findById. unfold_handler. simpl.
      destruct (metadata_userId session) as [uid|]; simpl; [|by destruct db].
      destruct (users db !! uid); simpl; by destruct db.
  - unfold User_findById. unfold_handler. simpl.
    destruct (metadata_userId session) as [uid|]; simpl; [|by destruct db].
    destruct (users db !! uid); simpl; by destruct db.
Qed.

End PaymentMore.

Lemma confirmed_v1_lookup now status session db i :
  orders (confirmed_v1 now status session db) !! i =
    if decide (metadata_orderId session = Some i)
    then paid_update_v1 now status session <$> orders db !! i
    else orders db !! i.
Proof.
  unfold confirmed_v1. destruct (metadata_orderId session) as [j|].
  - destruct (decide (Some j = Some i)) as [[= ->]|Hne].
    + destruct (orders db !! i) as [o|] eqn:Ho; simpl; [|done].
      by rewrite lookup_insert_eq.
    + destruct (orders db !! j) as [o|] eqn:Ho; simpl; [|done].
      apply lookup_insert_ne. congruence.
  - by rewrite decide_False.
Qed.

Lemma confirmed_v2_lookup key send now status session db i :
  orders (confirmed_v2 key send now status session db) !! i =
    if decide (metadata_orderId session = Some i)
    then paid_update_v2 now status session <$> orders db !! i
    else orders db !! i.
Proof.
  unfold confirmed_v2. destruct (metadata_orderId session) as [j|].
  - destruct (decide (Some j = Some i)) as [[= ->]|Hne].
    + destruct (orders db !! i) as [o|] eqn:Ho; simpl; [|done].
      by rewrite lookup_insert_eq.
    + destruct (orders db !! j) as [o|] eqn:Ho; simpl; [|done].
      apply lookup_insert_ne. congruence.
  - by rewrite decide_False.
Qed.

Lemma confirmed_v2_frame key send now status session db :
  products (confirmed_v2 key send now status session db) = products db ∧
  users (confirmed_v2 key send now status session db) = users db.
Proof.
  unfold confirmed_v2. destruct (metadata_orderId session) as [j|]; [|done].
  by destruct (orders db !! j).
Qed.

Lemma truthy_Some s : s ≠ "" → truthy (Some s) = Some s.
Proof.
  intros Hs. unfold truthy. by destruct (String.eqb_spec s "").
Qed.

Section PaymentProperties.

Variable constructEvent : Payload → option string → string + Event.
Variable sessions_retrieve : string → Exn + StripeObject.
Variable RESEND_API_KEY : option string.
Variable emails_send : Email → bool.

(** X8. A webhook delivery whose signature does not verify is answered 400
    with the verifier's message as text, in both revisions, and nothing is
    read from the payload or written to the store. *)
Theorem webhook_bad_signature now req db message :
  constructEvent (hook_body req) (stripe_signature req) = inl message →
  webhook_v1 constructEvent now req db
    = (Some (mkRes 400 (JText ("Webhook Error: " +:+ message))), db) ∧
  webhook_v2 constructEvent RESEND_API_KEY emails_send now req db
    = (Some (mkRes 400 (JText ("Webhook Error: " +:+ message))), db).
Proof.
  intros Hsig. unfold webhook_v1, webhook_v2. by rewrite Hsig.
Qed.

(** X10. A confirmation mail that cannot be sent does not fail or undo the
    payment confirmation.  Whatever the mail service does and whether or not
    an API key is configured, the second revision's webhook and verify routes
    give the same answer and leave the same orders, products and accounts as
    they would with no mail service at all; the outbox grows by at most one
    mail. *)
Theorem confirmation_survives_mail_failure now hook (req : Req VerifyBody) db :
  let w := webhook_v2 constructEvent RESEND_API_KEY emails_send now hook db in
  let w0 := webhook_v2 constructEvent None (λ _, false) now hook db in
  let v := verify_session_v2 sessions_retrieve RESEND_API_KEY emails_send now req db in
  let v0 := verify_session_v2 sessions_retrieve None (λ _, false) now req db in
  (w.1 = w0.1 ∧ orders w.2 = orders w0.2 ∧ products w.2 = products w0.2 ∧
   users w.2 = users w0.2 ∧ outbox w0.2 = outbox db ∧
   ∃ mails, outbox w.2 = outbox db ++ mails ∧ (length mails ≤ 1)%nat) ∧
  (v.1 = v0.1 ∧ orders v.2 = orders v0.2 ∧ products v.2 = products v0.2 ∧
   users v.2 = users v0.2 ∧ outbox v0.2 = outbox db ∧
   ∃ mails, outbox v.2 = outbox db ++ mails ∧ (length mails ≤ 1)%nat).
Proof.
  assert (∀ status session,
    let c := confirmed_v2 RESEND_API_KEY emails_send now status session db in
    let c0 := confirmed_v2 None (λ _, false) now status session db in
    orders c = orders c0 ∧ products c = products c0 ∧ users c = users c0 ∧
    outbox c0 = outbox db ∧
    ∃ mails, outbox c = outbox db ++ mails ∧ (length mails ≤ 1)%nat) as Hconfirmed.
  { intros status session. cbn zeta. unfold confirmed_v2.
    destruct (metadata_orderId session) as [i|].
    2: { split_and!; [done..|]. exists []. split; [by rewrite app_nil_r|simpl; lia]. }
    destruct (orders db !! i) as [o|].
    2: { split_and!; [done..|]. exists []. split; [by rewrite app_nil_r|simpl; lia]. }
    simpl. split_and!; [done|done|done|by rewrite app_nil_r|].
    eexists. split; [done|]. unfold mails_sent.
    repeat case_match; simpl; lia. }
  assert (∃ mails, outbox db = outbox db ++ mails ∧ (length mails ≤ 1)%nat) as Hnil.
  { exists []. split; [by rewrite app_nil_r|simpl; lia]. }
  intros w w0 v v0. subst w w0 v v0. split.
  - rewrite !webhook_v2_eq.
    destruct (constructEvent _ _) as [msg|event]; [done|].
    destruct (String.eqb _ _); [|done]. simpl.
    destruct (Hconfirmed "completed" (ev_object event)) as (? & ? & ? & ? & ?). done.
  - rewrite !verify_session_v2_eq.
    destruct (truthy (sessionId (body req))) as [sid|]; [|done].
    destruct (sessions_retrieve sid) as [e|session]; [done|].
    destruct (String.eqb _ _); [|done]. simpl.
    destruct (Hconfirmed (payment_status session) session) as (? & ? & ? & ? & ?). done.
Qed.

(** X11. A verify request that cannot confirm a payment changes nothing: a
    session id that is absent or empty is a 400 and the provider is not
    asked; for any other session id, a provider error on retrieval is a 500
    carrying that error, and a session whose payment status is not "paid" is
    a 400 that reports the status.  In all three cases, in both revisions,
    the store is untouched. *)
Theorem verify_session_unconfirmed now (req : Req VerifyBody) db :
  let v1 := verify_session_v1 sessions_retrieve now req db in
  let v2 := verify_session_v2 sessions_retrieve RESEND_API_KEY emails_send now req db in
  (sessionId (body req) = None ∨ sessionId (body req) = Some "" →
   v1 = (mkRes 400 (JMessage false "Session ID required"), db) ∧ v2 = v1) ∧
  (∀ sid error, sessionId (body req) = Some sid → sid ≠ "" →
   sessions_retrieve sid = inl error →
   v1 = (mkRes 500 (JError "Error verifying payment" error), db) ∧ v2 = v1) ∧
  (∀ sid session, sessionId (body req) = Some sid → sid ≠ "" →
   sessions_retrieve sid = inr session → payment_status session ≠ "paid" →
   v1 = (mkRes 400 (JNotCompleted "Payment not completed" (payment_status session)), db) ∧
   v2 = v1).
Proof.
  intros v1 v2. subst v1 v2. rewrite verify_session_v1_eq, verify_session_v2_eq.
  split_and!.
  - by intros [->| ->].
  - intros sid error -> Hsid Herror. by rewrite truthy_Some, Herror.
  - intros sid session -> Hsid Hsession Hstatus.
    rewrite truthy_Some, Hsession by done.
    by destruct (String.eqb_spec (payment_status session) "paid").
Qed.

(** X12. A verify request with a session id that is not empty, for a paid
    session, answers 200 "Payment verified" whether or not an order can be
    found for it.  When the session's metadata names an existing order, the
    second revision rewrites it as paid at the current time, in status
    processing, with a payment result made of the session's payment intent,
    the status "paid" and the payer's address, and leaves the purchase it
    records and every other order alone; when the metadata names no order or
    an unknown one, the store is untouched. *)
Theorem verify_session_v2_paid now (req : Req VerifyBody) db sid session :
  sessionId (body req) = Some sid →
  sid ≠ "" →
  sessions_retrieve sid = inr session →
  payment_status session = "paid" →
  let v := verify_session_v2 sessions_retrieve RESEND_API_KEY emails_send now req db in
  v.1 = mkRes 200 (JVerified "Payment verified" (so_id session) "paid"
                     (customer_details_email session) (amount_total session)) ∧
  (∀ i o, metadata_orderId session = Some i → orders db !! i = Some o →
     orders v.2 !! i =
       Some (Order.mk (Order.user o) (Order.orderItems o) (Order.shippingAddress o)
               (Order.paymentMethod o) (Order.itemsPrice o) (Order.shippingPrice o)
               (Order.taxPrice o) (Order.totalPrice o)
               processing true (Some now)
               (Some {| pr_id := payment_intent session;
                        pr_status := Some "paid";
                        pr_update_time := None;
                        pr_email_address := customer_details_email session;
                        pr_email := None |})
               (Order.isDelivered o) (Order.deliveredAt o) (Order.stripeSessionId o)) ∧
     ∀ j, j ≠ i → orders v.2 !! j = orders db !! j) ∧
  (metadata_orderId session ≫= (orders db !!.) = None → v.2 = db).
Proof.
  intros Hsid Hne Hsession Hpaid v. subst v.
  rewrite verify_session_v2_eq, Hsid, truthy_Some, Hsession, Hpaid by done.
  simpl. split_and!.
  - done.
  - intros i o Hi Ho. split.
    + rewrite confirmed_v2_lookup, decide_True, Ho by done. done.
    + intros j Hj. rewrite confirmed_v2_lookup, decide_False; [done|congruence].
  - intros Hnone. unfold confirmed_v2.
    destruct (metadata_orderId session) as [i|]; [|done]. simpl in Hnone.
    by rewrite Hnone.
Qed.

End PaymentProperties.

(** ** The webhook route behind the application's body parsers *)

Section ApplicationFacts.

Variable constructEvent : Payload → option string → string + Event.
Variable sessions_retrieve : string → Exn + StripeObject.
Variable RESEND_API_KEY : option string.
Variable emails_send : Email → bool.
Variable json_error : string → option Exn.
Variable urlencoded_error : string → option Exn.
Variable raw_error : string → option Exn.
Variable NODE_ENV : option string.

Local Abbreviation app := (app_webhook json_error urlencoded_error raw_error NODE_ENV).

(** The route through the application, parser by parser: [express.raw] has
    the content type of [express.json], so whenever it would read the body
    [express.json] has read it already. *)
Lemma app_webhook_eq handler d db :
  app handler d db =
    match entity d with
    | None => handler {| hook_body := Unread; stripe_signature := signature d |} db
    | Some text =>
        match content_type d with
        | application_json =>
            match json_error text with
            | Some err => (Some (error_handler NODE_ENV err), db)
            | None =>
                handler {| hook_body := Parsed text; stripe_signature := signature d |} db
            end
        | application_x_www_form_urlencoded =>
            match urlencoded_error text with
            | Some err => (Some (error_handler NODE_ENV err), db)
            | None =>
                handler {| hook_body := Parsed text; stripe_signature := signature d |} db
            end
        | other_content_type =>
            handler {| hook_body := Unread; stripe_signature := signature d |} db
        end
    end.
Proof.
  unfold app_webhook, express_json, express_urlencoded, express_raw, body_parser.
  destruct (entity d) as [text|]; [|done].
  destruct (content_type d); simpl.
  - by destruct (json_error text).
  - by destruct (urlencoded_error text).
  - done.
Qed.

Lemma app_webhook_cases handler d db :
  (∃ err, app handler d db = (Some (error_handler NODE_ENV err), db)) ∨
  (∃ b, (∀ bytes, b ≠ Raw bytes) ∧
        app handler d db =
          handler {| hook_body := b; stripe_signature := signature d |} db).
Proof.
  rewrite app_webhook_eq.
  destruct (entity d) as [text|]; [|right; by exists Unread].
  destruct (content_type d).
  - destruct (json_error text) as [err|]; [left; by exists err|].
    right. by exists (Parsed text).
  - destruct (urlencoded_error text) as [err|]; [left; by exists err|].
    right. by exists (Parsed text).
  - right. by exists Unread.
Qed.

(** Behind the global parsers a verifier that needs the raw body refuses
    every delivery: the answer is the error handler's 500 or the handler's
    400, the same in both revisions, and the store is untouched. *)
Lemma app_webhook_refused now d db :
  needs_raw_body constructEvent →
  ∃ r, (res_status r = 400 ∨ res_status r = 500) ∧ res_body r ≠ JReceived ∧
       app (webhook_v1 constructEvent now) d db = (Some r, db) ∧
       app (webhook_v2 constructEvent RESEND_API_KEY emails_send now) d db = (Some r, db).
Proof.
  intros Hraw.
  assert (∀ b, (∀ bytes, b ≠ Raw bytes) →
    ∃ r, (res_status r = 400 ∨ res_status r = 500) ∧ res_body r ≠ JReceived ∧
         webhook_v1 constructEvent now
           {| hook_body := b; stripe_signature := signature d |} db = (Some r, db) ∧
         webhook_v2 constructEvent RESEND_API_KEY emails_send now
           {| hook_body := b; stripe_signature := signature d |} db = (Some r, db))
    as Hhandler.
  { intros b Hb. destruct (Hraw b (signature d) Hb) as [message Hmessage].
    exists (mkRes 400 (JText ("Webhook Error: " +:+ message))).
    rewrite webhook_v1_eq, webhook_v2_eq. cbn [hook_body stripe_signature].
    rewrite Hmessage. split_and!; [by left|done|done|done]. }
  assert (∀ err, ∃ r, (res_status r = 400 ∨ res_status r = 500) ∧
                      res_body r ≠ JReceived ∧
                      (Some (error_handler NODE_ENV err), db) = (Some r, db) ∧
                      (Some (error_handler NODE_ENV err), db) = (Some r, db)) as Herror.
  { intros err. exists (error_handler NODE_ENV err).
    split_and!; [by right| |done|done].
    unfold error_handler. simpl. by destruct (bool_decide _). }
  rewrite !app_webhook_eq.
  destruct (entity d) as [text|]; [|by apply Hhandler].
  destruct (content_type d).
  - destruct (json_error text) as [err|]; [apply Herror|by apply Hhandler].
  - destruct (urlencoded_error text) as [err|]; [apply Herror|by apply Hhandler].
  - by apply Hhandler.
Qed.

(** A JSON delivery the global parser reads reaches the handler as the
    parsed object, and a verifier that needs the raw body answers it 400. *)
Lemma app_webhook_json now d db bytes :
  needs_raw_body constructEvent →
  content_type d = application_json → entity d = Some bytes →
  json_error bytes = None →
  ∃ message,
    constructEvent (Parsed bytes) (signature d) = inl message ∧
    app (webhook_v1 constructEvent now) d db =
      (Some (mkRes 400 (JText ("Webhook Error: " +:+ message))), db) ∧
    app (webhook_v2 constructEvent RESEND_API_KEY emails_send now) d db =
      (Some (mkRes 400 (JText ("Webhook Error: " +:+ message))), db).
Proof.
  intros Hraw Htype Hentity Hjson.
  destruct (Hraw (Parsed bytes) (signature d)) as [message Hmessage]; [done|].
  exists message. split; [done|].
  rewrite !app_webhook_eq, Hentity, Htype, Hjson, webhook_v1_eq, webhook_v2_eq.
  cbn [hook_body stripe_signature]. by rewrite Hmessage.
Qed.

(** C5.  A signed checkout.session.completed delivery for an order that is
    already marked paid, sent as JSON.  As src/server.js mounts the routers,
    [express.json] has parsed the body before the route's [express.raw] can
    read it, the verifier is handed the parsed object and refuses it, and
    both revisions answer 400 "Webhook Error: .." with the store, and so the
    order, left as it was: the order keeps its [paidAt] and [paymentResult],
    but the answer is not received:true.  Run on the raw body the route asks
    for, the same handler answers received:true, and having no already-paid
    test it writes the order again, with [paidAt] the time of the run and
    the payment result built from the event. *)
Theorem webhook_completed_as_wired now d db bytes event i o :
  needs_raw_body constructEvent →
  content_type d = application_json → entity d = Some bytes →
  json_error bytes = None →
  constructEvent (Raw bytes) (signature d) = inr event →
  ev_type event = "checkout.session.completed" →
  metadata_orderId (ev_object event) = Some i →
  orders db !! i = Some o →
  Order.isPaid o = true →
  let hook := {| hook_body := Raw bytes; stripe_signature := signature d |} in
  let alone1 := webhook_v1 constructEvent now hook db in
  let alone2 := webhook_v2 constructEvent RESEND_API_KEY emails_send now hook db in
  (∃ message,
     app (webhook_v1 constructEvent now) d db =
       (Some (mkRes 400 (JText ("Webhook Error: " +:+ message))), db) ∧
     app (webhook_v2 constructEvent RESEND_API_KEY emails_send now) d db =
       (Some (mkRes 400 (JText ("Webhook Error: " +:+ message))), db)) ∧
  alone1.1 = Some (mkRes 200 JReceived) ∧
  alone2.1 = Some (mkRes 200 JReceived) ∧
  orders alone1.2 !! i = Some (paid_update_v1 now "completed" (ev_object event) o) ∧
  orders alone2.2 !! i = Some (paid_update_v2 now "completed" (ev_object event) o).
Proof.
  intros Hraw Htype Hentity Hjson Hsig Hevent Hi Ho _ hook alone1 alone2.
  subst hook alone1 alone2. split.
  - destruct (app_webhook_json now d db bytes Hraw Htype Hentity Hjson)
      as (message & _ & H1 & H2).
    by exists message.
  - rewrite webhook_v1_eq, webhook_v2_eq. cbn [hook_body stripe_signature].
    rewrite Hsig, Hevent. cbn [fst snd String.eqb Ascii.eqb Bool.eqb].
    rewrite confirmed_v1_lookup, confirmed_v2_lookup, !decide_True, Ho by done.
    done.
Qed.

(** C10.  A signed payment_intent.payment_failed delivery, sent as JSON.
    No order is changed: as src/server.js mounts the routers the store after
    the delivery is the store before it, in both revisions.  But the answer
    is 400 "Webhook Error: ..", not received:true: [express.json] has parsed
    the body before the route's [express.raw] can read it, and the verifier
    refuses the parsed object.  Run on the raw body the route asks for, the
    same handler answers received:true and changes nothing. *)
Theorem webhook_payment_failed_no_mutation now d db bytes event :
  needs_raw_body constructEvent →
  content_type d = application_json → entity d = Some bytes →
  json_error bytes = None →
  constructEvent (Raw bytes) (signature d) = inr event →
  ev_type event = "payment_intent.payment_failed" →
  let hook := {| hook_body := Raw bytes; stripe_signature := signature d |} in
  (∃ message,
     app (webhook_v1 constructEvent now) d db =
       (Some (mkRes 400 (JText ("Webhook Error: " +:+ message))), db) ∧
     app (webhook_v2 constructEvent RESEND_API_KEY emails_send now) d db =
       (Some (mkRes 400 (JText ("Webhook Error: " +:+ message))), db)) ∧
  webhook_v1 constructEvent now hook db = (Some (mkRes 200 JReceived), db) ∧
  webhook_v2 constructEvent RESEND_API_KEY emails_send now hook db
    = (Some (mkRes 200 JReceived), db).
Proof.
  intros Hraw Htype Hentity Hjson Hsig Hevent hook. subst hook. split.
  - destruct (app_webhook_json now d db bytes Hraw Htype Hentity Hjson)
      as (message & _ & H1 & H2).
    by exists message.
  - rewrite webhook_v1_eq, webhook_v2_eq. cbn [hook_body stripe_signature].
    by rewrite Hsig, Hevent.
Qed.

(** X9. As src/server.js mounts the routers, the webhook handler is never
    handed the raw body.  Whatever the delivery, either a global body parser
    fails on it and the error handler answers 500 with the store untouched,
    or the handler runs on a [req.body] that is not the bytes of the body:
    the route's own [express.raw] reads nothing.  With a verifier that
    needs the raw body, every delivery is therefore answered 400 or 500,
    never received:true, and never changes the store, in both revisions. *)
Theorem webhook_never_handed_raw_body now d db :
  (∀ handler,
     (∃ err, app handler d db = (Some (error_handler NODE_ENV err), db)) ∨
     (∃ b, (∀ bytes, b ≠ Raw bytes) ∧
           app handler d db =
             handler {| hook_body := b; stripe_signature := signature d |} db)) ∧
  (needs_raw_body constructEvent →
   ∃ r, (res_status r = 400 ∨ res_status r = 500) ∧ res_body r ≠ JReceived ∧
        app (webhook_v1 constructEvent now) d db = (Some r, db) ∧
        app (webhook_v2 constructEvent RESEND_API_KEY emails_send now) d db
          = (Some r, db)).
Proof.
  split.
  - intros handler. apply app_webhook_cases.
  - apply app_webhook_refused.
Qed.

(** X13. Payment confirmations converge by last writer wins on the order
    they name, and as the application is wired the writers are the verify
    route and the pay route: a webhook delivery changes nothing.  A verify
    request for a paid session after a pay request leaves the order exactly
    as the verify request alone would, a pay request after a verify request
    leaves it exactly as the pay request alone would, whether or not a
    delivery came in between, and whether or not the order exists. *)
Theorem confirmations_last_writer_wins t1 t2 t3 (u : ReqUser) (b : PayBody)
    (req : Req VerifyBody) d db sid session i :
  needs_raw_body constructEvent →
  sessionId (body req) = Some sid →
  sid ≠ "" →
  sessions_retrieve sid = inr session →
  payment_status session = "paid" →
  metadata_orderId session = Some i →
  let pay t db := (updateOrderToPaid t (mkReq u (Some i) b) db).2 in
  let verify t db :=
    (verify_session_v2 sessions_retrieve RESEND_API_KEY emails_send t req db).2 in
  let deliver t db :=
    (app (webhook_v2 constructEvent RESEND_API_KEY emails_send t) d db).2 in
  (∀ db, deliver t3 db = db) ∧
  orders (verify t2 (deliver t3 (pay t1 db))) !! i = orders (verify t2 db) !! i ∧
  orders (pay t2 (deliver t3 (verify t1 db))) !! i = orders (pay t2 db) !! i.
Proof.
  intros Hraw Hsid Hne Hsession Hpaid Hi pay verify deliver.
  assert (∀ db, deliver t3 db = db) as Hdeliver.
  { intros db'. subst deliver. cbn beta.
    destruct (app_webhook_refused t3 d db' Hraw) as (r & _ & _ & _ & ->). done. }
  split; [exact Hdeliver|]. rewrite !Hdeliver. subst pay verify. cbn beta.
  rewrite !verify_session_v2_eq, !updateOrderToPaid_eq.
  rewrite Hsid, truthy_Some, Hsession, Hpaid by done.
  cbn [params_id body fst snd String.eqb Ascii.eqb Bool.eqb].
  split.
  - rewrite !confirmed_v2_lookup, !decide_True by done.
    destruct (orders db !! i) as [o|] eqn:Ho; cbn [snd orders set_orders].
    + by rewrite lookup_insert_eq.
    + by rewrite Ho.
  - rewrite !confirmed_v2_lookup, !decide_True by done.
    destruct (orders db !! i) as [o|] eqn:Ho;
      cbn [fmap option_fmap option_map snd orders set_orders].
    + by rewrite !lookup_insert_eq.
    + by rewrite confirmed_v2_lookup, decide_True, Ho.
Qed.

End ApplicationFacts.

(** ** More on the checkout route *)

Lemma create_checkout_session_v2_eq sessions_create V req db :
  create_checkout_session_v2 sessions_create V req db =
    match items (body req) with
    | None | Some [] => (mkRes 400 (JMessage false "No items provided"), db)
    | Some cart =>
        let doc := checkout_order (id (user req)) (body req) cart in
        let i := fresh (dom (orders db)) in
        if V doc then
          match sessions_create
                  {| line_items := checkout_lines (body req) cart;
                     customer_email := email (user req);
                     param_orderId := i;
                     param_userId := id (user req) |} with
          | inl error =>
              (mkRes 500 (JError "Error creating payment session" error),
               set_orders <[i := doc]> db)
          | inr session =>
              (mkRes 200 (JSession session.1 session.2 i),
               set_orders <[i := Order.set_stripeSessionId (Some session.1) doc]> db)
          end
        else
          (mkRes 500 (JError "Error creating payment session" (ValidationError "Order")),
           db)
    end.
Proof.
  unfold create_checkout_session_v2.
  destruct (items (body req)) as [[|x cart]|]; [done| |done].
  cbn zeta. fold (checkout_order (id (user req)) (body req) (x :: cart)).
  fold (checkout_lines (body req) (x :: cart)).
  unfold Order_create. unfold_handler.
  destruct (V _); [|done]. cbn beta iota.
  destruct (sessions_create _) as [e|[sid url]]; [done|].
  unfold Order_save. unfold_handler. cbn [fst snd].
  unfold set_orders. simpl. by rewrite insert_insert_eq.
Qed.

Section CheckoutProperties.

Variable sessions_create : SessionParams → Exn + string * string.
Variable V : Order.t → bool.

(** X15. When the provider refuses to create the session, the checkout
    route answers 500 with the provider's error, but the order it created
    first stays in the store: pending, unpaid and without a session id. *)
Theorem checkout_provider_failure_leaves_order req db cart error :
  items (body req) = Some cart →
  cart ≠ [] →
  V (checkout_order (id (user req)) (body req) cart) = true →
  sessions_create
    {| line_items := checkout_lines (body req) cart;
       customer_email := email (user req);
       param_orderId := fresh (dom (orders db));
       param_userId := id (user req) |} = inl error →
  let r := create_checkout_session_v2 sessions_create V req db in
  r.1 = mkRes 500 (JError "Error creating payment session" error) ∧
  orders db !! fresh (dom (orders db)) = None ∧
  ∃ o, orders r.2 !! fresh (dom (orders db)) = Some o ∧
       Order.user o = id (user req) ∧
       Order.status o = pending ∧ Order.isPaid o = false ∧
       Order.stripeSessionId o = None.
Proof.
  intros Hitems Hne HV Hcreate r. subst r.
  rewrite create_checkout_session_v2_eq, Hitems.
  destruct cart as [|x cart]; [done|]. cbn zeta. rewrite HV, Hcreate.
  cbn [fst snd orders set_orders].
  split; [reflexivity|]. split; [apply not_elem_of_dom, is_fresh|].
  eexists. split; [apply lookup_insert_eq|]. done.
Qed.

End CheckoutProperties.

(** ** What no request does *)

Lemma order_moves_refl o : order_moves o o.
Proof. unfold order_moves, same_purchase. split_and!; auto. Qed.

Lemma order_moves_trans o1 o2 o3 :
  order_moves o1 o2 → order_moves o2 o3 → order_moves o1 o3.
Proof.
  intros (Hs & Hp & Hd & Ha) (Hs' & Hp' & Hd' & Ha').
  split; [|by auto].
  destruct Hs as (?&?&?&?&?&?&?&?), Hs' as (?&?&?&?&?&?&?&?).
  repeat split; congruence.
Qed.

Lemma stamps_agree_paid (o : Order.t) now pr status delivered_flag delivered_at sid :
  (delivered_flag = true ↔ is_Some delivered_at) →
  stamps_agree
    (Order.mk (Order.user o) (Order.orderItems o) (Order.shippingAddress o)
       (Order.paymentMethod o) (Order.itemsPrice o) (Order.shippingPrice o)
       (Order.taxPrice o) (Order.totalPrice o)
       status true (Some now) pr delivered_flag delivered_at sid).
Proof. intros Hd. split; [|done]. simpl. split; [by eexists|done]. Qed.

Lemma order_moves_paid_update_v1 now status session o :
  order_moves o (paid_update_v1 now status session o).
Proof.
  split; [by repeat split|]. split; [done|]. split; [done|].
  intros [_ Hd]. by apply stamps_agree_paid.
Qed.

Lemma order_moves_paid_update_v2 now status session o :
  order_moves o (paid_update_v2 now status session o).
Proof.
  split; [by repeat split|]. split; [done|]. split; [done|].
  intros [_ Hd]. by apply stamps_agree_paid.
Qed.

Lemma order_moves_paid_order now b o : order_moves o (paid_order now b o).
Proof.
  split; [by repeat split|]. split; [done|]. split; [done|].
  intros [_ Hd]. by apply stamps_agree_paid.
Qed.

Lemma order_moves_restatused_order now s o : order_moves o (restatused_order now s o).
Proof.
  split; [by repeat split|]. split; [done|]. split.
  - simpl. by destruct (decide (s = delivered)).
  - intros [Hp Hd]. split; [done|]. simpl.
    destruct (decide (s = delivered)); [|done]. split; [by eexists|done].
Qed.

Lemma new_order_stamps_agree o : new_order o → stamps_agree o.
Proof.
  intros (_ & Hp & Hpa & _ & Hd & Hda). unfold stamps_agree.
  rewrite Hp, Hpa, Hd, Hda. split; (split; [done|by intros [? [=]]]).
Qed.

Lemma orders_move_refl m : orders_move m m.
Proof.
  split.
  - intros i o Ho. exists o. split; [done|apply order_moves_refl].
  - intros i o Ho Hnone. congruence.
Qed.

Lemma orders_move_insert_new m i o :
  m !! i = None → new_order o → orders_move m (<[i := o]> m).
Proof.
  intros Hnone Hnew. split.
  - intros j o' Hj. exists o'. split; [|apply order_moves_refl].
    rewrite lookup_insert_ne; [done|congruence].
  - intros j o' Hj Hjnone. destruct (decide (i = j)) as [->|Hne].
    + rewrite lookup_insert_eq in Hj. congruence.
    + rewrite lookup_insert_ne in Hj by done. congruence.
Qed.

Lemma orders_move_update m i o o' :
  m !! i = Some o → order_moves o o' → orders_move m (<[i := o']> m).
Proof.
  intros Ho Hmove. split.
  - intros j oj Hj. destruct (decide (i = j)) as [->|Hne].
    + exists o'. rewrite lookup_insert_eq. split; [done|congruence].
    + exists oj. rewrite lookup_insert_ne by done. split; [done|apply order_moves_refl].
  - intros j oj Hj Hnone. destruct (decide (i = j)) as [->|Hne]; [congruence|].
    rewrite lookup_insert_ne in Hj by done. congruence.
Qed.

Lemma orders_move_confirmed_v1 now status session db :
  orders_move (orders db) (orders (confirmed_v1 now status session db)).
Proof.
  unfold confirmed_v1. destruct (metadata_orderId session) as [i|]; [|apply orders_move_refl].
  destruct (orders db !! i) as [o|] eqn:Ho; [|apply orders_move_refl].
  apply (orders_move_update _ _ o); [done|apply order_moves_paid_update_v1].
Qed.

Lemma orders_move_confirmed_v2 key send now status session db :
  orders_move (orders db) (orders (confirmed_v2 key send now status session db)).
Proof.
  unfold confirmed_v2. destruct (metadata_orderId session) as [i|]; [|apply orders_move_refl].
  destruct (orders db !! i) as [o|] eqn:Ho; [|apply orders_move_refl].
  apply (orders_move_update _ _ o); [done|apply order_moves_paid_update_v2].
Qed.

Lemma confirmed_v1_frame now status session db :
  products (confirmed_v1 now status session db) = products db ∧
  users (confirmed_v1 now status session db) = users db.
Proof.
  unfold confirmed_v1. destruct (metadata_orderId session) as [j|]; [|done].
  by destruct (orders db !! j).
Qed.

Lemma createOrder_orders V req db :
  orders (createOrder V req db).2 = orders db ∨
  ∃ items,
    orders (createOrder V req db).2 =
      <[fresh (dom (orders db)) := Order_defaults (id (user req)) (body req) items]>
        (orders db).
Proof.
  destruct (createOrder_run V req db) as [[-> _]|(items & _ & _ & Hrun)]; [by left|].
  right. exists items. cbn zeta in Hrun. destruct Hrun as [_ Hrun].
  set (db1 := set_orders _ db) in Hrun.
  destruct (for_of_update_stock_frame items db1) as (Ho & _).
  destruct (for_of items update_stock db1) as [[[]|r|e] db']; [by rewrite Hrun|done|by rewrite Hrun].
Qed.

Lemma createOrder_db V req db :
  (createOrder V req db).2 = db ∨
  ∃ items doc,
    (createOrder V req db).2 =
      (for_of items update_stock (set_orders <[fresh (dom (orders db)) := doc]> db)).2.
Proof.
  destruct (createOrder_run V req db) as [[-> _]|(items & _ & _ & Hrun)]; [by left|].
  right. exists items, (Order_defaults (id (user req)) (body req) items).
  cbn zeta in Hrun. destruct Hrun as [_ Hrun].
  destruct (for_of items update_stock _) as [[[]|r|e] db'] eqn:E;
    [by rewrite Hrun|done|by rewrite Hrun].
Qed.

Lemma getOrderById_db req db : (getOrderById req db).2 = db.
Proof.
  rewrite getOrderById_eq. repeat case_match; done.
Qed.

Lemma catalog_kept (P : Prop) db db' :
  products db' = products db → users db' = users db →
  users db' = users db ∧
  dom (products db') = dom (products db) ∧
  (stock_nonneg db → stock_nonneg db') ∧
  (P → products db' = products db).
Proof.
  intros Hp Hu. split_and!; [done|by rewrite Hp| |done].
  unfold stock_nonneg. by rewrite Hp.
Qed.

Section ServerFacts.

Variable constructEvent : Payload → option string → string + Event.
Variable sessions_retrieve : string → Exn + StripeObject.
Variable sessions_create : SessionParams → Exn + string * string.
Variable RESEND_API_KEY : option string.
Variable emails_send : Email → bool.
Variable Order_validate : Order.t → bool.

Lemma serve_orders_move c db :
  orders_move (orders db)
    (orders (serve constructEvent sessions_retrieve sessions_create
               RESEND_API_KEY emails_send Order_validate c db)).
Proof.
  destruct c as [req|req|now req|now req|req|now req|now req|now req|now req]; simpl.
  - destruct (createOrder_orders Order_validate req db) as [->|[items ->]].
    + apply orders_move_refl.
    + apply orders_move_insert_new; [apply not_elem_of_dom, is_fresh|done].
  - rewrite getOrderById_db. apply orders_move_refl.
  - rewrite updateOrderStatus_eq.
    destruct (params_id req) as [i|]; [|apply orders_move_refl].
    destruct (orders db !! i) as [o|] eqn:Ho; [|apply orders_move_refl].
    apply (orders_move_update _ _ o); [done|apply order_moves_restatused_order].
  - rewrite updateOrderToPaid_eq.
    destruct (params_id req) as [i|]; [|apply orders_move_refl].
    destruct (orders db !! i) as [o|] eqn:Ho; [|apply orders_move_refl].
    apply (orders_move_update _ _ o); [done|apply order_moves_paid_order].
  - rewrite create_checkout_session_v2_eq.
    destruct (items (body req)) as [[|x cart]|]; [apply orders_move_refl| |apply orders_move_refl].
    cbn zeta. destruct (Order_validate _); [|apply orders_move_refl].
    destruct (sessions_create _) as [e|session];
      (apply orders_move_insert_new; [apply not_elem_of_dom, is_fresh|done]).
  - rewrite verify_session_v1_eq.
    destruct (truthy (sessionId (body req))) as [sid|]; [|apply orders_move_refl].
    destruct (sessions_retrieve sid) as [e|session]; [apply orders_move_refl|].
    destruct (String.eqb _ _); [apply orders_move_confirmed_v1|apply orders_move_refl].
  - rewrite verify_session_v2_eq.
    destruct (truthy (sessionId (body req))) as [sid|]; [|apply orders_move_refl].
    destruct (sessions_retrieve sid) as [e|session]; [apply orders_move_refl|].
    destruct (String.eqb _ _); [apply orders_move_confirmed_v2|apply orders_move_refl].
  - rewrite webhook_v1_eq.
    destruct (constructEvent _ _) as [msg|event]; [apply orders_move_refl|].
    simpl. destruct (String.eqb _ _); [apply orders_move_confirmed_v1|apply orders_move_refl].
  - rewrite webhook_v2_eq.
    destruct (constructEvent _ _) as [msg|event]; [apply orders_move_refl|].
    simpl. destruct (String.eqb _ _); [apply orders_move_confirmed_v2|apply orders_move_refl].
Qed.

Lemma serve_catalog c db :
  let db' := serve constructEvent sessions_retrieve sessions_create
               RESEND_API_KEY emails_send Order_validate c db in
  users db' = users db ∧
  dom (products db') = dom (products db) ∧
  (stock_nonneg db → stock_nonneg db') ∧
  ((∀ req, c ≠ CreateOrder req) → products db' = products db).
Proof.
  destruct c as [req|req|now req|now req|req|now req|now req|now req|now req]; simpl.
  - destruct (createOrder_db Order_validate req db) as [->|(items & doc & ->)].
    { split_and!; [done..|]. intros H. by destruct (H req). }
    set (db1 := set_orders _ db).
    destruct (for_of_update_stock_frame items db1) as (_ & Hu & _ & Hd & _).
    split_and!; [done|done| |].
    + intros Hnn. by apply (for_of_update_stock_nonneg items db1).
    + intros H. by destruct (H req).
  - by rewrite getOrderById_db.
  - apply catalog_kept; rewrite updateOrderStatus_eq; by repeat case_match.
  - apply catalog_kept; rewrite updateOrderToPaid_eq; by repeat case_match.
  - apply catalog_kept; rewrite create_checkout_session_v2_eq; cbn zeta;
      by repeat case_match.
  - apply catalog_kept; rewrite verify_session_v1_eq; repeat case_match; try done;
      cbn [fst snd]; apply confirmed_v1_frame.
  - apply catalog_kept; rewrite verify_session_v2_eq; repeat case_match; try done;
      cbn [fst snd]; apply confirmed_v2_frame.
  - apply catalog_kept; rewrite webhook_v1_eq; repeat case_match; try done;
      cbn [fst snd]; apply confirmed_v1_frame.
  - apply catalog_kept; rewrite webhook_v2_eq; repeat case_match; try done;
      cbn [fst snd]; apply confirmed_v2_frame.
Qed.

Lemma serve_all_snoc calls c db :
  serve_all constructEvent sessions_retrieve sessions_create
    RESEND_API_KEY emails_send Order_validate (calls ++ [c]) db =
  serve constructEvent sessions_retrieve sessions_create
    RESEND_API_KEY emails_send Order_validate c
    (serve_all constructEvent sessions_retrieve sessions_create
       RESEND_API_KEY emails_send Order_validate calls db).
Proof. unfold serve_all. by rewrite foldl_app. Qed.

Lemma serve_all_orders_evolve calls db i o :
  orders db !! i = Some o →
  ∃ o', orders (serve_all constructEvent sessions_retrieve sessions_create
                  RESEND_API_KEY emails_send Order_validate calls db) !! i = Some o' ∧
        order_moves o o'.
Proof.
  intros Ho. induction calls as [|c calls IH] using rev_ind.
  - exists o. split; [done|apply order_moves_refl].
  - destruct IH as (o1 & Ho1 & Hmove). rewrite serve_all_snoc.
    destruct (serve_orders_move c
      (serve_all constructEvent sessions_retrieve sessions_create
         RESEND_API_KEY emails_send Order_validate calls db)) as [Hstep _].
    destruct (Hstep i o1 Ho1) as (o2 & Ho2 & Hmove2).
    exists o2. split; [done|]. by apply (order_moves_trans o o1 o2).
Qed.

(** X16. Orders are permanent records.  Whatever requests the server has
    served since, an order that was in the store is still there, and the
    purchase it records has not changed: same buyer, same line items with
    their names, quantities and prices, same address, payment method and
    price fields. *)
Theorem orders_are_permanent calls db i o :
  orders db !! i = Some o →
  ∃ o', orders (serve_all constructEvent sessions_retrieve sessions_create
                  RESEND_API_KEY emails_send Order_validate calls db) !! i = Some o' ∧
        Order.user o' = Order.user o ∧
        Order.orderItems o' = Order.orderItems o ∧
        Order.shippingAddress o' = Order.shippingAddress o ∧
        Order.paymentMethod o' = Order.paymentMethod o ∧
        Order.itemsPrice o' = Order.itemsPrice o ∧
        Order.shippingPrice o' = Order.shippingPrice o ∧
        Order.taxPrice o' = Order.taxPrice o ∧
        Order.totalPrice o' = Order.totalPrice o.
Proof.
  intros Ho. destruct (serve_all_orders_evolve calls db i o Ho) as (o' & Ho' & Hs & _).
  exists o'. split; [done|exact Hs].
Qed.

(** X17. No request un-pays or un-delivers an order: whatever requests the
    server has served since, an order that was paid is still paid and an
    order that was delivered is still delivered. *)
Theorem paid_and_delivered_are_never_undone calls db i o :
  orders db !! i = Some o →
  ∃ o', orders (serve_all constructEvent sessions_retrieve sessions_create
                  RESEND_API_KEY emails_send Order_validate calls db) !! i = Some o' ∧
        (Order.isPaid o = true → Order.isPaid o' = true) ∧
        (Order.isDelivered o = true → Order.isDelivered o' = true).
Proof.
  intros Ho.
  destruct (serve_all_orders_evolve calls db i o Ho) as (o' & Ho' & _ & Hp & Hd & _).
  by exists o'.
Qed.

(** X18. The stamps follow the flags in every reachable store.  If every
    stored order has [paidAt] set exactly when [isPaid] holds and
    [deliveredAt] set exactly when [isDelivered] holds, then so has every
    order after any sequence of requests, the orders created on the way
    included. *)
Theorem stamps_agree_invariant calls db :
  (∀ i o, orders db !! i = Some o → stamps_agree o) →
  ∀ i o,
    orders (serve_all constructEvent sessions_retrieve sessions_create
              RESEND_API_KEY emails_send Order_validate calls db) !! i = Some o →
    (Order.isPaid o = true ↔ is_Some (Order.paidAt o)) ∧
    (Order.isDelivered o = true ↔ is_Some (Order.deliveredAt o)).
Proof.
  intros Hdb. induction calls as [|c calls IH] using rev_ind; [exact Hdb|].
  intros i o. rewrite serve_all_snoc.
  set (db1 := serve_all _ _ _ _ _ _ calls db) in *. intros Ho.
  destruct (serve_orders_move c db1) as [Hold Hnew].
  destruct (orders db1 !! i) as [o1|] eqn:Ho1.
  - destruct (Hold i o1 Ho1) as (o' & Ho' & _ & _ & _ & Hagree).
    assert (o' = o) as -> by congruence. apply Hagree, (IH i o1 Ho1).
  - by apply new_order_stamps_agree, (Hnew i).
Qed.

(** X20. What the requests leave alone.  No sequence of requests writes an
    account or adds or removes a product, none makes a stock negative, and
    unless one of them is an order creation the catalog is exactly as it
    was. *)
Theorem catalog_and_accounts_frame calls db :
  let db' := serve_all constructEvent sessions_retrieve sessions_create
               RESEND_API_KEY emails_send Order_validate calls db in
  users db' = users db ∧
  dom (products db') = dom (products db) ∧
  (stock_nonneg db → stock_nonneg db') ∧
  ((∀ req, CreateOrder req ∉ calls) → products db' = products db).
Proof.
  induction calls as [|c calls IH] using rev_ind; [done|].
  cbn zeta in *. rewrite serve_all_snoc.
  set (db1 := serve_all _ _ _ _ _ _ calls db) in *.
  destruct IH as (Hu & Hd & Hnn & Hp).
  destruct (serve_catalog c db1) as (Hu' & Hd' & Hnn' & Hp').
  split_and!; [congruence|congruence|by auto|].
  intros Hno. rewrite Hp', Hp; [done| |].
  - intros req Hin. apply (Hno req), elem_of_app. by left.
  - intros req ->. apply (Hno req), elem_of_app. right. by apply list_elem_of_singleton.
Qed.

End ServerFacts.

(** ** The listings *)

Lemma ceil_div_bounds total limit :
  0 < limit → 0 ≤ total →
  (ceil_div total limit - 1) * limit < total ≤ ceil_div total limit * limit ∧
  0 ≤ ceil_div total limit.
Proof.
  intros Hl Ht. unfold ceil_div.
  pose proof (Z.div_mod (- total) limit ltac:(lia)) as Hdm.
  pose proof (Z.mod_pos_bound (- total) limit Hl) as Hmod. nia.
Qed.

Lemma window_length {A} (l : list A) (k n : nat) :
  length (take n (drop k l)) = Nat.min n (length l - k).
Proof. by rewrite length_take, length_drop. Qed.

Lemma window_sublist {A} (l : list A) (k n : nat) : take n (drop k l) `sublist_of` l.
Proof. etrans; [apply sublist_take|apply sublist_drop]. Qed.

Lemma elem_of_window {A} (l : list A) (k n : nat) x :
  x ∈ take n (drop k l) → x ∈ l.
Proof. apply (sublist_subseteq _ _ (window_sublist l k n)). Qed.

Lemma window_StronglySorted {A} (R : relation A) (l : list A) (k n : nat) :
  StronglySorted R l → StronglySorted R (take n (drop k l)).
Proof.
  intros Hl. rewrite <- (take_drop k l) in Hl. apply StronglySorted_app_1_r in Hl.
  rewrite <- (take_drop n (drop k l)) in Hl. by apply StronglySorted_app_1_l in Hl.
Qed.

(** Consecutive windows of width [n], laid end to end, are a prefix. *)
Lemma windows_concat {A} (l : list A) (n m : nat) :
  concat ((λ k, take n (drop (k * n) l)) <$> seq 0 m) = take (m * n) l.
Proof.
  induction m as [|m IH]; [done|].
  rewrite seq_S, fmap_app, concat_app, IH. simpl. rewrite app_nil_r.
  rewrite take_take_drop. f_equal. lia.
Qed.

Lemma concat_fmap_fmap {A B C} (f : B → C) (g : A → list B) (l : list A) :
  concat ((λ k, f <$> g k) <$> l) = f <$> concat (g <$> l).
Proof.
  induction l as [|x l IH]; [done|].
  rewrite !fmap_cons. cbn [concat]. by rewrite fmap_app, IH.
Qed.

Section ListingFacts.

Variable createdAt : ObjectId → Z.
Variable out_of_range :
  Z → Z → list (ObjectId * Order.t) → Exn + list (ObjectId * Order.t).

Lemma Order_find_page_in_range matches page limit db :
  1 ≤ page → 1 ≤ limit →
  Order_find_page createdAt out_of_range matches ((page - 1) * limit) limit db =
    inr (take (Z.to_nat limit) (drop (Z.to_nat ((page - 1) * limit))
           (Order_find createdAt matches db))).
Proof.
  intros Hp Hl. unfold Order_find_page.
  destruct (Z.leb_spec 0 ((page - 1) * limit)); [|nia].
  by destruct (Z.ltb_spec 0 limit); [|lia].
Qed.

Global Instance newest_first_total : Total (newest_first createdAt).
Proof. intros a b. unfold newest_first. lia. Qed.

Global Instance newest_first_trans : Transitive (newest_first createdAt).
Proof. intros a b c. unfold newest_first. lia. Qed.

Lemma elem_of_Order_find matches db i o :
  (i, o) ∈ Order_find createdAt matches db ↔ orders db !! i = Some o ∧ matches o = true.
Proof.
  unfold Order_find. rewrite merge_sort_Permutation, list_elem_of_filter.
  rewrite elem_of_map_to_list. simpl. tauto.
Qed.

Lemma NoDup_Order_find matches db : NoDup (Order_find createdAt matches db).*1.
Proof.
  unfold Order_find. rewrite merge_sort_Permutation.
  eapply sublist_NoDup; [apply (NoDup_fst_map_to_list (orders db))|].
  apply fmap_sublist, sublist_filter.
Qed.

Lemma StronglySorted_Order_find matches db :
  StronglySorted (newest_first createdAt) (Order_find createdAt matches db).
Proof. apply StronglySorted_merge_sort; apply _. Qed.

Lemma length_Order_find matches db :
  length (Order_find createdAt matches db) = Order_countDocuments matches db.
Proof. unfold Order_find, Order_countDocuments. by rewrite merge_sort_Permutation. Qed.

(** X21. [getMyOrders] answers 200 with exactly the caller's orders: an
    order is in the data if and only if it is in the store and belongs to the
    requesting user, no order is listed twice, the list runs from the newest
    to the oldest, and [count] is its length. *)
Theorem getMyOrders_exactly_mine req db :
  ∃ data,
    getMyOrders createdAt req db = mkList 200 (JMyOrders (length data) data) ∧
    (∀ i o, (∃ v, v ∈ data ∧ my_id v = i ∧ my_order v = o) ↔
            (orders db !! i = Some o ∧ Order.user o = id (user req))) ∧
    NoDup (my_id <$> data) ∧
    StronglySorted (λ a b, createdAt (my_id b) ≤ createdAt (my_id a)) data.
Proof.
  eexists. split; [reflexivity|].
  set (mine := λ o : Order.t, bool_decide (Order.user o = id (user req))).
  split_and!.
  - intros i o. split.
    + intros (v & Hv & <- & <-). apply list_elem_of_fmap in Hv as ([i o] & -> & Hin).
      apply elem_of_Order_find in Hin as [Hio Hmine]. split; [done|].
      by apply bool_decide_eq_true in Hmine.
    + intros [Hio Hmine]. exists (populate_products db (i, o)). split; [|done].
      apply list_elem_of_fmap. exists (i, o). split; [done|].
      apply elem_of_Order_find. split; [done|]. by apply bool_decide_eq_true.
  - rewrite <- list_fmap_compose.
    apply (NoDup_Order_find mine db).
  - apply (StronglySorted_fmap (populate_products db) (newest_first createdAt)
             (λ a b, createdAt (my_id b) ≤ createdAt (my_id a))).
    + by intros [] [].
    + apply StronglySorted_Order_find.
Qed.

(** X22. For a page number and a limit of at least 1, [getAllOrders]
    answers 200; [total] is the number of stored orders the filter selects;
    the data holds only stored orders the filter selects, none twice, from
    the newest to the oldest; and [count], the length of the data, is the
    limit or what is left of the listing after the pages before, whichever is
    less. *)
Theorem getAllOrders_page req db page limit :
  number_or 1 (q_page (body req)) = page →
  number_or 10 (q_limit (body req)) = limit →
  1 ≤ page → 1 ≤ limit →
  ∃ data total pages,
    getAllOrders createdAt out_of_range req db
      = mkList 200 (JAllOrders (length data) total page pages data) ∧
    total = length (filter (λ io : ObjectId * Order.t,
                              query_matches (body req) io.2 = true)
                      (map_to_list (orders db))) ∧
    (∀ v, v ∈ data →
          orders db !! adm_id v = Some (adm_order v) ∧
          query_matches (body req) (adm_order v) = true) ∧
    NoDup (adm_id <$> data) ∧
    StronglySorted (λ a b, createdAt (adm_id b) ≤ createdAt (adm_id a)) data ∧
    Z.of_nat (length data)
      = Z.min limit (Z.max 0 (Z.of_nat total - (page - 1) * limit)).
Proof.
  intros Hpage Hlimit Hp Hl. unfold getAllOrders. rewrite Hpage, Hlimit.
  rewrite Order_find_page_in_range by done.
  eexists _, _, _. split; [reflexivity|].
  set (listing := Order_find createdAt (query_matches (body req)) db).
  split_and!.
  - done.
  - intros v Hv. apply list_elem_of_fmap in Hv as ([i o] & -> & Hin).
    apply elem_of_window in Hin. by apply elem_of_Order_find in Hin.
  - rewrite <- list_fmap_compose.
    eapply sublist_NoDup; [apply (NoDup_Order_find (query_matches (body req)) db)|].
    apply fmap_sublist, window_sublist.
  - apply (StronglySorted_fmap (populate_user db) (newest_first createdAt)
             (λ a b, createdAt (adm_id b) ≤ createdAt (adm_id a))).
    + by intros [] [].
    + apply window_StronglySorted, StronglySorted_Order_find.
  - rewrite length_fmap, window_length. subst listing.
    rewrite length_Order_find.
    assert (0 ≤ (page - 1) * limit) as Hskip by nia.
    revert Hskip. generalize ((page - 1) * limit). intros skip Hskip. lia.
Qed.

(** X23. The page count is right.  For a page number and a limit of at
    least 1, [pages] is the least number of pages of that size that hold the
    whole listing, the data is empty exactly on the pages after the last, and
    every page before the last is full. *)
Theorem getAllOrders_pages req db page limit data total pages count :
  number_or 1 (q_page (body req)) = page →
  number_or 10 (q_limit (body req)) = limit →
  1 ≤ page → 1 ≤ limit →
  getAllOrders createdAt out_of_range req db = mkList 200 (JAllOrders count total page pages data) →
  (pages - 1) * limit < Z.of_nat total ≤ pages * limit ∧
  (data = [] ↔ pages < page) ∧
  (page < pages → Z.of_nat (length data) = limit).
Proof.
  intros Hpage Hlimit Hp Hl. unfold getAllOrders. rewrite Hpage, Hlimit.
  rewrite Order_find_page_in_range by done.
  intros [= _ <- <- <-].
  set (total := Order_countDocuments _ db).
  destruct (ceil_div_bounds (Z.of_nat total) limit) as [Hceil Hpos]; [lia..|].
  assert (Z.of_nat (length (populate_user db <$>
            take (Z.to_nat limit) (drop (Z.to_nat ((page - 1) * limit))
              (Order_find createdAt (query_matches (body req)) db))))
          = Z.min limit (Z.max 0 (Z.of_nat total - (page - 1) * limit))) as Hlen.
  { rewrite length_fmap, window_length, length_Order_find. fold total.
    assert (0 ≤ (page - 1) * limit) as Hskip by nia.
    revert Hskip. generalize ((page - 1) * limit). intros skip Hskip. lia. }
  split; [done|]. split.
  - rewrite <- length_zero_iff_nil. nia.
  - nia.
Qed.

(** X24. The pages tile the listing.  With a limit of at least 1, the data
    of pages 1, 2, .. up to the page count, laid end to end, is the whole
    listing of the orders the filter selects, newest first: every such order
    is on exactly one page. *)
Theorem getAllOrders_pages_tile (u : ReqUser) (status isPaid : option string)
    (limit : Z) db :
  1 ≤ limit →
  let query p := {| q_status := status; q_isPaid := isPaid;
                    q_page := Some p; q_limit := Some limit |} in
  let page_data p :=
    match list_body (getAllOrders createdAt out_of_range (mkReq u None (query p)) db) with
    | JAllOrders _ _ _ _ data => data
    | _ => []
    end in
  let pages :=
    ceil_div (Z.of_nat (Order_countDocuments (query_matches (query 1)) db)) limit in
  concat ((λ k, page_data (Z.of_nat k + 1)) <$> seq 0 (Z.to_nat pages))
    = populate_user db <$> Order_find createdAt (query_matches (query 1)) db.
Proof.
  intros Hl query page_data pages.
  set (listing := Order_find createdAt (query_matches (query 1)) db).
  assert (∀ k : nat, page_data (Z.of_nat k + 1)
            = populate_user db <$> take (Z.to_nat limit) (drop (k * Z.to_nat limit) listing))
    as Hpage.
  { intros k. subst page_data. cbn beta. unfold getAllOrders. cbn [body q_page q_limit query].
    unfold number_or.
    destruct (Z.eqb_spec (Z.of_nat k + 1) 0); [lia|].
    destruct (Z.eqb_spec limit 0); [lia|].
    rewrite Order_find_page_in_range by lia.
    cbn [list_body]. do 3 f_equal. lia. }
  rewrite (list_fmap_ext _ (λ k, populate_user db <$>
             take (Z.to_nat limit) (drop (k * Z.to_nat limit) listing)) (seq 0 (Z.to_nat pages)))
    by (intros; apply Hpage).
  rewrite (concat_fmap_fmap (populate_user db)), windows_concat.
  f_equal. apply take_ge. subst listing pages.
  rewrite length_Order_find.
  destruct (ceil_div_bounds
              (Z.of_nat (Order_countDocuments (query_matches (query 1)) db)) limit)
    as [Hceil Hpos]; [lia..|]. nia.
Qed.

(** X25. The [isPaid] filter compares with the string "true": on a page
    and limit of at least 1, that value lists paid orders only, and every
    other value that is not empty, "false" as well as "yes" or "1", lists
    unpaid orders only. *)
Theorem getAllOrders_isPaid_filter req db s count total page pages data :
  q_isPaid (body req) = Some s → s ≠ "" →
  1 ≤ number_or 1 (q_page (body req)) →
  1 ≤ number_or 10 (q_limit (body req)) →
  getAllOrders createdAt out_of_range req db
    = mkList 200 (JAllOrders count total page pages data) →
  ∀ v, v ∈ data → Order.isPaid (adm_order v) = bool_decide (s = "true").
Proof.
  intros Hs Hne Hp Hl. unfold getAllOrders.
  rewrite Order_find_page_in_range by done.
  intros [= _ _ _ _ <-] v Hv.
  apply list_elem_of_fmap in Hv as ([i o] & -> & Hin).
  apply elem_of_window in Hin.
  apply elem_of_Order_find in Hin as [_ Hmatch]. simpl.
  unfold query_matches in Hmatch. apply andb_true_iff in Hmatch as [_ Hpaid].
  rewrite Hs in Hpaid. simpl in Hpaid.
  destruct (String.eqb_spec s ""); [done|].
  apply Bool.eqb_prop in Hpaid. rewrite Hpaid.
  destruct (String.eqb_spec s "true").
  - by rewrite bool_decide_eq_true_2.
  - by rewrite bool_decide_eq_false_2.
Qed.

End ListingFacts.

(** ** The upload router *)

Lemma strip_prefix_Some p s r : strip_prefix p s = Some r ↔ s = p +:+ r.
Proof.
  revert s. induction p as [|a p IH]; intros s; simpl.
  - split; [by intros [= ->]|by intros ->].
  - destruct s as [|b s].
    + split; [done|intros [=]].
    + destruct (Ascii.eqb_spec a b) as [->|Hne].
      * rewrite IH. split; [by intros ->|by intros [= ->]].
      * split; [done|]. intros [= -> _]. done.
Qed.

Lemma span_word_sound s w r :
  span_word s = (w, r) →
  s = w +:+ r ∧ all_chars is_word w = true ∧ no_word_head r.
Proof.
  revert w r. induction s as [|c s IH]; intros w r; simpl.
  - by intros [= <- <-].
  - destruct (is_word c) eqn:Hc.
    + destruct (span_word s) as [w' r'] eqn:Hs. intros [= <- <-].
      destruct (IH w' r' eq_refl) as (-> & Hw & Hr). simpl. by rewrite Hc, Hw.
    + intros [= <- <-]. simpl. by rewrite Hc.
Qed.

Lemma span_word_complete w r :
  all_chars is_word w = true → no_word_head r → span_word (w +:+ r) = (w, r).
Proof.
  intros Hw Hr. induction w as [|c w IH]; simpl in *.
  - destruct r as [|c r]; [done|]. simpl in *. by rewrite Hr.
  - apply andb_true_iff in Hw as [Hc Hw]. by rewrite Hc, IH.
Qed.

Lemma String_eqb_empty s : String.eqb s "" = false ↔ s ≠ "".
Proof. destruct (String.eqb_spec s ""); split; congruence. Qed.

Lemma match_data_url_shape s fileType base64Data :
  match_data_url s = Some (fileType, base64Data) → is_data_url s fileType base64Data.
Proof.
  unfold match_data_url, is_data_url.
  destruct (strip_prefix "data:image/" s) as [rest|] eqn:Hhead; [|done].
  apply strip_prefix_Some in Hhead as ->. cbn [mbind option_bind].
  destruct (span_word rest) as [w r] eqn:Hspan.
  apply span_word_sound in Hspan as (-> & Hw & _).
  destruct (String.eqb w "") eqn:Hne; [done|]. apply String_eqb_empty in Hne.
  destruct (strip_prefix ";base64," r) as [d|] eqn:Hsep; [|done].
  apply strip_prefix_Some in Hsep as ->. cbn [mbind option_bind].
  destruct (String.eqb d "") eqn:Hd; [done|]. apply String_eqb_empty in Hd.
  destruct (all_chars _ d) eqn:Hlines; [|done].
  by intros [= <- <-].
Qed.

Lemma match_data_url_built s fileType base64Data :
  is_data_url s fileType base64Data → match_data_url s = Some (fileType, base64Data).
Proof.
  unfold match_data_url, is_data_url.
  intros (-> & Hne & Hw & Hd & Hlines).
  assert (strip_prefix "data:image/"
            ("data:image/" +:+ fileType +:+ ";base64," +:+ base64Data)
          = Some (fileType +:+ ";base64," +:+ base64Data)) as ->
    by by apply strip_prefix_Some.
  cbn [mbind option_bind].
  rewrite (span_word_complete fileType (";base64," +:+ base64Data)) by done.
  apply String_eqb_empty in Hne as ->.
  assert (strip_prefix ";base64," (";base64," +:+ base64Data) = Some base64Data) as ->
    by by apply strip_prefix_Some.
  cbn [mbind option_bind].
  apply String_eqb_empty in Hd as ->. by rewrite Hlines.
Qed.

(** X26. The matcher of the upload route accepts exactly the strings of the
    shape "data:image/<type>;base64,<data>" with a non-empty type made of
    letters, digits and underscores and non-empty data without line breaks,
    and its two captures are that type and that data: building such a string
    and matching it gives the parts back, and nothing else matches. *)
Theorem match_data_url_spec s fileType base64Data :
  match_data_url s = Some (fileType, base64Data) ↔ is_data_url s fileType base64Data.
Proof. split; [apply match_data_url_shape|apply match_data_url_built]. Qed.

Section UploadFacts.

Variable Buffer_from_base64 : string → string.
Variable storage_upload : string → string → string → StorageResult.
Variable storage_remove : list string → StorageResult.
Variable getPublicUrl : string → string.

(** X27. An image type that is decorated is refused.  When the word run
    that opens the type is followed by any character other than ";", as in
    svg+xml, x-icon or vnd.microsoft.icon, the upload is answered 400
    "Invalid image format" whatever follows and whatever the storage service
    would do. *)
Theorem upload_refuses_decorated_type now random (u : ReqUser) w c rest :
  all_chars is_word w = true →
  is_word c = false → String c "" ≠ ";" →
  upload_post Buffer_from_base64 storage_upload getPublicUrl now random
    (mkReq u None {| image := Some ("data:image/" +:+ w +:+ String c rest) |})
  = mkUpload 400 (UMessage false "Invalid image format. Please upload a valid image.").
Proof.
  intros Hw Hc Hsemi. unfold upload_post. cbn [body image truthy].
  change (String.eqb ("data:image/" +:+ w +:+ String c rest) "") with false.
  cbn iota. unfold match_data_url.
  assert (strip_prefix "data:image/" ("data:image/" +:+ w +:+ String c rest)
          = Some (w +:+ String c rest)) as -> by by apply strip_prefix_Some.
  cbn [mbind option_bind].
  rewrite (span_word_complete w (String c rest)) by done.
  destruct (String.eqb w ""); [done|].
  assert (strip_prefix ";base64," (String c rest) = None) as ->; [|done].
  cbn [strip_prefix]. destruct (Ascii.eqb _ c) eqn:Heq; [|done].
  apply Ascii.eqb_eq in Heq. by subst.
Qed.

(** X28. A successful upload names what it stored.  When the upload is
    answered 200, the image was a data URL, the file was stored under
    "product-<now>-<random>.<type>" with content type "image/<type>", the
    [publicId] of the answer is that name and its [url] is the public URL of
    that name; and a delete request for that [publicId] is passed on to the
    storage service, never refused as missing. *)
Theorem upload_success_names_the_file now random (req : Req UploadBody)
    message url id (u : ReqUser) :
  upload_post Buffer_from_base64 storage_upload getPublicUrl now random req
    = mkUpload 200 (UUploaded message url id) →
  ∃ img fileType base64Data,
    image (body req) = Some img ∧
    is_data_url img fileType base64Data ∧
    id = "product-" +:+ pretty now +:+ "-" +:+ random +:+ "." +:+ fileType ∧
    storage_upload id (Buffer_from_base64 base64Data) ("image/" +:+ fileType) = Stored ∧
    url = getPublicUrl id ∧
    upload_delete storage_remove (mkReq u None {| publicId := Some id |})
      = match storage_remove [id] with
        | Refused message => mkUpload 500 (UError "Failed to delete image" message)
        | Failed message => mkUpload 500 (UError "Error deleting image" message)
        | Stored => mkUpload 200 (UMessage true "Image deleted successfully")
        end.
Proof.
  unfold upload_post. destruct (image (body req)) as [img|]; [|done]. simpl.
  destruct (String.eqb img ""); [done|].
  destruct (match_data_url img) as [[ft d]|] eqn:Hmatch; [|done].
  apply match_data_url_shape in Hmatch.
  destruct (storage_upload _ _ _) eqn:Hstore; [|done..].
  intros [= _ <- <-]. exists img, ft, d. split_and!; done.
Qed.

End UploadFacts.

(** ** Further runs on the sample data *)

(** X2 on a cart that takes all the stock of one product in two lines. *)
Lemma createOrder_succeeds_witness :
  let items := [line 1%N 3; line 1%N 2] in
  let doc := Order_defaults (id (user (cart items))) (body (cart items)) items in
  let i := fresh (dom (orders db0)) in
  let r := createOrder Order_schema (cart items) db0 in
  r.1 = mkRes 201 (JOrder "Order created successfully" i doc) ∧
  orders db0 !! i = None ∧
  orders r.2 = <[i := doc]> (orders db0) ∧
  (∀ j p, products db0 !! j = Some p →
     ∃ p', products r.2 !! j = Some p' ∧
           p' = foldl (reserve_line j) p items ∧
           Product.stock p' = Product.stock p - demand j items) ∧
  dom (products r.2) = dom (products db0) ∧
  users r.2 = users db0 ∧ outbox r.2 = outbox db0.
Proof.
  refine (createOrder_succeeds Order_schema (cart [line 1%N 3; line 1%N 2]) db0
            [line 1%N 3; line 1%N 2] eq_refl _ _ _ _).
  - done.
  - repeat constructor; try (simpl; lia);
      exists (grocery "Garri" 12 5 true); by vm_compute.
  - intros i p. unfold db0. simpl. intros Hp.
    apply lookup_insert_Some in Hp as [[<- <-]|[Hne Hp]]; [by vm_compute|].
    apply lookup_singleton_Some in Hp as [<- <-]. by vm_compute.
  - by vm_compute.
Defined.

(** X4: Ada reads her own order. *)
Lemma getOrderById_owner_or_admin_witness :
  getOrderById (mkReq ada (Some 0%N) tt) db1 =
    (mkRes 200 (JPopulated (populate db1 (0%N, order0))), db1).
Proof.
  apply (getOrderById_owner_or_admin ada 0%N db1 order0).
  - by vm_compute.
  - exists (User.mk "Ada" "ada@example.com" RoleUser). by vm_compute.
  - by left.
Defined.

(** X5: the order of an account that is gone. *)
Lemma getOrderById_owner_gone_witness :
  getOrderById (mkReq ada (Some 0%N) tt) db_orphan =
    (mkRes 500 (JError "Error fetching order" TypeError), db_orphan).
Proof.
  apply (getOrderById_owner_gone ada 0%N db_orphan
           (Order_defaults 42%N (body (cart [line 1%N 1])) [line 1%N 1])).
  - by vm_compute.
  - by vm_compute.
Defined.

(** X6: delivered at 1000, then set back to pending at 2000. *)
Lemma updateOrderStatus_delivered_sticks_witness :
  let db' := (updateOrderStatus 1000 (mkReq ada (Some 0%N) {| new_status := delivered |}) db1).2 in
  let db'' := (updateOrderStatus 2000 (mkReq ada (Some 0%N) {| new_status := pending |}) db').2 in
  ∃ o2, orders db'' !! 0%N = Some o2 ∧
        Order.status o2 = pending ∧
        Order.isDelivered o2 = true ∧
        Order.deliveredAt o2 = Some 1000.
Proof.
  apply (updateOrderStatus_delivered_sticks 1000 2000 ada ada 0%N pending db1 order0).
  - by vm_compute.
  - done.
Defined.

(** X7 on Ada's order. *)
Lemma pay_and_status_last_wins_witness :
  let pay t db := (updateOrderToPaid t (mkReq ada (Some 0%N) payment) db).2 in
  let set t db :=
    (updateOrderStatus t (mkReq ada (Some 0%N) {| new_status := shipped |}) db).2 in
  (∃ o', orders (pay 2000 (set 1000 db1)) !! 0%N = Some o' ∧
         Order.status o' = processing ∧ Order.isPaid o' = true ∧
         Order.paidAt o' = Some 2000) ∧
  (∃ o', orders (set 2000 (pay 1000 db1)) !! 0%N = Some o' ∧
         Order.status o' = shipped ∧ Order.isPaid o' = true ∧
         Order.paidAt o' = Some 1000).
Proof.
  apply (pay_and_status_last_wins 1000 2000 ada ada 0%N shipped payment db1 order0).
  by vm_compute.
Defined.

(** X8 on a delivery with a forged signature. *)
Lemma webhook_bad_signature_witness :
  webhook_v1 constructEvent0 2000 bad_hook db1
    = (Some (mkRes 400 (JText ("Webhook Error: " +:+
         "No signatures found matching the expected signature for payload"))), db1) ∧
  webhook_v2 constructEvent0 (Some "re_key") (λ _, true) 2000 bad_hook db1
    = (Some (mkRes 400 (JText ("Webhook Error: " +:+
         "No signatures found matching the expected signature for payload"))), db1).
Proof.
  apply (webhook_bad_signature constructEvent0 (Some "re_key") (λ _, true) 2000 bad_hook db1).
  reflexivity.
Defined.

Lemma constructEvent0_needs_raw_body : needs_raw_body constructEvent0.
Proof.
  intros [| text | bytes] sig Hb; [by eexists|by eexists|].
  by destruct (Hb bytes).
Qed.

(** C5 on the order verified as paid at 1000 and the signed delivery of its
    completed event at 2000: refused as the application is wired, accepted
    and written again by the handler on the raw body. *)
Lemma webhook_completed_as_wired_witness :
  let o := paid_update_v2 1000 "paid" session0 order0 in
  let alone1 := webhook_v1 constructEvent0 2000 completed_hook db_paid in
  let alone2 := webhook_v2 constructEvent0 (Some "re_key") (λ _, true) 2000
                  completed_hook db_paid in
  (orders db_paid !! 0%N = Some o ∧ Order.isPaid o = true ∧
   Order.paidAt o = Some 1000) ∧
  (∃ message,
     app_webhook0 (webhook_v1 constructEvent0 2000) completed_delivery db_paid =
       (Some (mkRes 400 (JText ("Webhook Error: " +:+ message))), db_paid) ∧
     app_webhook0 (webhook_v2 constructEvent0 (Some "re_key") (λ _, true) 2000)
         completed_delivery db_paid =
       (Some (mkRes 400 (JText ("Webhook Error: " +:+ message))), db_paid)) ∧
  alone1.1 = Some (mkRes 200 JReceived) ∧
  alone2.1 = Some (mkRes 200 JReceived) ∧
  orders alone1.2 !! 0%N = Some (paid_update_v1 2000 "completed" session0 o) ∧
  orders alone2.2 !! 0%N = Some (paid_update_v2 2000 "completed" session0 o).
Proof.
  assert (orders db_paid !! 0%N = Some (paid_update_v2 1000 "paid" session0 order0))
    as Ho by (by vm_compute).
  split; [by split_and!|].
  exact (webhook_completed_as_wired constructEvent0 (Some "re_key") (λ _, true)
           reads_all reads_all reads_all (Some "production")
           2000 completed_delivery db_paid "completed"
           {| ev_type := "checkout.session.completed"; ev_object := session0 |}
           0%N _ constructEvent0_needs_raw_body eq_refl eq_refl eq_refl eq_refl
           eq_refl eq_refl Ho eq_refl).
Defined.

(** C10 on the signed delivery of a payment_intent.payment_failed event. *)
Lemma webhook_payment_failed_no_mutation_witness :
  (∃ message,
     app_webhook0 (webhook_v1 constructEvent0 2000) failed_delivery db_paid =
       (Some (mkRes 400 (JText ("Webhook Error: " +:+ message))), db_paid) ∧
     app_webhook0 (webhook_v2 constructEvent0 (Some "re_key") (λ _, true) 2000)
         failed_delivery db_paid =
       (Some (mkRes 400 (JText ("Webhook Error: " +:+ message))), db_paid)) ∧
  webhook_v1 constructEvent0 2000 failed_hook db_paid
    = (Some (mkRes 200 JReceived), db_paid) ∧
  webhook_v2 constructEvent0 (Some "re_key") (λ _, true) 2000 failed_hook db_paid
    = (Some (mkRes 200 JReceived), db_paid).
Proof.
  exact (webhook_payment_failed_no_mutation constructEvent0 (Some "re_key") (λ _, true)
           reads_all reads_all reads_all (Some "production")
           2000 failed_delivery db_paid "failed"
           {| ev_type := "payment_intent.payment_failed"; ev_object := session0 |}
           constructEvent0_needs_raw_body eq_refl eq_refl eq_refl eq_refl eq_refl).
Defined.

(** X9 on the signed delivery of the completed event. *)
Lemma webhook_never_handed_raw_body_witness :
  ∃ r, (res_status r = 400 ∨ res_status r = 500) ∧ res_body r ≠ JReceived ∧
       app_webhook0 (webhook_v1 constructEvent0 2000) completed_delivery db1
         = (Some r, db1) ∧
       app_webhook0 (webhook_v2 constructEvent0 (Some "re_key") (λ _, true) 2000)
           completed_delivery db1
         = (Some r, db1).
Proof.
  exact (proj2 (webhook_never_handed_raw_body constructEvent0 (Some "re_key") (λ _, true)
                  reads_all reads_all reads_all (Some "production")
                  2000 completed_delivery db1)
               constructEvent0_needs_raw_body).
Defined.

(** X12 on Ada's order and the sample session. *)
Lemma verify_session_v2_paid_witness :
  let v := verify_session_v2 sessions_retrieve0 (Some "re_key") (λ _, true) 1000
             verify0 db1 in
  v.1 = mkRes 200 (JVerified "Payment verified" "cs_1" "paid"
                     (Some "ada@example.com") 4100) ∧
  Order.isPaid <$> orders v.2 !! 0%N = Some true ∧
  Order.status <$> orders v.2 !! 0%N = Some processing.
Proof.
  destruct (verify_session_v2_paid sessions_retrieve0 (Some "re_key") (λ _, true) 1000
              verify0 db1 "cs_1" session0 eq_refl ltac:(done) eq_refl eq_refl)
    as (Hres & Horder & _).
  split; [exact Hres|].
  destruct (Horder 0%N order0 eq_refl ltac:(by vm_compute)) as [-> _]. done.
Defined.

(** X13 on Ada's order: Mallory's pay request, Ada's verify request and the
    signed delivery of the completed event. *)
Lemma confirmations_last_writer_wins_witness :
  let pay t db := (updateOrderToPaid t (mkReq mallory (Some 0%N) payment) db).2 in
  let verify t db :=
    (verify_session_v2 sessions_retrieve0 (Some "re_key") (λ _, true) t verify0 db).2 in
  let deliver t db :=
    (app_webhook0 (webhook_v2 constructEvent0 (Some "re_key") (λ _, true) t)
       completed_delivery db).2 in
  (∀ db, deliver 1500 db = db) ∧
  orders (verify 2000 (deliver 1500 (pay 1000 db1))) !! 0%N
    = orders (verify 2000 db1) !! 0%N ∧
  orders (pay 2000 (deliver 1500 (verify 1000 db1))) !! 0%N
    = orders (pay 2000 db1) !! 0%N.
Proof.
  exact (confirmations_last_writer_wins constructEvent0 sessions_retrieve0
           (Some "re_key") (λ _, true) reads_all reads_all reads_all (Some "production")
           1000 2000 1500 mallory payment verify0 completed_delivery db1
           "cs_1" session0 0%N constructEvent0_needs_raw_body
           eq_refl ltac:(done) eq_refl eq_refl eq_refl).
Defined.

(** X15 with the provider down. *)
Lemma checkout_provider_failure_leaves_order_witness :
  let r := create_checkout_session_v2 sessions_create_down Order_schema checkout0 db0 in
  r.1 = mkRes 500 (JError "Error creating payment session"
                     (ProviderError "provider down")) ∧
  orders db0 !! fresh (dom (orders db0)) = None ∧
  ∃ o, orders r.2 !! fresh (dom (orders db0)) = Some o ∧
       Order.user o = id (user checkout0) ∧
       Order.status o = pending ∧ Order.isPaid o = false ∧
       Order.stripeSessionId o = None.
Proof.
  apply (checkout_provider_failure_leaves_order sessions_create_down Order_schema
           checkout0 db0
           [{| ci_name := "Garri"; ci_price := 12; ci_quantity := 2; ci_image := None |}]
           (ProviderError "provider down")).
  - reflexivity.
  - done.
  - by vm_compute.
  - reflexivity.
Defined.

(** The checkout route's totals on the same checkout. *)
Lemma create_checkout_session_v2_totals_witness :
  let r := create_checkout_session_v2 sessions_create0 Order_schema checkout0 db0 in
  res_status r.1 = 200 ∧
  ∃ i o cart,
    items (body checkout0) = Some cart ∧
    orders r.2 !! i = Some o ∧
    Order.itemsPrice o = foldl (λ sum item, sum + ci_price item * ci_quantity item) 0 cart ∧
    Order.taxPrice o = 0 ∧
    Order.totalPrice o = Order.itemsPrice o + Order.shippingPrice o + Order.taxPrice o ∧
    OrderItem.price <$> Order.orderItems o = ci_price <$> cart ∧
    Forall (λ item, OrderItem.product item = None) (Order.orderItems o).
Proof.
  assert (res_status (create_checkout_session_v2 sessions_create0 Order_schema
                        checkout0 db0).1 = 200) as H200 by (by vm_compute).
  split; [exact H200|].
  exact (create_checkout_session_v2_totals sessions_create0 Order_schema checkout0 db0 H200).
Defined.

(** X16 on Ada's order through the morning. *)
Lemma orders_are_permanent_witness :
  ∃ o', orders (serve_all0 morning db1) !! 0%N = Some o' ∧
        Order.user o' = Order.user order0 ∧
        Order.orderItems o' = Order.orderItems order0 ∧
        Order.shippingAddress o' = Order.shippingAddress order0 ∧
        Order.paymentMethod o' = Order.paymentMethod order0 ∧
        Order.itemsPrice o' = Order.itemsPrice order0 ∧
        Order.shippingPrice o' = Order.shippingPrice order0 ∧
        Order.taxPrice o' = Order.taxPrice order0 ∧
        Order.totalPrice o' = Order.totalPrice order0.
Proof.
  apply (orders_are_permanent constructEvent0 sessions_retrieve0 sessions_create0
           (Some "re_key") (λ _, true) Order_schema morning db1 0%N order0).
  by vm_compute.
Defined.

(** X17 on the paid order of the larger store. *)
Lemma paid_and_delivered_are_never_undone_witness :
  Order.isPaid order2 = true ∧
  ∃ o', orders (serve_all0 morning db3) !! 2%N = Some o' ∧
        (Order.isPaid order2 = true → Order.isPaid o' = true) ∧
        (Order.isDelivered order2 = true → Order.isDelivered o' = true).
Proof.
  split; [done|].
  apply (paid_and_delivered_are_never_undone constructEvent0 sessions_retrieve0
           sessions_create0 (Some "re_key") (λ _, true) Order_schema morning db3
           2%N order2).
  by vm_compute.
Defined.

Lemma stamps_agree_db1 i o : orders db1 !! i = Some o → stamps_agree o.
Proof.
  unfold db1. simpl. intros Ho.
  apply lookup_insert_Some in Ho as [[_ <-]|[_ Ho]]; [|done].
  split; (split; [done|by intros [? [=]]]).
Qed.

(** X18 through the morning, on Ada's order. *)
Lemma stamps_agree_invariant_witness :
  ∃ o, orders (serve_all0 morning db1) !! 0%N = Some o ∧
       Order.isPaid o = true ∧ Order.isDelivered o = true ∧
       (Order.isPaid o = true ↔ is_Some (Order.paidAt o)) ∧
       (Order.isDelivered o = true ↔ is_Some (Order.deliveredAt o)).
Proof.
  eexists. split; [by vm_compute|]. split; [done|]. split; [done|].
  eapply (stamps_agree_invariant constructEvent0 sessions_retrieve0 sessions_create0
            (Some "re_key") (λ _, true) Order_schema morning db1 stamps_agree_db1 0%N).
  by vm_compute.
Defined.

(** X22 on the first page of two of the three orders. *)
Lemma getAllOrders_page_witness :
  ∃ data total pages,
    getAllOrders createdAt0 out_of_range0 (admin_page 1 2) db3
      = mkList 200 (JAllOrders (length data) total 1 pages data) ∧
    total = length (filter (λ io : ObjectId * Order.t,
                              query_matches (body (admin_page 1 2)) io.2 = true)
                      (map_to_list (orders db3))) ∧
    (∀ v, v ∈ data →
          orders db3 !! adm_id v = Some (adm_order v) ∧
          query_matches (body (admin_page 1 2)) (adm_order v) = true) ∧
    NoDup (adm_id <$> data) ∧
    StronglySorted (λ a b, createdAt0 (adm_id b) ≤ createdAt0 (adm_id a)) data ∧
    Z.of_nat (length data) = Z.min 2 (Z.max 0 (Z.of_nat total - (1 - 1) * 2)).
Proof.
  apply (getAllOrders_page createdAt0 out_of_range0 (admin_page 1 2) db3 1 2).
  - reflexivity.
  - reflexivity.
  - lia.
  - lia.
Defined.

(** X23 on the second and last page of the same listing. *)
Lemma getAllOrders_pages_witness :
  ∃ count total pages data,
    getAllOrders createdAt0 out_of_range0 (admin_page 2 2) db3
      = mkList 200 (JAllOrders count total 2 pages data) ∧
    total = 3%nat ∧ pages = 2 ∧ length data = 1%nat ∧
    ((pages - 1) * 2 < Z.of_nat total ≤ pages * 2 ∧
     (data = [] ↔ pages < 2) ∧
     (2 < pages → Z.of_nat (length data) = 2)).
Proof.
  eexists _, _, _, _. split; [by vm_compute|]. split_and!; [done..|].
  eapply (getAllOrders_pages createdAt0 out_of_range0 (admin_page 2 2) db3 2 2).
  - reflexivity.
  - reflexivity.
  - lia.
  - lia.
  - by vm_compute.
Defined.

(** X24 on the three orders in pages of two. *)
Lemma getAllOrders_pages_tile_witness :
  let query p := {| q_status := None; q_isPaid := None;
                    q_page := Some p; q_limit := Some 2 |} in
  let page_data p :=
    match list_body (getAllOrders createdAt0 out_of_range0 (mkReq ada None (query p)) db3) with
    | JAllOrders _ _ _ _ data => data
    | _ => []
    end in
  let pages :=
    ceil_div (Z.of_nat (Order_countDocuments (query_matches (query 1)) db3)) 2 in
  concat ((λ k, page_data (Z.of_nat k + 1)) <$> seq 0 (Z.to_nat pages))
    = populate_user db3 <$> Order_find createdAt0 (query_matches (query 1)) db3.
Proof.
  apply (getAllOrders_pages_tile createdAt0 out_of_range0 ada None None 2 db3). lia.
Defined.

(** X25 on a listing asked with isPaid=no. *)
Lemma getAllOrders_isPaid_filter_witness :
  ∃ count total page pages data,
    getAllOrders createdAt0 out_of_range0 unpaid_page db3
      = mkList 200 (JAllOrders count total page pages data) ∧
    length data = 2%nat ∧
    ∀ v, v ∈ data → Order.isPaid (adm_order v) = bool_decide ("no" = "true").
Proof.
  eexists _, _, _, _, _. split; [by vm_compute|]. split; [done|].
  eapply (getAllOrders_isPaid_filter createdAt0 out_of_range0 unpaid_page db3 "no").
  - reflexivity.
  - done.
  - by vm_compute.
  - by vm_compute.
  - by vm_compute.
Defined.

(** X27 on an SVG image. *)
Lemma upload_refuses_decorated_type_witness :
  upload_post (λ s, s) storage_upload0 getPublicUrl0 1700000000000 "k3x9a"
    (mkReq ada None {| image := Some "data:image/svg+xml;base64,PHN2Zz4=" |})
  = mkUpload 400 (UMessage false "Invalid image format. Please upload a valid image.").
Proof.
  apply (upload_refuses_decorated_type (λ s, s) storage_upload0 getPublicUrl0
           1700000000000 "k3x9a" ada "svg"
           (Ascii.ascii_of_N 43) "xml;base64,PHN2Zz4=").
  - reflexivity.
  - reflexivity.
  - by vm_compute.
Defined.

(** X28 on a PNG image. *)
Lemma upload_success_names_the_file_witness :
  ∃ img fileType base64Data,
    image (body png_upload) = Some img ∧
    is_data_url img fileType base64Data ∧
    "product-1700000000000-k3x9a.png"
      = "product-" +:+ pretty 1700000000000 +:+ "-" +:+ "k3x9a" +:+ "." +:+ fileType ∧
    storage_upload0 "product-1700000000000-k3x9a.png" base64Data ("image/" +:+ fileType)
      = Stored ∧
    "https://cdn.example/product-1700000000000-k3x9a.png"
      = getPublicUrl0 "product-1700000000000-k3x9a.png" ∧
    upload_delete storage_remove0
        (mkReq ada None {| publicId := Some "product-1700000000000-k3x9a.png" |})
      = match storage_remove0 ["product-1700000000000-k3x9a.png"] with
        | Refused message => mkUpload 500 (UError "Failed to delete image" message)
        | Failed message => mkUpload 500 (UError "Error deleting image" message)
        | Stored => mkUpload 200 (UMessage true "Image deleted successfully")
        end.
Proof.
  apply (upload_success_names_the_file (λ s, s) storage_upload0 storage_remove0
           getPublicUrl0 1700000000000 "k3x9a" png_upload
           "Image uploaded successfully"
           "https://cdn.example/product-1700000000000-k3x9a.png"
           "product-1700000000000-k3x9a.png" ada).
  by vm_compute.
Defined.

(** X3 on the sold-out product, which the cart does not name. *)
Lemma createOrder_frame_witness :
  let db' := (createOrder Order_schema (cart [line 1%N 5]) db0).2 in
  users db' = users db0 ∧ outbox db' = outbox db0 ∧
  dom (products db') = dom (products db0) ∧
  products db' !! 2%N = products db0 !! 2%N.
Proof.
  destruct (createOrder_frame Order_schema (cart [line 1%N 5]) db0)
    as (Hu & Hm & Hd & _ & Hp).
  split_and!; [exact Hu|exact Hm|exact Hd|].
  apply Hp. intros items [= <-]. by repeat constructor.
Defined.

(** X11 on an empty session id, and on a session that is not paid yet. *)
Lemma verify_session_unconfirmed_witness :
  let retrieve := λ _ : string, inr session_open in
  let empty := mkReq ada None {| sessionId := Some "" |} in
  (verify_session_v1 retrieve 1000 empty db1
     = (mkRes 400 (JMessage false "Session ID required"), db1) ∧
   verify_session_v2 retrieve (Some "re_key") (λ _, true) 1000 empty db1
     = verify_session_v1 retrieve 1000 empty db1) ∧
  (verify_session_v1 retrieve 1000 verify0 db1
     = (mkRes 400 (JNotCompleted "Payment not completed" "unpaid"), db1) ∧
   verify_session_v2 retrieve (Some "re_key") (λ _, true) 1000 verify0 db1
     = verify_session_v1 retrieve 1000 verify0 db1).
Proof.
  split.
  - exact (proj1 (verify_session_unconfirmed (λ _ : string, inr session_open)
                    (Some "re_key") (λ _, true) 1000
                    (mkReq ada None {| sessionId := Some "" |}) db1)
                 (or_intror eq_refl)).
  - destruct (verify_session_unconfirmed (λ _ : string, inr session_open)
                (Some "re_key") (λ _, true) 1000 verify0 db1) as (_ & _ & Hopen).
    exact (Hopen "cs_1" session_open eq_refl ltac:(done) eq_refl ltac:(done)).
Defined.

(** X20 through an afternoon without new orders. *)
Lemma catalog_and_accounts_frame_witness :
  users (serve_all0 afternoon db1) = users db1 ∧
  stock_nonneg (serve_all0 afternoon db1) ∧
  products (serve_all0 afternoon db1) = products db1.
Proof.
  destruct (catalog_and_accounts_frame constructEvent0 sessions_retrieve0
              sessions_create0 (Some "re_key") (λ _, true) Order_schema afternoon db1)
    as (Hu & _ & Hnn & Hp).
  split_and!; [exact Hu|exact (Hnn stock_nonneg_db0)|].
  apply Hp. intros req Hin. unfold afternoon in Hin.
  repeat (apply elem_of_cons in Hin as [Hin|Hin]; [done|]).
  by apply elem_of_nil in Hin.
Defined.
